(** * IPDR: flow aggregation and anomaly-detection pipeline

    A shallow embedding of [backend/flows/models.py] and
    [backend/flow_processor/tasks.py], and the properties of the
    enrichment, aggregation, alerting and retention tasks.

    Conventions of the embedding.
    - A [DateTimeField] is an integer number of microseconds since the
      epoch (UTC); a [timedelta] is a number of microseconds.
    - A Python [float] ([FloatField], the derived bandwidth) is an exact
      rational: the properties below are about guards, comparisons and
      which rows are read or written, not about rounding.
    - An ORM query is read by its query semantics: [filter] selects rows;
      [aggregate] resolves the name it is given against the columns of the
      model, and raises [FieldError] for a name that is no column, such as
      [bandwidth_mbps], which is a property of the Python class;
      [values(k).annotate(...)] without [order_by()] groups by [k] and by
      the column of [Meta.ordering], [timestamp].
    - The order of rows of equal sort key is the database's: [ordering]
      fixes one, and the properties of the detector, of the aggregator
      and of the updates are stated by membership, sortedness and
      permutation.
    - Every call that leaves the process (a query, a write, a channel
      send) may fail: the world carries a schedule of failures, consumed
      one entry per call.
    - [timezone.now()] is an argument of each task; a task that reads the
      clock more than once (the aggregator reads it in every turn of its
      loop, the sweeper twice) is given the same reading each time. *)

From Stdlib Require Import ZArith QArith Qround List String Ascii Bool Lia DecimalString.
From Stdlib Require Import Permutation Sorted DecimalPos DecimalZ.
Import ListNotations.

Local Open Scope string_scope.
Local Open Scope list_scope.
Local Open Scope Z_scope.

(** ** Python values *)

Definition str_int (n : Z) : string := NilZero.string_of_int (Z.to_int n).

Definition Qltb (a b : Q) : bool := negb (Qle_bool b a).

(** Round to the nearest integer, ties to the even one. *)
Definition round_half_even (x : Q) : Z :=
  let f := Qfloor x in
  let r := (x - inject_Z f)%Q in
  if Qltb r (1 # 2) then f
  else if Qltb (1 # 2) r then f + 1
  else if Z.even f then f else f + 1.

Definition pad2 (n : Z) : string :=
  if n <? 10 then ("0" ++ str_int n)%string else str_int n.

(** [f'{x:.2f}'] *)
Definition format_2f (x : Q) : string :=
  let n := round_half_even (x * 100)%Q in
  let a := Z.abs n in
  let sign := if n <? 0 then "-" else "" in
  (sign ++ str_int (a / 100) ++ "." ++ pad2 (a mod 100))%string.

Inductive exn : Type :=
| OperationalError   (* a storage or channel call failed *)
| IntegrityError     (* a uniqueness constraint was violated *)
| ZeroDivisionError
| FieldError (keyword : string).  (* a query names what is not a column *)

(** The names that the ORM offers when it cannot resolve a keyword on
    [NetworkFlow]: its columns and the reverse relation from [FlowAlert]. *)
Definition field_choices : string :=
  "bytes, created_at, dst_asn, dst_city, dst_country, dst_ip, dst_port, duration, first_seen, flow_data, flow_id, flowalert, id, input_interface, last_seen, output_interface, packets, processed, protocol, protocol_name, src_asn, src_city, src_country, src_ip, src_port, tcp_flags, timestamp, tos, updated_at".

Definition str_exn (e : exn) : string :=
  match e with
  | OperationalError => "OperationalError"
  | IntegrityError => "IntegrityError"
  | ZeroDivisionError => "float division by zero"
  | FieldError keyword =>
      ("Cannot resolve keyword '" ++ keyword ++ "' into field. Choices are: "
         ++ field_choices)%string
  end.

Inductive result (A : Type) : Type :=
| Ok (a : A)
| Raise (e : exn).
Arguments Ok {A} a.
Arguments Raise {A} e.

(** [a / b] on numbers: raises on a zero divisor. *)
Definition truediv (a b : Q) : result Q :=
  if Qeq_bool b 0 then Raise ZeroDivisionError else Ok (a / b)%Q.

(** [x or 0] for [x] a number or [None]. *)
Definition or_0 (x : option Q) : Q :=
  match x with
  | Some v => v
  | None => 0%Q
  end.

Definition or_0z (x : option Z) : Z :=
  match x with
  | Some v => v
  | None => 0
  end.

(** ** datetime *)

Definition microseconds_per_minute : Z := 60000000.

Definition minutes (n : Z) : Z := n * microseconds_per_minute.
Definition hours (n : Z) : Z := n * 60 * microseconds_per_minute.
Definition days (n : Z) : Z := n * 24 * 60 * microseconds_per_minute.

Definition TruncMinute (t : Z) : Z := t - t mod minutes 1.
Definition TruncHour (t : Z) : Z := t - t mod hours 1.
Definition TruncDay (t : Z) : Z := t - t mod days 1.

(** ** Lists as query results *)

Section ListHelpers.
Context {A K : Type}.

Fixpoint insert_by (before : A -> A -> bool) (x : A) (l : list A) : list A :=
  match l with
  | [] => [x]
  | y :: t => if before x y then x :: l else y :: insert_by before x t
  end.

(** A stable sort: among rows that compare equal the input order is kept. *)
Definition sort_by (before : A -> A -> bool) (l : list A) : list A :=
  fold_right (insert_by before) [] l.

(** Distinct values, in order of first occurrence. *)
Fixpoint distinct (eqb : K -> K -> bool) (l : list K) : list K :=
  match l with
  | [] => []
  | x :: t => x :: filter (fun y => negb (eqb x y)) (distinct eqb t)
  end.

(** [values(key)]: the groups of a GROUP BY, each with its rows. *)
Definition group_by (eqb : K -> K -> bool) (key : A -> K) (l : list A)
  : list (K * list A) :=
  map (fun k => (k, filter (fun x => eqb k (key x)) l))
      (distinct eqb (map key l)).
End ListHelpers.

Definition len {A} (l : list A) : Z := Z.of_nat (List.length l).

Definition sum_z {A} (f : A -> Z) (l : list A) : Z :=
  fold_right (fun x acc => f x + acc) 0 l.

Definition sum_q (l : list Q) : Q := fold_right Qplus 0%Q l.

(** [Sum(field)]: [None] over no rows. *)
Definition Sum {A} (f : A -> Z) (l : list A) : option Z :=
  match l with
  | [] => None
  | _ => Some (sum_z f l)
  end.

(** [Avg] of the values: [None] over no rows. *)
Definition Avg (l : list Q) : option Q :=
  match l with
  | [] => None
  | _ => Some (sum_q l / inject_Z (len l))%Q
  end.

Definition Qmax (a b : Q) : Q := if Qle_bool a b then b else a.

(** [Max] of the values: [None] over no rows. *)
Definition Max (l : list Q) : option Q :=
  match l with
  | [] => None
  | x :: t => Some (fold_left Qmax t x)
  end.

(** The values that are not NULL. *)
Definition non_null {A} (l : list (option A)) : list A :=
  flat_map (fun o => match o with Some v => [v] | None => [] end) l.

(** Evaluate a fallible per-row value over all rows. *)
Fixpoint map_result {A B} (f : A -> result B) (l : list A) : result (list B) :=
  match l with
  | [] => Ok []
  | x :: t =>
      match f x with
      | Raise e => Raise e
      | Ok v =>
          match map_result f t with
          | Raise e => Raise e
          | Ok vs => Ok (v :: vs)
          end
      end
  end.

(** ** flows/models.py *)

Definition json_dict : Type := list (string * string).

Module NetworkFlow.
Record t : Type := mk {
  id : Z;
  flow_id : string;
  timestamp : Z;
  first_seen : Z;
  last_seen : Z;
  src_ip : string;
  dst_ip : string;
  src_port : Z;
  dst_port : Z;
  protocol : Z;
  protocol_name : string;
  packets : Z;
  bytes : Z;
  duration : Q;
  input_interface : option Z;
  output_interface : option Z;
  tos : Z;
  tcp_flags : Z;
  src_country : string;
  src_city : string;
  dst_country : string;
  dst_city : string;
  src_asn : option Z;
  dst_asn : option Z;
  flow_data : json_dict;
  created_at : Z;
  updated_at : Z;
  processed : bool
}.

(** The fields that the tasks and [save] assign; all others are copied. *)
Definition assign (f : t) (fid pname : string)
           (sco sci dco dci : string) (sasn dasn : option Z)
           (upd : Z) (proc : bool) : t :=
  mk (id f) fid (timestamp f) (first_seen f) (last_seen f)
     (src_ip f) (dst_ip f) (src_port f) (dst_port f)
     (protocol f) pname (packets f) (bytes f) (duration f)
     (input_interface f) (output_interface f) (tos f) (tcp_flags f)
     sco sci dco dci sasn dasn (flow_data f) (created_at f) upd proc.

Definition set_flow_id (v : string) (f : t) : t :=
  assign f v (protocol_name f) (src_country f) (src_city f) (dst_country f)
         (dst_city f) (src_asn f) (dst_asn f) (updated_at f) (processed f).
Definition set_protocol_name (v : string) (f : t) : t :=
  assign f (flow_id f) v (src_country f) (src_city f) (dst_country f)
         (dst_city f) (src_asn f) (dst_asn f) (updated_at f) (processed f).
Definition set_src_geo (v : string * string) (f : t) : t :=
  assign f (flow_id f) (protocol_name f) (fst v) (snd v) (dst_country f)
         (dst_city f) (src_asn f) (dst_asn f) (updated_at f) (processed f).
Definition set_dst_geo (v : string * string) (f : t) : t :=
  assign f (flow_id f) (protocol_name f) (src_country f) (src_city f) (fst v)
         (snd v) (src_asn f) (dst_asn f) (updated_at f) (processed f).
Definition set_src_asn (v : option Z) (f : t) : t :=
  assign f (flow_id f) (protocol_name f) (src_country f) (src_city f)
         (dst_country f) (dst_city f) v (dst_asn f) (updated_at f) (processed f).
Definition set_dst_asn (v : option Z) (f : t) : t :=
  assign f (flow_id f) (protocol_name f) (src_country f) (src_city f)
         (dst_country f) (dst_city f) (src_asn f) v (updated_at f) (processed f).
Definition set_updated_at (v : Z) (f : t) : t :=
  assign f (flow_id f) (protocol_name f) (src_country f) (src_city f)
         (dst_country f) (dst_city f) (src_asn f) (dst_asn f) v (processed f).
Definition set_processed (v : bool) (f : t) : t :=
  assign f (flow_id f) (protocol_name f) (src_country f) (src_city f)
         (dst_country f) (dst_city f) (src_asn f) (dst_asn f) (updated_at f) v.

Definition _get_protocol_name (f : t) : string :=
  let p := protocol f in
  if p =? 1 then "ICMP"
  else if p =? 6 then "TCP"
  else if p =? 17 then "UDP"
  else if p =? 47 then "GRE"
  else if p =? 50 then "ESP"
  else if p =? 51 then "AH"
  else if p =? 89 then "OSPF"
  else ("PROTO_" ++ str_int p)%string.

Definition bandwidth_mbps (f : t) : result Q :=
  if Qltb 0 (duration f)
  then truediv (inject_Z (bytes f * 8)) (duration f * inject_Z 1000000)
  else Ok 0%Q.

Definition packets_per_second (f : t) : result Q :=
  if Qltb 0 (duration f)
  then truediv (inject_Z (packets f)) (duration f)
  else Ok 0%Q.

(** The numeric columns of the table [network_flows], by name, as [Avg]
    and [Max] read them; a NULL gives no value.  [bandwidth_mbps] and
    [packets_per_second] are properties of the class, computed in Python:
    the table has no column of either name. *)
Definition numeric_column (name : string) : option (t -> option Q) :=
  let not_null (col : t -> Z) := Some (fun f => Some (inject_Z (col f))) in
  let nullable (col : t -> option Z) := Some (fun f => option_map inject_Z (col f)) in
  if String.eqb name "id" then not_null id
  else if String.eqb name "src_port" then not_null src_port
  else if String.eqb name "dst_port" then not_null dst_port
  else if String.eqb name "protocol" then not_null protocol
  else if String.eqb name "packets" then not_null packets
  else if String.eqb name "bytes" then not_null bytes
  else if String.eqb name "duration" then Some (fun f => Some (duration f))
  else if String.eqb name "input_interface" then nullable input_interface
  else if String.eqb name "output_interface" then nullable output_interface
  else if String.eqb name "tos" then not_null tos
  else if String.eqb name "tcp_flags" then not_null tcp_flags
  else if String.eqb name "src_asn" then nullable src_asn
  else if String.eqb name "dst_asn" then nullable dst_asn
  else None.
End NetworkFlow.

(** One row of a [values(key).annotate(count, packets, bytes)] query. *)
Record top_entry (K : Type) : Type := mk_top {
  top_key : K;
  top_count : Z;
  top_packets : Z;
  top_bytes : Z
}.
Arguments mk_top {K} _ _ _ _.
Arguments top_key {K} _.
Arguments top_count {K} _.
Arguments top_packets {K} _.
Arguments top_bytes {K} _.

Module FlowStatistics.
Record t : Type := mk {
  period : string;
  timestamp : Z;
  total_flows : Z;
  total_packets : Z;
  total_bytes : Z;
  top_src_ips : list (top_entry string);
  top_dst_ips : list (top_entry string);
  protocol_distribution : list (string * Z);
  top_ports : list (top_entry Z);
  country_distribution : list (string * Z);
  asn_distribution : list (Z * Z);
  avg_flow_duration : Q;
  max_bandwidth : Q;
  avg_bandwidth : Q;
  created_at : Z
}.
End FlowStatistics.

Module FlowAlert.
Record t : Type := mk {
  alert_type : string;
  severity : string;
  title : string;
  description : string;
  flow : option Z;              (* foreign key: NetworkFlow.id *)
  flow_data : json_dict;
  timestamp : Z;                (* auto_now_add *)
  acknowledged : bool;
  acknowledged_by : option Z;
  acknowledged_at : option Z;
  threshold_value : option Q;
  current_value : option Q
}.
End FlowAlert.

(** ** The world of a task: the three tables, the channel layer, the
    logger, and the failures that the outside will answer with. *)

Inductive level : Type := INFO | ERROR.

(** A message sent to the group ["flows"]. *)
Inductive message : Type :=
| flow_update (data : list (NetworkFlow.t * Q))  (* a row and its bandwidth *)
| statistics_update (data : FlowStatistics.t).

Record World : Type := mk_world {
  network_flows : list NetworkFlow.t;
  flow_statistics : list FlowStatistics.t;
  flow_alerts : list FlowAlert.t;
  channel : list message;
  log : list (level * string);
  faults : list bool
}.

Definition with_network_flows (v : list NetworkFlow.t) (w : World) : World :=
  mk_world v (flow_statistics w) (flow_alerts w) (channel w) (log w) (faults w).
Definition with_flow_statistics (v : list FlowStatistics.t) (w : World) : World :=
  mk_world (network_flows w) v (flow_alerts w) (channel w) (log w) (faults w).
Definition with_flow_alerts (v : list FlowAlert.t) (w : World) : World :=
  mk_world (network_flows w) (flow_statistics w) v (channel w) (log w) (faults w).
Definition with_channel (v : list message) (w : World) : World :=
  mk_world (network_flows w) (flow_statistics w) (flow_alerts w) v (log w) (faults w).
Definition with_log (v : list (level * string)) (w : World) : World :=
  mk_world (network_flows w) (flow_statistics w) (flow_alerts w) (channel w) v (faults w).
Definition with_faults (v : list bool) (w : World) : World :=
  mk_world (network_flows w) (flow_statistics w) (flow_alerts w) (channel w) (log w) v.

(** A task step: it ends normally or by raising, and in both cases leaves
    a world behind (a write that happened before a raise stays written). *)
Definition M (A : Type) : Type := World -> result A * World.

Definition ret {A} (a : A) : M A := fun w => (Ok a, w).

Definition bind {A B} (c : M A) (k : A -> M B) : M B :=
  fun w =>
    match c w with
    | (Ok a, w') => k a w'
    | (Raise e, w') => (Raise e, w')
    end.

Definition raise {A} (e : exn) : M A := fun w => (Raise e, w).

(** A computation inside the process, which may raise. *)
Definition lift {A} (r : result A) : M A := fun w => (r, w).

Definition try_except {A} (body : M A) (handler : exn -> M A) : M A :=
  fun w =>
    match body w with
    | (Ok a, w') => (Ok a, w')
    | (Raise e, w') => handler e w'
    end.

Notation "x <- c ;; k" := (bind c (fun x => k))
  (at level 61, c at next level, right associativity).
Notation "c ;; k" := (bind c (fun _ => k))
  (at level 61, right associativity).

Fixpoint for_each {A} (l : list A) (body : A -> M unit) : M unit :=
  match l with
  | [] => ret tt
  | x :: t => body x ;; for_each t body
  end.

(** A call that leaves the process: it fails when the schedule says so. *)
Definition external {A} (call : World -> result A * World) : M A :=
  fun w =>
    match faults w with
    | true :: rest => (Raise OperationalError, with_faults rest w)
    | false :: rest => call (with_faults rest w)
    | [] => call w
    end.

Definition logger_info (msg : string) : M unit :=
  fun w => (Ok tt, with_log (log w ++ [(INFO, msg)]) w).

Definition logger_error (msg : string) : M unit :=
  fun w => (Ok tt, with_log (log w ++ [(ERROR, msg)]) w).

(** ** The ORM *)

(** A lazy query over [network_flows]: evaluated against the table as it
    is at the moment of each use. *)
Definition QuerySet : Type := list NetworkFlow.t -> list NetworkFlow.t.

(** [Meta.ordering = ['-timestamp']], seen by iteration and slicing:
    newest first.  The order among rows of one timestamp is the
    database's; the model takes the order of the table, and the
    properties of what is read in this order are stated by membership,
    sortedness and permutation. *)
Definition ordering (rows : list NetworkFlow.t) : list NetworkFlow.t :=
  sort_by (fun a b => NetworkFlow.timestamp b <=? NetworkFlow.timestamp a) rows.

Definition objects_filter (p : NetworkFlow.t -> bool) : QuerySet :=
  fun table => filter p table.

Definition exclude (p : NetworkFlow.t -> bool) (q : QuerySet) : QuerySet :=
  fun table => filter (fun f => negb (p f)) (q table).

Definition fetch {A} (q : QuerySet) (f : list NetworkFlow.t -> result A) : M A :=
  external (fun w => (f (q (network_flows w)), w)).

Definition qs_exists (q : QuerySet) : M bool :=
  fetch q (fun rows => Ok (match rows with [] => false | _ => true end)).

Definition qs_count (q : QuerySet) : M Z :=
  fetch q (fun rows => Ok (len rows)).

(** Iteration: the rows in the model's ordering. *)
Definition qs_iter (q : QuerySet) : M (list NetworkFlow.t) :=
  fetch q (fun rows => Ok (ordering rows)).

(** [q[i:j]], iterated. *)
Definition qs_slice (q : QuerySet) (i j : nat) : M (list NetworkFlow.t) :=
  fetch q (fun rows => Ok (firstn (j - i) (skipn i (ordering rows)))).

(** [q.aggregate(agg(field))] for an integer column. *)
Definition aggregate_z {A} (q : QuerySet) (agg : list NetworkFlow.t -> A) : M A :=
  fetch q (fun rows => Ok (agg rows)).

(** [q.aggregate(agg(name))] for [Avg] and [Max].  The ORM resolves
    [name] against the columns of the model when it builds the query: a
    name that is no column raises [FieldError] there, before any call to
    the database.  A property of the Python class is no column. *)
Definition aggregate (q : QuerySet) (name : string)
           (agg : list Q -> option Q) : M (option Q) :=
  match NetworkFlow.numeric_column name with
  | None => raise (FieldError name)
  | Some value => fetch q (fun rows => Ok (agg (non_null (map value rows))))
  end.

(** The groups of [q.values(key).annotate(...)] when the query has no
    [order_by()]: the default ordering of the model,
    [Meta.ordering = ['-timestamp']], applies to it, which puts
    [timestamp] into the GROUP BY beside [key] and orders the groups by
    it.  One group per pair of a key and a timestamp, newest first. *)
Definition values_annotate {K} (keqb : K -> K -> bool) (key : NetworkFlow.t -> K)
           (rows : list NetworkFlow.t) : list ((K * Z) * list NetworkFlow.t) :=
  sort_by (fun a b => snd (fst b) <=? snd (fst a))
    (group_by (fun a b => keqb (fst a) (fst b) && (snd a =? snd b))
              (fun f => (key f, NetworkFlow.timestamp f)) rows).

(** [q.values(key).annotate(n=Count(col, distinct=True)).filter(n__gte=least)]:
    the rows of the result carry [key] and [n]. *)
Definition count_distinct_gte {K C} (keqb : K -> K -> bool) (key : NetworkFlow.t -> K)
           (ceqb : C -> C -> bool) (col : NetworkFlow.t -> C) (least : Z)
           (rows : list NetworkFlow.t) : list (K * Z) :=
  filter (fun kn => least <=? snd kn)
         (map (fun g => (fst (fst g), len (distinct ceqb (map col (snd g)))))
              (values_annotate keqb key rows)).

(** [FlowAlert.objects.create(...)]: the fields not given take their
    defaults, [timestamp] is the time of creation. *)
Definition FlowAlert_create (now : Z) (alert_type severity title description : string)
           (flow : option Z) (threshold_value current_value : option Q) : M unit :=
  external (fun w =>
    (Ok tt,
     with_flow_alerts
       (flow_alerts w ++
          [FlowAlert.mk alert_type severity title description flow []
                        now false None None threshold_value current_value])
       w)).

(** ** flow_processor/tasks.py: the anomaly detector *)

(** The [try] block of [check_bandwidth_spikes]. *)
Definition try_bandwidth_spikes (now : Z) : M unit :=
  let recent_flows :=
    objects_filter (fun f => now - minutes 5 <=? NetworkFlow.timestamp f) in
  nonempty <- qs_exists recent_flows ;;
  if nonempty then
    avg <- aggregate recent_flows "bandwidth_mbps" Avg ;;
    let avg_bandwidth := or_0 avg in
    max <- aggregate recent_flows "bandwidth_mbps" Max ;;
    let max_bandwidth := or_0 max in
    if Qltb (avg_bandwidth * 5) max_bandwidth && Qltb 100 max_bandwidth then
      FlowAlert_create now
        "bandwidth_spike" "medium"
        ("Bandwidth spike detected: " ++ format_2f max_bandwidth ++ " Mbps")%string
        ("Maximum bandwidth " ++ format_2f max_bandwidth
           ++ " Mbps is significantly higher than average "
           ++ format_2f avg_bandwidth ++ " Mbps")%string
        None
        (Some (avg_bandwidth * 5)%Q)
        (Some max_bandwidth)
    else ret tt
  else ret tt.

Definition check_bandwidth_spikes (now : Z) : M unit :=
  try_except (try_bandwidth_spikes now)
    (fun e => logger_error ("Error checking bandwidth spikes: " ++ str_exn e)%string).

Definition well_known_protocol (f : NetworkFlow.t) : bool :=
  let p := NetworkFlow.protocol f in
  (p =? 1) || (p =? 6) || (p =? 17).

(** The [try] block of [check_unusual_protocols]. *)
Definition try_unusual_protocols (now : Z) : M unit :=
  let recent_flows :=
    objects_filter (fun f => now - minutes 5 <=? NetworkFlow.timestamp f) in
  let unusual_protocols := exclude well_known_protocol recent_flows in
  nonempty <- qs_exists unusual_protocols ;;
  if nonempty then
    rows <- qs_iter unusual_protocols ;;
    for_each rows (fun flow =>
      FlowAlert_create now
        "unusual_protocol" "low"
        ("Unusual protocol detected: " ++ NetworkFlow.protocol_name flow)%string
        ("Protocol " ++ NetworkFlow.protocol_name flow
           ++ " (ID: " ++ str_int (NetworkFlow.protocol flow)
           ++ ") detected from " ++ NetworkFlow.src_ip flow
           ++ " to " ++ NetworkFlow.dst_ip flow)%string
        (Some (NetworkFlow.id flow))
        None
        (Some (inject_Z (NetworkFlow.protocol flow))))
  else ret tt.

Definition check_unusual_protocols (now : Z) : M unit :=
  try_except (try_unusual_protocols now)
    (fun e => logger_error ("Error checking unusual protocols: " ++ str_exn e)%string).

(** The [try] block of [check_port_scans]. *)
Definition try_port_scans (now : Z) : M unit :=
  let recent_flows :=
    objects_filter (fun f => now - minutes 5 <=? NetworkFlow.timestamp f) in
  port_scan_sources <-
    fetch recent_flows (fun rows =>
      Ok (count_distinct_gte String.eqb NetworkFlow.src_ip
                             Z.eqb NetworkFlow.dst_port 10 rows)) ;;
  for_each port_scan_sources (fun source =>
    let src_ip := fst source in
    let unique_ports := snd source in
    FlowAlert_create now
      "port_scan" "medium"
      ("Potential port scan from " ++ src_ip)%string
      ("Source " ++ src_ip ++ " connected to " ++ str_int unique_ports
         ++ " different ports")%string
      None
      (Some (inject_Z 10))
      (Some (inject_Z unique_ports))).

Definition check_port_scans (now : Z) : M unit :=
  try_except (try_port_scans now)
    (fun e => logger_error ("Error checking port scans: " ++ str_exn e)%string).

(** The [try] block of [check_ddos_patterns]. *)
Definition try_ddos_patterns (now : Z) : M unit :=
  let recent_flows :=
    objects_filter (fun f => now - minutes 5 <=? NetworkFlow.timestamp f) in
  ddos_targets <-
    fetch recent_flows (fun rows =>
      Ok (count_distinct_gte String.eqb NetworkFlow.dst_ip
                             String.eqb NetworkFlow.src_ip 50 rows)) ;;
  for_each ddos_targets (fun target =>
    let dst_ip := fst target in
    let unique_sources := snd target in
    FlowAlert_create now
      "ddos_attack" "high"
      ("Potential DDoS attack on " ++ dst_ip)%string
      ("Destination " ++ dst_ip ++ " received traffic from "
         ++ str_int unique_sources ++ " different sources")%string
      None
      (Some (inject_Z 50))
      (Some (inject_Z unique_sources))).

Definition check_ddos_patterns (now : Z) : M unit :=
  try_except (try_ddos_patterns now)
    (fun e => logger_error ("Error checking DDoS patterns: " ++ str_exn e)%string).

Definition check_flow_alerts (now : Z) : M unit :=
  try_except
    (logger_info "Checking for flow alerts" ;;
     check_bandwidth_spikes now ;;
     check_unusual_protocols now ;;
     check_port_scans now ;;
     check_ddos_patterns now ;;
     logger_info "Flow alert checking completed")
    (fun e =>
       logger_error ("Error checking flow alerts: " ++ str_exn e)%string ;;
       raise e).

(** ** flow_processor/tasks.py: the windowed aggregator *)

(** [values(key).annotate(count, packets, bytes).order_by('-bytes')[:10]] *)
Definition top_10 {K} (eqb : K -> K -> bool) (key : NetworkFlow.t -> K)
           (rows : list NetworkFlow.t) : list (top_entry K) :=
  firstn 10
    (sort_by (fun a b => top_bytes b <=? top_bytes a)
       (map (fun g => mk_top (fst g) (len (snd g))
                             (sum_z NetworkFlow.packets (snd g))
                             (sum_z NetworkFlow.bytes (snd g)))
            (group_by eqb key rows))).

(** [dict(pairs)]: a later pair replaces the value of an earlier pair
    with the same key. *)
Fixpoint dict_set {K V} (eqb : K -> K -> bool) (k : K) (v : V) (d : list (K * V))
  : list (K * V) :=
  match d with
  | [] => [(k, v)]
  | (k', v') :: t =>
      if eqb k k' then (k', v) :: t else (k', v') :: dict_set eqb k v t
  end.

Definition dict {K V} (eqb : K -> K -> bool) (pairs : list (K * V)) : list (K * V) :=
  fold_left (fun d kv => dict_set eqb (fst kv) (snd kv) d) pairs [].

(** [dict(q.values(key).annotate(count=Count('id')).values_list(key, 'count'))],
    a query without [order_by()]. *)
Definition distribution {K} (eqb : K -> K -> bool) (key : NetworkFlow.t -> K)
           (rows : list NetworkFlow.t) : list (K * Z) :=
  dict eqb (map (fun g => (fst (fst g), len (snd g))) (values_annotate eqb key rows)).

(** The keyword arguments that [calculate_flow_statistics] returns: every
    column of a snapshot but [created_at]. *)
Definition stats_kwargs : Type := Z -> FlowStatistics.t.

(** [calculate_flow_statistics].  Its fifth query, [Max('bandwidth_mbps')],
    raises (see [aggregate]); the queries written after it are not sent,
    and are read here by their grouping and ordering alone. *)
Definition calculate_flow_statistics (flows : QuerySet) (period : string)
           (timestamp : Z) : M stats_kwargs :=
  total_flows <- qs_count flows ;;
  packets_sum <- aggregate_z flows (Sum NetworkFlow.packets) ;;
  let total_packets := or_0z packets_sum in
  bytes_sum <- aggregate_z flows (Sum NetworkFlow.bytes) ;;
  let total_bytes := or_0z bytes_sum in
  duration_avg <- aggregate flows "duration" Avg ;;
  let avg_flow_duration := or_0 duration_avg in
  bandwidth_max <- aggregate flows "bandwidth_mbps" Max ;;
  let max_bandwidth := or_0 bandwidth_max in
  bandwidth_avg <- aggregate flows "bandwidth_mbps" Avg ;;
  let avg_bandwidth := or_0 bandwidth_avg in
  top_src_ips <-
    fetch flows (fun rows => Ok (top_10 String.eqb NetworkFlow.src_ip rows)) ;;
  top_dst_ips <-
    fetch flows (fun rows => Ok (top_10 String.eqb NetworkFlow.dst_ip rows)) ;;
  protocol_distribution <-
    fetch flows (fun rows =>
      Ok (distribution String.eqb NetworkFlow.protocol_name rows)) ;;
  top_ports <-
    fetch flows (fun rows => Ok (top_10 Z.eqb NetworkFlow.dst_port rows)) ;;
  country_distribution <-
    fetch (exclude (fun f => String.eqb (NetworkFlow.src_country f) "") flows)
          (fun rows => Ok (distribution String.eqb NetworkFlow.src_country rows)) ;;
  asn_distribution <-
    fetch (exclude (fun f => match NetworkFlow.src_asn f with
                             | None => true
                             | Some _ => false
                             end) flows)
          (fun rows =>
             Ok (distribution Z.eqb (fun f => or_0z (NetworkFlow.src_asn f)) rows)) ;;
  ret (FlowStatistics.mk period timestamp total_flows total_packets total_bytes
         top_src_ips top_dst_ips protocol_distribution top_ports
         country_distribution asn_distribution
         avg_flow_duration max_bandwidth avg_bandwidth).

Definition same_bucket (period : string) (timestamp : Z) (s : FlowStatistics.t) : bool :=
  String.eqb (FlowStatistics.period s) period
  && (FlowStatistics.timestamp s =? timestamp).

(** [FlowStatistics.objects.filter(period=..., timestamp=...).exists()] *)
Definition FlowStatistics_exists (period : string) (timestamp : Z) : M bool :=
  external (fun w =>
    (Ok (existsb (same_bucket period timestamp) (flow_statistics w)), w)).

(** [FlowStatistics.objects.create] with the keyword arguments [stats],
    under [unique_together = ['period', 'timestamp']]. *)
Definition FlowStatistics_create (now : Z) (stats : stats_kwargs) : M unit :=
  external (fun w =>
    let row := stats now in
    if existsb (same_bucket (FlowStatistics.period row) (FlowStatistics.timestamp row))
               (flow_statistics w)
    then (Raise IntegrityError, w)
    else (Ok tt, with_flow_statistics (flow_statistics w ++ [row]) w)).

(** The data of a ["statistics_update"] message. *)
Definition stats_data (s : FlowStatistics.t) : FlowStatistics.t :=
  FlowStatistics.mk (FlowStatistics.period s) (FlowStatistics.timestamp s)
    (FlowStatistics.total_flows s) (FlowStatistics.total_packets s)
    (FlowStatistics.total_bytes s)
    (firstn 5 (FlowStatistics.top_src_ips s))
    (firstn 5 (FlowStatistics.top_dst_ips s))
    (FlowStatistics.protocol_distribution s) [] [] []
    0%Q 0%Q (FlowStatistics.avg_bandwidth s) 0.

Definition group_send (msg : message) : M unit :=
  external (fun w => (Ok tt, with_channel (channel w ++ [msg]) w)).

Definition send_statistics_updates (now : Z) : M unit :=
  try_except
    (stats <-
       external (fun w =>
         (Ok (hd_error
                (sort_by (fun a b => FlowStatistics.timestamp b <=? FlowStatistics.timestamp a)
                   (filter (fun s => String.eqb (FlowStatistics.period s) "1m"
                                     && (now - minutes 5 <=? FlowStatistics.timestamp s))
                           (flow_statistics w)))),
          w)) ;;
     match stats with
     | Some s => group_send (statistics_update (stats_data s))
     | None => ret tt
     end)
    (fun e => logger_error ("Error sending statistics updates: " ++ str_exn e)%string).

Definition periods : list (string * (Z -> Z) * Z) :=
  [ ("1m", TruncMinute, minutes 1);
    ("5m", TruncMinute, minutes 5);
    ("15m", TruncMinute, minutes 15);
    ("1h", TruncHour, hours 1);
    ("1d", TruncDay, days 1) ].

(** The flows of one bucket: [timestamp__gte] and [timestamp__lt]. *)
Definition bucket_flows (bucket_start time_delta : Z) : QuerySet :=
  objects_filter (fun f =>
    (bucket_start - time_delta <=? NetworkFlow.timestamp f)
    && (NetworkFlow.timestamp f <? bucket_start)).

(** The body of the loop over [periods]; a [continue] ends it early. *)
Definition aggregate_period (now : Z) (p : string * (Z -> Z) * Z) : M unit :=
  let '(period_name, trunc_func, time_delta) := p in
  let bucket_start := trunc_func now in
  already <- FlowStatistics_exists period_name bucket_start ;;
  if already then ret tt
  else
    let flows := bucket_flows bucket_start time_delta in
    nonempty <- qs_exists flows ;;
    if negb nonempty then ret tt
    else
      stats <- calculate_flow_statistics flows period_name bucket_start ;;
      FlowStatistics_create now stats ;;
      logger_info ("Created " ++ period_name ++ " statistics for "
                     ++ str_int bucket_start)%string.

Definition aggregate_flow_statistics (now : Z) : M unit :=
  try_except
    (logger_info "Starting flow statistics aggregation" ;;
     for_each periods (aggregate_period now) ;;
     send_statistics_updates now ;;
     logger_info "Flow statistics aggregation completed")
    (fun e =>
       logger_error ("Error aggregating statistics: " ++ str_exn e)%string ;;
       raise e).

(** ** flow_processor/tasks.py: the retention sweeper *)

Definition mem_z (x : Z) (l : list Z) : bool := existsb (Z.eqb x) l.

(** [FlowAlert.flow] is a [ForeignKey(NetworkFlow, on_delete=CASCADE)]:
    deleting flows deletes the alerts that refer to them. *)
Definition refers_to (ids : list Z) (a : FlowAlert.t) : bool :=
  match FlowAlert.flow a with
  | Some i => mem_z i ids
  | None => false
  end.

(** [q.delete()] on flows. *)
Definition delete_flows (q : QuerySet) : M unit :=
  external (fun w =>
    let ids := map NetworkFlow.id (q (network_flows w)) in
    (Ok tt,
     with_flow_alerts
       (filter (fun a => negb (refers_to ids a)) (flow_alerts w))
       (with_network_flows
          (filter (fun f => negb (mem_z (NetworkFlow.id f) ids)) (network_flows w))
          w))).

Definition cleanup_old_flows (FLOW_RETENTION_DAYS : option Z) (now : Z) : M unit :=
  try_except
    (let retention_days :=
       match FLOW_RETENTION_DAYS with Some d => d | None => 30 end in
     let cutoff_date := now - days retention_days in
     let old_flows :=
       objects_filter (fun f => NetworkFlow.timestamp f <? cutoff_date) in
     count <- qs_count old_flows ;;
     (if 0 <? count then
        delete_flows old_flows ;;
        logger_info ("Deleted " ++ str_int count ++ " old flows (older than "
                       ++ str_int retention_days ++ " days)")%string
      else ret tt) ;;
     let old_stats := fun s => FlowStatistics.timestamp s <? cutoff_date in
     stats_count <-
       external (fun w => (Ok (len (filter old_stats (flow_statistics w))), w)) ;;
     (if 0 <? stats_count then
        external (fun w =>
          (Ok tt,
           with_flow_statistics
             (filter (fun s => negb (old_stats s)) (flow_statistics w)) w)) ;;
        logger_info ("Deleted " ++ str_int stats_count ++ " old statistics")%string
      else ret tt) ;;
     let alert_cutoff := now - days 90 in
     let old_alerts := fun a => FlowAlert.timestamp a <? alert_cutoff in
     alert_count <-
       external (fun w => (Ok (len (filter old_alerts (flow_alerts w))), w)) ;;
     (if 0 <? alert_count then
        external (fun w =>
          (Ok tt,
           with_flow_alerts
             (filter (fun a => negb (old_alerts a)) (flow_alerts w)) w)) ;;
        logger_info ("Deleted " ++ str_int alert_count ++ " old alerts")%string
      else ret tt))
    (fun e =>
       logger_error ("Error cleaning up old flows: " ++ str_exn e)%string ;;
       raise e).

(** ** flows/models.py, [NetworkFlow.save], and
    flow_processor/tasks.py: the enrichment stage *)

Section Enrichment.
(** [hashlib.sha256(s.encode()).hexdigest()] and [datetime.isoformat()]. *)
Variable sha256_hexdigest : string -> string.
Variable isoformat : Z -> string.

Definition _generate_flow_id (f : NetworkFlow.t) : string :=
  let flow_string :=
    (NetworkFlow.src_ip f ++ ":" ++ str_int (NetworkFlow.src_port f) ++ ":"
       ++ NetworkFlow.dst_ip f ++ ":" ++ str_int (NetworkFlow.dst_port f) ++ ":"
       ++ str_int (NetworkFlow.protocol f) ++ ":"
       ++ isoformat (NetworkFlow.first_seen f))%string in
  substring 0 16 (sha256_hexdigest flow_string).

(** [super().save()]: [updated_at] is [auto_now]; the row with this
    primary key is updated, or inserted when there is none; [flow_id]
    is unique. *)
Definition Model_save (now : Z) (flow : NetworkFlow.t) : M unit :=
  external (fun w =>
    let row := NetworkFlow.set_updated_at now flow in
    let table := network_flows w in
    if existsb (fun f => negb (NetworkFlow.id f =? NetworkFlow.id row)
                         && String.eqb (NetworkFlow.flow_id f) (NetworkFlow.flow_id row))
               table
    then (Raise IntegrityError, w)
    else if mem_z (NetworkFlow.id row) (map NetworkFlow.id table)
    then (Ok tt,
          with_network_flows
            (map (fun f => if NetworkFlow.id f =? NetworkFlow.id row then row else f)
                 table) w)
    else (Ok tt, with_network_flows (table ++ [row]) w)).

Definition save (now : Z) (flow : NetworkFlow.t) : M unit :=
  let flow :=
    if String.eqb (NetworkFlow.flow_id flow) ""
    then NetworkFlow.set_flow_id (_generate_flow_id flow) flow
    else flow in
  let flow :=
    if String.eqb (NetworkFlow.protocol_name flow) ""
    then NetworkFlow.set_protocol_name (NetworkFlow._get_protocol_name flow) flow
    else flow in
  Model_save now flow.

Definition get_geolocation (ip_address : string) : string * string := ("", "").

Definition get_asn (ip_address : string) : option Z := None.

(** [not asn] for a nullable integer: [None] and [0] are both false. *)
Definition not_asn (asn : option Z) : bool :=
  match asn with
  | None => true
  | Some v => v =? 0
  end.

Definition send_flow_updates (now : Z) : M unit :=
  try_except
    (recent_flows <-
       qs_slice (objects_filter
                   (fun f => now - minutes 5 <=? NetworkFlow.timestamp f)) 0 10 ;;
     flow_data <-
       lift (map_result (fun flow =>
                           match NetworkFlow.bandwidth_mbps flow with
                           | Ok b => Ok (flow, b)
                           | Raise e => Raise e
                           end) recent_flows) ;;
     group_send (flow_update flow_data))
    (fun e => logger_error ("Error sending flow updates: " ++ str_exn e)%string).

(** [range(0, stop, step)] *)
Definition range_step (stop step : nat) : list nat :=
  map (fun k => (k * step)%nat) (seq 0 ((stop + step - 1) / step)%nat).

(** The body of the loop over a batch. *)
Definition enrich (now : Z) (flow : NetworkFlow.t) : M unit :=
  let flow :=
    if String.eqb (NetworkFlow.src_country flow) ""
    then NetworkFlow.set_src_geo (get_geolocation (NetworkFlow.src_ip flow)) flow
    else flow in
  let flow :=
    if String.eqb (NetworkFlow.dst_country flow) ""
    then NetworkFlow.set_dst_geo (get_geolocation (NetworkFlow.dst_ip flow)) flow
    else flow in
  let flow :=
    if not_asn (NetworkFlow.src_asn flow)
    then NetworkFlow.set_src_asn (get_asn (NetworkFlow.src_ip flow)) flow
    else flow in
  let flow :=
    if not_asn (NetworkFlow.dst_asn flow)
    then NetworkFlow.set_dst_asn (get_asn (NetworkFlow.dst_ip flow)) flow
    else flow in
  let flow := NetworkFlow.set_processed true flow in
  save now flow.

Definition process_network_flows (now : Z) : M unit :=
  try_except
    (let unprocessed_flows :=
       objects_filter (fun f => negb (NetworkFlow.processed f)) in
     nonempty <- qs_exists unprocessed_flows ;;
     if negb nonempty then logger_info "No unprocessed flows found"
     else
       shown <- qs_count unprocessed_flows ;;
       logger_info ("Processing " ++ str_int shown ++ " flows")%string ;;
       let batch_size := 100%nat in
       total <- qs_count unprocessed_flows ;;
       for_each (range_step (Z.to_nat total) batch_size) (fun i =>
         batch <- qs_slice unprocessed_flows i (i + batch_size) ;;
         for_each batch (enrich now) ;;
         logger_info ("Processed batch "
                        ++ str_int (Z.of_nat (i / batch_size + 1)))%string) ;;
       send_flow_updates now ;;
       logger_info "Flow processing completed")
    (fun e =>
       logger_error ("Error processing flows: " ++ str_exn e)%string ;;
       raise e).
End Enrichment.

(** ** Vocabulary of the properties *)

(** The value of [bandwidth_mbps] when it does not raise. *)
Definition bandwidth (f : NetworkFlow.t) : Q :=
  if Qltb 0 (NetworkFlow.duration f)
  then (inject_Z (NetworkFlow.bytes f * 8)
        / (NetworkFlow.duration f * inject_Z 1000000))%Q
  else 0%Q.

(** The trailing window of the heuristics: [timestamp__gte=now - 5 minutes]. *)
Definition recent (now : Z) (f : NetworkFlow.t) : bool :=
  now - minutes 5 <=? NetworkFlow.timestamp f.

(** The world a task leaves behind, and how it ended. *)
Definition after {A} (c : M A) (w : World) : World := snd (c w).
Definition outcome {A} (c : M A) (w : World) : result A := fst (c w).

(** ** Sample worlds *)

Definition sample_flow (id timestamp : Z) (src_ip dst_ip : string) (dst_port protocol : Z)
           (bytes : Z) : NetworkFlow.t :=
  NetworkFlow.mk id ("flow-" ++ str_int id)%string timestamp timestamp timestamp
    src_ip dst_ip 40000 dst_port protocol "TCP" 10 bytes 1%Q None None 0 0
    "" "" "" "" None None [] timestamp timestamp false.

Definition world_of (flows : list NetworkFlow.t) (stats : list FlowStatistics.t)
           (alerts : list FlowAlert.t) (faults : list bool) : World :=
  mk_world flows stats alerts [] [] faults.

(** Ten minutes after the epoch. *)
Definition t0 : Z := minutes 10.

(** Bandwidths 100, 0, 0, 0, 0 Mbps: average 20, maximum 100. *)
Definition quiet_world : World :=
  world_of
    [ sample_flow 1 (minutes 8) "10.0.0.1" "10.0.1.1" 80 6 12500000;
      sample_flow 2 (minutes 8) "10.0.0.2" "10.0.1.1" 80 6 0;
      sample_flow 3 (minutes 8) "10.0.0.3" "10.0.1.1" 80 6 0;
      sample_flow 4 (minutes 8) "10.0.0.4" "10.0.1.1" 80 6 0;
      sample_flow 5 (minutes 8) "10.0.0.5" "10.0.1.1" 80 6 0 ] [] [] [].

(** Bandwidths 100.01, 19.99, 0, 0, 0, 0 Mbps: average 20, maximum 100.01. *)
Definition spike_world : World :=
  world_of
    [ sample_flow 1 (minutes 8) "10.0.0.1" "10.0.1.1" 80 6 12501250;
      sample_flow 2 (minutes 8) "10.0.0.2" "10.0.1.1" 80 6 2498750;
      sample_flow 3 (minutes 8) "10.0.0.3" "10.0.1.1" 80 6 0;
      sample_flow 4 (minutes 8) "10.0.0.4" "10.0.1.1" 80 6 0;
      sample_flow 5 (minutes 8) "10.0.0.5" "10.0.1.1" 80 6 0;
      sample_flow 6 (minutes 8) "10.0.0.6" "10.0.1.1" 80 6 0 ] [] [] [].

(** [n] flows of the instant [t], from [n] different sources to one
    destination. *)
Definition fan_in_at (t : Z) (n : nat) : list NetworkFlow.t :=
  map (fun i => sample_flow (Z.of_nat i) t
                  ("10.0.0." ++ str_int (Z.of_nat i))%string "10.0.1.1" 80 6 0)
      (seq 1 n).

(** ... at minute 8, within the window of [t0]. *)
Definition fan_in (n : nat) : World := world_of (fan_in_at (minutes 8) n) [] [] [].

(** [n] flows within the window of [t0], from [n] different sources to
    one destination, one per second from minute 8 on. *)
Definition spread_fan_in (n : nat) : World :=
  world_of
    (map (fun i => sample_flow (Z.of_nat i) (minutes 8 + Z.of_nat i * 1000000)
                     ("10.0.0." ++ str_int (Z.of_nat i))%string "10.0.1.1" 80 6 0)
         (seq 1 n))
    [] [] [].

(** A flow of protocol GRE dated [t]. *)
Definition gre_flow (t : Z) : NetworkFlow.t :=
  sample_flow 1 t "10.0.0.1" "10.0.1.1" 80 47 0.

(** A flow dated one minute after [t0], of protocol GRE. *)
Definition future_flow : NetworkFlow.t :=
  sample_flow 1 (minutes 11) "10.0.0.1" "10.0.1.1" 80 47 0.

(** The selection of a bucket: [bucket_start - window <= timestamp < bucket_start]. *)
Definition in_bucket (bucket_start time_delta : Z) (f : NetworkFlow.t) : bool :=
  (bucket_start - time_delta <=? NetworkFlow.timestamp f)
  && (NetworkFlow.timestamp f <? bucket_start).



Definition nonempty {A} (l : list A) : bool :=
  match l with
  | [] => false
  | _ => true
  end.

(** At [t0] the one-minute bucket starts at minute 10 and covers minute 9:
    one flow on the lower boundary, one on the upper. *)
Definition boundary_world : World :=
  world_of
    [ sample_flow 1 (minutes 9) "10.0.0.1" "10.0.1.1" 80 6 1000;
      sample_flow 2 (minutes 10) "10.0.0.2" "10.0.1.1" 80 6 500 ] [] [] [].

(** Seven and a half minutes after the epoch. *)
Definition half_past_seven : Z := minutes 7 + 30000000.

(** The start of the bucket of a period: [trunc_func(now)]. *)
Definition bucket_start (now : Z) (p : string * (Z -> Z) * Z) : Z :=
  let '(_, trunc_func, _) := p in trunc_func now.

(** A period needs no work: its bucket has a snapshot, or no flow. *)
Definition is_settled (now : Z) (w : World) (p : string * (Z -> Z) * Z) : bool :=
  let '(name, trunc, delta) := p in
  existsb (same_bucket name (trunc now)) (flow_statistics w)
  || negb (nonempty (filter (in_bucket (trunc now) delta) (network_flows w))).

Definition settled (now : Z) (w : World) (p : string * (Z -> Z) * Z) : Prop :=
  is_settled now w p = true.

(** A step that raises, whatever the world. *)
Definition always_raises {A} (c : M A) : Prop :=
  forall w, exists e, outcome c w = Raise e.

(** One hundred days after the epoch: a flow of day 69, older than the
    30 days of flow retention, and the alert raised for it on the same
    day, younger than the 90 days of alert retention. *)
Definition day_100 : Z := days 100.

Definition alert_about (flow : option Z) : FlowAlert.t :=
  FlowAlert.mk "unusual_protocol" "low" "Unusual protocol detected: GRE"
    "Protocol GRE (ID: 47) detected from 10.0.0.1 to 10.0.1.1"
    flow [] (days 69) false None None None (Some (inject_Z 47)).

Definition alert_of_day_69 : FlowAlert.t := alert_about (Some 1).

Definition day_100_world : World :=
  world_of [sample_flow 1 (days 69) "10.0.0.1" "10.0.1.1" 80 47 0] []
           [alert_of_day_69] [].

(** The columns that enrichment and [save] never assign. *)
Definition same_fixed_columns (f g : NetworkFlow.t) : Prop :=
  NetworkFlow.id g = NetworkFlow.id f
  /\ NetworkFlow.timestamp g = NetworkFlow.timestamp f
  /\ NetworkFlow.first_seen g = NetworkFlow.first_seen f
  /\ NetworkFlow.last_seen g = NetworkFlow.last_seen f
  /\ NetworkFlow.src_ip g = NetworkFlow.src_ip f
  /\ NetworkFlow.dst_ip g = NetworkFlow.dst_ip f
  /\ NetworkFlow.src_port g = NetworkFlow.src_port f
  /\ NetworkFlow.dst_port g = NetworkFlow.dst_port f
  /\ NetworkFlow.protocol g = NetworkFlow.protocol f
  /\ NetworkFlow.packets g = NetworkFlow.packets f
  /\ NetworkFlow.bytes g = NetworkFlow.bytes f
  /\ NetworkFlow.duration g = NetworkFlow.duration f
  /\ NetworkFlow.input_interface g = NetworkFlow.input_interface f
  /\ NetworkFlow.output_interface g = NetworkFlow.output_interface f
  /\ NetworkFlow.tos g = NetworkFlow.tos f
  /\ NetworkFlow.tcp_flags g = NetworkFlow.tcp_flags f
  /\ NetworkFlow.flow_data g = NetworkFlow.flow_data f
  /\ NetworkFlow.created_at g = NetworkFlow.created_at f.

(** Row [g] is row [f] after enrichment. *)
Definition enriched (f g : NetworkFlow.t) : Prop :=
  same_fixed_columns f g
  /\ NetworkFlow.processed g = true
  /\ (NetworkFlow.src_country f <> "" ->
      NetworkFlow.src_country g = NetworkFlow.src_country f
      /\ NetworkFlow.src_city g = NetworkFlow.src_city f)
  /\ (NetworkFlow.dst_country f <> "" ->
      NetworkFlow.dst_country g = NetworkFlow.dst_country f
      /\ NetworkFlow.dst_city g = NetworkFlow.dst_city f)
  /\ (not_asn (NetworkFlow.src_asn f) = false ->
      NetworkFlow.src_asn g = NetworkFlow.src_asn f)
  /\ (not_asn (NetworkFlow.dst_asn f) = false ->
      NetworkFlow.dst_asn g = NetworkFlow.dst_asn f)
  /\ (NetworkFlow.flow_id f <> "" -> NetworkFlow.flow_id g = NetworkFlow.flow_id f)
  /\ (NetworkFlow.protocol_name f <> "" ->
      NetworkFlow.protocol_name g = NetworkFlow.protocol_name f).

(** What a run of the enrichment stage may do to a row: nothing, or
    enrich it if it was not processed. *)
Definition row_step (f g : NetworkFlow.t) : Prop :=
  g = f \/ (NetworkFlow.processed f = false /\ enriched f g).

Definition enriches_only {A} (c : M A) : Prop :=
  forall w, NoDup (map NetworkFlow.id (network_flows w)) ->
            Forall2 row_step (network_flows w) (network_flows (after c w)).

(** An unprocessed flow whose source ASN is recorded as 0. *)
Definition asn_zero_flow : NetworkFlow.t :=
  NetworkFlow.set_src_asn (Some 0)
    (sample_flow 1 (minutes 8) "10.0.0.1" "10.0.1.1" 80 6 1000).

(** Stand-ins for the digest and the date format in sample runs. *)
Definition sample_digest (s : string) : string := s.
Definition sample_isoformat (t : Z) : string := str_int t.

(** A step that leaves one component of the world as it found it. *)
Definition keeps {A B} (proj : World -> B) (c : M A) : Prop :=
  forall w, proj (after c w) = proj w.

(** A step that sees the flows only through the trailing window of [now],
    and does not change them: run on a world whose table is replaced by
    another one with the same window, it ends the same way and leaves the
    same world, but for the table. *)
Definition window_blind {A} (now : Z) (c : M A) : Prop :=
  forall w table,
    filter (recent now) table = filter (recent now) (network_flows w) ->
    c (with_network_flows table w)
    = (outcome c w, with_network_flows table (after c w))
    /\ network_flows (after c w) = network_flows w.

(** What [try: body / except Exception as e: logger.error(prefix + str(e))]
    makes of the world [w]: what [body] makes of it, and, when [body]
    raises, one more line in the log, which says so. *)
Definition caught_and_logged (body : M unit) (prefix : string) (w w' : World) : Prop :=
  (outcome body w = Ok tt /\ w' = after body w)
  \/ (exists e,
         outcome body w = Raise e
         /\ w' = with_log (log (after body w)
                             ++ [(ERROR, (prefix ++ str_exn e)%string)])
                          (after body w)).

(** One GRE flow in the window of [t0], and a first call that fails. *)
Definition failing_world : World :=
  world_of [sample_flow 1 (minutes 8) "10.0.0.1" "10.0.1.1" 80 47 0] [] [] [true].

(** A flow dated nine minutes before [t0]. *)
Definition old_flow : NetworkFlow.t :=
  sample_flow 9 (minutes 1) "10.0.0.9" "10.0.1.1" 80 47 0.

(** ** What the heuristics emit when no call fails *)

Definition unusual_alert (now : Z) (flow : NetworkFlow.t) : FlowAlert.t :=
  FlowAlert.mk "unusual_protocol" "low"
    ("Unusual protocol detected: " ++ NetworkFlow.protocol_name flow)%string
    ("Protocol " ++ NetworkFlow.protocol_name flow
       ++ " (ID: " ++ str_int (NetworkFlow.protocol flow)
       ++ ") detected from " ++ NetworkFlow.src_ip flow
       ++ " to " ++ NetworkFlow.dst_ip flow)%string
    (Some (NetworkFlow.id flow)) [] now false None None
    None (Some (inject_Z (NetworkFlow.protocol flow))).

Definition unusual_flows (now : Z) (table : list NetworkFlow.t) : list NetworkFlow.t :=
  ordering (filter (fun f => negb (well_known_protocol f)) (filter (recent now) table)).

(** The rows of the group of key [k] and timestamp [t], and the number
    of distinct values of a column among them. *)
Definition group_rows {K} (keqb : K -> K -> bool) (key : NetworkFlow.t -> K)
           (k : K) (t : Z) (rows : list NetworkFlow.t) : list NetworkFlow.t :=
  filter (fun f => keqb k (key f) && (t =? NetworkFlow.timestamp f)) rows.

Definition distinct_in_group {K C} (keqb : K -> K -> bool) (key : NetworkFlow.t -> K)
           (ceqb : C -> C -> bool) (col : NetworkFlow.t -> C)
           (k : K) (t : Z) (rows : list NetworkFlow.t) : Z :=
  len (distinct ceqb (map col (group_rows keqb key k t rows))).

Definition port_scan_alert (now : Z) (source : string * Z) : FlowAlert.t :=
  FlowAlert.mk "port_scan" "medium"
    ("Potential port scan from " ++ fst source)%string
    ("Source " ++ fst source ++ " connected to " ++ str_int (snd source)
       ++ " different ports")%string
    None [] now false None None
    (Some (inject_Z 10)) (Some (inject_Z (snd source))).

Definition port_scan_sources (now : Z) (table : list NetworkFlow.t) : list (string * Z) :=
  count_distinct_gte String.eqb NetworkFlow.src_ip Z.eqb NetworkFlow.dst_port 10
                     (filter (recent now) table).

Definition ddos_alert (now : Z) (target : string * Z) : FlowAlert.t :=
  FlowAlert.mk "ddos_attack" "high"
    ("Potential DDoS attack on " ++ fst target)%string
    ("Destination " ++ fst target ++ " received traffic from "
       ++ str_int (snd target) ++ " different sources")%string
    None [] now false None None
    (Some (inject_Z 50)) (Some (inject_Z (snd target))).

Definition ddos_targets (now : Z) (table : list NetworkFlow.t) : list (string * Z) :=
  count_distinct_gte String.eqb NetworkFlow.dst_ip String.eqb NetworkFlow.src_ip 50
                     (filter (recent now) table).

(** All that one run of [check_flow_alerts] emits. *)
Definition emitted_alerts (now : Z) (table : list NetworkFlow.t) : list FlowAlert.t :=
  map (unusual_alert now) (unusual_flows now table)
  ++ map (port_scan_alert now) (port_scan_sources now table)
  ++ map (ddos_alert now) (ddos_targets now table).

(** [n] flows of the instant [t], from one source to [n] ports. *)
Definition scan_at (t : Z) (n : nat) : list NetworkFlow.t :=
  map (fun i => sample_flow (Z.of_nat i) t "10.0.0.7" "10.0.1.1"
                            (1000 + Z.of_nat i) 6 0)
      (seq 1 n).

(** Twelve flows of minute 8, in the window of [t0], from one source to
    twelve ports. *)
Definition scan_world : World := world_of (scan_at (minutes 8) 12) [] [] [].

(** Twelve flows in the window of [t0], from one source to twelve ports,
    one per second from minute 8 on. *)
Definition spread_scan_world : World :=
  world_of
    (map (fun i => sample_flow (Z.of_nat i) (minutes 8 + Z.of_nat i * 1000000)
                               "10.0.0.7" "10.0.1.1" (1000 + Z.of_nat i) 6 0)
         (seq 1 12))
    [] [] [].

(** An alert as the detector creates it: dated [now], not acknowledged. *)
Definition fresh_alert (now : Z) (a : FlowAlert.t) : Prop :=
  FlowAlert.timestamp a = now
  /\ FlowAlert.acknowledged a = false
  /\ FlowAlert.acknowledged_by a = None
  /\ FlowAlert.acknowledged_at a = None.

(** A step that keeps the alerts there are and may add fresh ones. *)
Definition only_appends (now : Z) {A} (c : M A) : Prop :=
  forall w, exists new,
    flow_alerts (after c w) = flow_alerts w ++ new /\ Forall (fresh_alert now) new.

(** A step that, started with no failure pending, ends with none pending. *)
Definition stays_quiet {A} (c : M A) : Prop :=
  forall w, faults w = [] -> faults (after c w) = [].

(** The retention horizon of flows and statistics. *)
Definition retention_cutoff (setting : option Z) (now : Z) : Z :=
  now - days (match setting with Some d => d | None => 30 end).

(** The alert refers to a flow of the table that is older than the cutoff. *)
Definition refers_to_old_flow (cutoff : Z) (table : list NetworkFlow.t)
           (a : FlowAlert.t) : Prop :=
  exists f, In f table
            /\ FlowAlert.flow a = Some (NetworkFlow.id f)
            /\ NetworkFlow.timestamp f < cutoff.

(** Day 100 again: a flow and a snapshot exactly 30 days old, a flow and
    a snapshot one microsecond older, and an alert that refers to no flow. *)
Definition sample_snapshot (period : string) (timestamp : Z) : FlowStatistics.t :=
  FlowStatistics.mk period timestamp 1 10 1000 [] [] [] [] [] [] 1%Q 0%Q 0%Q timestamp.

Definition retention_world : World :=
  world_of
    [ sample_flow 1 (days 70) "10.0.0.1" "10.0.1.1" 80 6 0;
      sample_flow 2 (days 70 - 1) "10.0.0.2" "10.0.1.1" 80 6 0 ]
    [ sample_snapshot "1d" (days 70); sample_snapshot "1d" (days 70 - 1) ]
    [ alert_about None ] [].

(** A step whose every run relates the world before to the world after. *)
Definition respects (R : World -> World -> Prop) {A} (c : M A) : Prop :=
  forall w, R w (after c w).

(** What a sweep may do to tables with distinct primary keys: drop rows,
    but no flow or snapshot that is not older than [cutoff], and no alert
    that is not older than [alert_cutoff] unless it refers to a flow
    older than [cutoff]. *)
Definition sweeps (cutoff alert_cutoff : Z) (w w' : World) : Prop :=
  NoDup (map NetworkFlow.id (network_flows w)) ->
  NoDup (map NetworkFlow.id (network_flows w'))
  /\ (exists keep,
         network_flows w' = filter keep (network_flows w)
         /\ forall f, In f (network_flows w) ->
                      cutoff <= NetworkFlow.timestamp f -> keep f = true)
  /\ (exists keep,
         flow_statistics w' = filter keep (flow_statistics w)
         /\ forall s, cutoff <= FlowStatistics.timestamp s -> keep s = true)
  /\ (exists keep,
         flow_alerts w' = filter keep (flow_alerts w)
         /\ forall a, alert_cutoff <= FlowAlert.timestamp a ->
                      ~ refers_to_old_flow cutoff (network_flows w) a ->
                      keep a = true).

(** The world of day 100 with a flow exactly 30 days old added, and a
    first call that succeeds before the second fails. *)
Definition interrupted_world : World :=
  world_of
    [ sample_flow 1 (days 69) "10.0.0.1" "10.0.1.1" 80 47 0;
      sample_flow 2 (days 70) "10.0.0.2" "10.0.1.1" 80 6 0 ]
    [ sample_snapshot "1d" (days 70) ] [ alert_about None ] [false; true].

(** Greatest first. *)
Definition heavier_first {A} (weight : A -> Z) (a b : A) : Prop :=
  weight b <= weight a.

(** A snapshot of the minute of [t0], and no flow. *)
Definition settled_world : World :=
  world_of [] [sample_snapshot "1m" (minutes 10)] [] [].

(** The flow of minute 3, seen at 00:07:30, with snapshots of the periods
    5m and 15m dated 00:07:00, the minute of the run ... *)
Definition minute_dated_world : World :=
  world_of [sample_flow 1 (minutes 3) "10.0.0.1" "10.0.1.1" 80 6 1000]
           [sample_snapshot "5m" (minutes 7); sample_snapshot "15m" (minutes 7)] [] [].

(** ... and with snapshots dated 00:05:00 and 00:00:00 instead, the
    boundaries of five and of fifteen minutes before the run. *)
Definition boundary_dated_world : World :=
  world_of [sample_flow 1 (minutes 3) "10.0.0.1" "10.0.1.1" 80 6 1000]
           [sample_snapshot "5m" (minutes 5); sample_snapshot "15m" 0] [] [].

(** ** What enrichment writes *)

Definition unprocessed (table : list NetworkFlow.t) : list NetworkFlow.t :=
  filter (fun f => negb (NetworkFlow.processed f)) table.

Section Written.
Variable sha256_hexdigest : string -> string.
Variable isoformat : Z -> string.

(** The row that one turn of the batch loop hands to [Model_save]. *)
Definition written (flow : NetworkFlow.t) : NetworkFlow.t :=
  let flow :=
    if String.eqb (NetworkFlow.src_country flow) ""
    then NetworkFlow.set_src_geo (get_geolocation (NetworkFlow.src_ip flow)) flow
    else flow in
  let flow :=
    if String.eqb (NetworkFlow.dst_country flow) ""
    then NetworkFlow.set_dst_geo (get_geolocation (NetworkFlow.dst_ip flow)) flow
    else flow in
  let flow :=
    if not_asn (NetworkFlow.src_asn flow)
    then NetworkFlow.set_src_asn (get_asn (NetworkFlow.src_ip flow)) flow
    else flow in
  let flow :=
    if not_asn (NetworkFlow.dst_asn flow)
    then NetworkFlow.set_dst_asn (get_asn (NetworkFlow.dst_ip flow)) flow
    else flow in
  let flow := NetworkFlow.set_processed true flow in
  let flow :=
    if String.eqb (NetworkFlow.flow_id flow) ""
    then NetworkFlow.set_flow_id (_generate_flow_id sha256_hexdigest isoformat flow) flow
    else flow in
  let flow :=
    if String.eqb (NetworkFlow.protocol_name flow) ""
    then NetworkFlow.set_protocol_name (NetworkFlow._get_protocol_name flow) flow
    else flow in
  flow.

(** The row as stored: [updated_at] is the time of the save. *)
Definition stored (now : Z) (flow : NetworkFlow.t) : NetworkFlow.t :=
  NetworkFlow.set_updated_at now (written flow).

(** The batch that the loop reads at offset [i]. *)
Definition batch_at (i : nat) (table : list NetworkFlow.t) : list NetworkFlow.t :=
  firstn 100 (skipn i (ordering (unprocessed table))).

(** The table after the batch at offset [i] has been enriched. *)
Definition batch_step (now : Z) (table : list NetworkFlow.t) (i : nat)
  : list NetworkFlow.t :=
  map (fun f => if mem_z (NetworkFlow.id f) (map NetworkFlow.id (batch_at i table))
                then stored now f else f)
      table.
End Written.

(** The tables are keyed as the schema says, and every row that awaits
    enrichment has its [flow_id]. *)
Definition well_keyed (table : list NetworkFlow.t) : Prop :=
  NoDup (map NetworkFlow.id table)
  /\ NoDup (map NetworkFlow.flow_id table)
  /\ forall f, In f table -> NetworkFlow.processed f = false ->
               NetworkFlow.flow_id f <> "".

(** [n] unprocessed flows in the window of [t0]. *)
Definition backlog (n : nat) : World :=
  world_of
    (map (fun i => sample_flow (Z.of_nat i) (minutes 8) "10.0.0.1" "10.0.1.1" 80 6 0)
         (seq 1 n))
    [] [] [].

(** The rows of a flow update: the ten newest flows of the trailing
    window of [now], each with its bandwidth. *)
Definition newest_flows (now : Z) (table : list NetworkFlow.t) : list NetworkFlow.t :=
  firstn 10 (ordering (filter (recent now) table)).

Definition flow_data_of (rows : list NetworkFlow.t) : list (NetworkFlow.t * Q) :=
  map (fun f => (f, bandwidth f)) rows.

(** Twelve flows of the window of [t0], one per second from minute 8 on. *)
Definition twelve_flows_world : World :=
  world_of
    (map (fun i => sample_flow (Z.of_nat i) (minutes 8 + Z.of_nat i * 1000000)
                               "10.0.0.1" "10.0.1.1" 80 6 0)
         (seq 1 12))
    [] [] [].

(** The snapshots that a statistics update chooses from: those of the
    1m period in the trailing five minutes of [now]. *)
Definition latest_minutes (now : Z) (stats : list FlowStatistics.t)
  : list FlowStatistics.t :=
  filter (fun s => String.eqb (FlowStatistics.period s) "1m"
                   && (now - minutes 5 <=? FlowStatistics.timestamp s))
         stats.

(** Snapshots of minutes 6, 8 and 7 and of the hour, seen at [t0]. *)
Definition three_minutes_world : World :=
  world_of []
    [ sample_snapshot "1m" (minutes 6); sample_snapshot "1m" (minutes 8);
      sample_snapshot "1h" (minutes 9); sample_snapshot "1m" (minutes 7) ]
    [] [].

(** * Properties *)

(** ** The models *)

Lemma Qltb_lt (a b : Q) : Qltb a b = true <-> (a < b)%Q.
Proof.
  unfold Qltb. rewrite negb_true_iff. split; intro H.
  - apply Qnot_le_lt. intro L. apply Qle_bool_iff in L. congruence.
  - destruct (Qle_bool b a) eqn:E; [|reflexivity].
    apply Qle_bool_iff in E. exfalso. exact (Qlt_not_le _ _ H E).
Qed.

Lemma Qltb_irrefl_eq (a b : Q) : (b == a)%Q -> Qltb a b = false.
Proof.
  intro E. destruct (Qltb a b) eqn:H; [|reflexivity].
  apply Qltb_lt in H. rewrite E in H. exfalso. exact (Qlt_irrefl _ H).
Qed.

Lemma truediv_nonzero (a b : Q) : ~ (b == 0)%Q -> truediv a b = Ok (a / b)%Q.
Proof.
  intro H. unfold truediv. destruct (Qeq_bool b 0) eqn:E; [|reflexivity].
  apply Qeq_bool_eq in E. contradiction.
Qed.

Lemma scaled_duration_nonzero (d : Q) :
  (0 < d)%Q -> ~ (d * inject_Z 1000000 == 0)%Q.
Proof.
  intros H E. apply Qmult_integral in E. destruct E as [E | E].
  - rewrite E in H. exact (Qlt_irrefl _ H).
  - discriminate E.
Qed.

(** C6. The derived fields are total: with a positive duration
    [bandwidth_mbps] is [bytes*8/(duration*1e6)] and [packets_per_second]
    is [packets/duration]; with duration 0 both are 0; neither ever
    raises, so the division by zero is unreachable. *)
Theorem derived_fields_total (f : NetworkFlow.t) :
  ((0 < NetworkFlow.duration f)%Q ->
     NetworkFlow.bandwidth_mbps f
       = Ok (inject_Z (NetworkFlow.bytes f * 8)
             / (NetworkFlow.duration f * inject_Z 1000000))%Q
     /\ NetworkFlow.packets_per_second f
       = Ok (inject_Z (NetworkFlow.packets f) / NetworkFlow.duration f)%Q)
  /\ ((NetworkFlow.duration f == 0)%Q ->
     NetworkFlow.bandwidth_mbps f = Ok 0%Q
     /\ NetworkFlow.packets_per_second f = Ok 0%Q)
  /\ (forall e, NetworkFlow.bandwidth_mbps f <> Raise e
                /\ NetworkFlow.packets_per_second f <> Raise e).
Proof.
  unfold NetworkFlow.bandwidth_mbps, NetworkFlow.packets_per_second.
  split; [|split].
  - intro H. rewrite (proj2 (Qltb_lt _ _) H). split.
    + apply truediv_nonzero, scaled_duration_nonzero, H.
    + apply truediv_nonzero. intro E. rewrite E in H. exact (Qlt_irrefl _ H).
  - intro E. rewrite (Qltb_irrefl_eq _ _ E). split; reflexivity.
  - intro e. destruct (Qltb 0 (NetworkFlow.duration f)) eqn:D.
    + apply Qltb_lt in D. split.
      * rewrite truediv_nonzero by (apply scaled_duration_nonzero, D). discriminate.
      * rewrite truediv_nonzero; [discriminate|].
        intro E. rewrite E in D. exact (Qlt_irrefl _ D).
    + split; discriminate.
Qed.

(** ** Running a task *)

Lemma external_no_faults {A} (call : World -> result A * World) (w : World) :
  faults w = [] -> external call w = call w.
Proof. intro H. unfold external. rewrite H. reflexivity. Qed.

Lemma map_result_total {A B} (f : A -> result B) (g : A -> B) (l : list A) :
  (forall x, f x = Ok (g x)) -> map_result f l = Ok (map g l).
Proof.
  intro H. induction l as [|x t IH]; simpl.
  - reflexivity.
  - rewrite H, IH. reflexivity.
Qed.

Lemma bandwidth_mbps_value (f : NetworkFlow.t) :
  NetworkFlow.bandwidth_mbps f = Ok (bandwidth f).
Proof.
  unfold NetworkFlow.bandwidth_mbps, bandwidth.
  destruct (Qltb 0 (NetworkFlow.duration f)) eqn:D; [|reflexivity].
  apply truediv_nonzero, scaled_duration_nonzero, Qltb_lt, D.
Qed.

Lemma fetch_no_faults {A} (q : QuerySet) (f : list NetworkFlow.t -> result A) w :
  faults w = [] -> fetch q f w = (f (q (network_flows w)), w).
Proof. intro H. unfold fetch. rewrite external_no_faults by exact H. reflexivity. Qed.

(** An aggregate over a column reads the rows; over a name that is no
    column it raises where it stands. *)
Lemma aggregate_column (q : QuerySet) name value agg w :
  NetworkFlow.numeric_column name = Some value ->
  faults w = [] ->
  aggregate q name agg w
  = (Ok (agg (non_null (map value (q (network_flows w))))), w).
Proof.
  intros C H. unfold aggregate. rewrite C. apply fetch_no_faults, H.
Qed.

Lemma aggregate_bandwidth_mbps (q : QuerySet) agg :
  aggregate q "bandwidth_mbps" agg = raise (FieldError "bandwidth_mbps").
Proof. reflexivity. Qed.

Lemma bind_ok {A B} (c : M A) (k : A -> M B) (w : World) (a : A) :
  outcome c w = Ok a -> bind c k w = k a (after c w).
Proof.
  unfold outcome, after, bind. destruct (c w) as [r w1]. simpl.
  intro E. rewrite E. reflexivity.
Qed.

Lemma bind_step {A B} (c : M A) (k : A -> M B) (w w1 : World) (a : A) :
  c w = (Ok a, w1) -> bind c k w = k a w1.
Proof. intro E. unfold bind. rewrite E. reflexivity. Qed.

Lemma try_except_ok {A} (body : M A) (handler : exn -> M A) (w w1 : World) (a : A) :
  body w = (Ok a, w1) -> try_except body handler w = (Ok a, w1).
Proof. intro E. unfold try_except. rewrite E. reflexivity. Qed.

Lemma after_bind {A B} (c : M A) (k : A -> M B) (w : World) :
  after (bind c k) w
  = match outcome c w with
    | Ok a => after (k a) (after c w)
    | Raise _ => after c w
    end.
Proof.
  unfold after, outcome, bind. destruct (c w) as [[a | e] w1]; reflexivity.
Qed.

Lemma after_try_except {A} (body : M A) (handler : exn -> M A) (w : World) :
  after (try_except body handler) w
  = match outcome body w with
    | Ok _ => after body w
    | Raise e => after (handler e) (after body w)
    end.
Proof.
  unfold after, outcome, try_except. destruct (body w) as [[a | e] w1]; reflexivity.
Qed.

(** ** Lists *)

Lemma filter_none {A} (f : A -> bool) (l : list A) :
  existsb f l = false -> filter f l = [].
Proof.
  induction l as [|x t IH]; simpl; [reflexivity|].
  intro H. apply orb_false_iff in H. destruct H as (Hx & Ht).
  rewrite Hx. apply IH, Ht.
Qed.

Lemma filter_some {A} (f : A -> bool) (l : list A) :
  existsb f l = true -> filter f l <> [].
Proof.
  induction l as [|x t IH]; simpl; [discriminate|].
  destruct (f x); [discriminate | exact IH].
Qed.

Lemma filter_all {A} (p : A -> bool) (l : list A) :
  filter p l = [] -> filter (fun x => negb (p x)) l = l.
Proof.
  induction l as [|x t IH]; simpl; [reflexivity|].
  destruct (p x); [discriminate|]. simpl. intro H. rewrite IH by exact H. reflexivity.
Qed.

Lemma len_zero {A} (l : list A) : (0 <? len l) = false -> l = [].
Proof.
  destruct l; [reflexivity|]. unfold len. simpl List.length.
  intro H. apply Z.ltb_ge in H. lia.
Qed.

Lemma filter_keep_all {A} (p : A -> bool) (l : list A) :
  (forall x, p x = true) -> filter p l = l.
Proof.
  intro H. induction l as [|x t IH]; simpl; [reflexivity|].
  rewrite H, IH. reflexivity.
Qed.

Lemma insert_by_permutation {A} (before : A -> A -> bool) (x : A) (l : list A) :
  Permutation (insert_by before x l) (x :: l).
Proof.
  induction l as [|y t IH]; simpl; [reflexivity|].
  destruct (before x y); [reflexivity|].
  rewrite IH. apply perm_swap.
Qed.

Lemma sort_by_permutation {A} (before : A -> A -> bool) (l : list A) :
  Permutation (sort_by before l) l.
Proof.
  induction l as [|x t IH]; simpl; [reflexivity|].
  rewrite insert_by_permutation. constructor. exact IH.
Qed.

Lemma filter_map {A B} (p : B -> bool) (f : A -> B) (l : list A) :
  filter p (map f l) = map f (filter (fun x => p (f x)) l).
Proof.
  induction l as [|x t IH]; simpl; [reflexivity|].
  destruct (p (f x)); simpl; rewrite IH; reflexivity.
Qed.

Lemma filter_every {A} (p : A -> bool) (l : list A) :
  (forall x, In x l -> p x = true) -> filter p l = l.
Proof.
  intro H. induction l as [|x t IH]; simpl; [reflexivity|].
  rewrite H by (left; reflexivity). rewrite IH; [reflexivity|].
  intros y Hy. apply H. right. exact Hy.
Qed.

(** ** What a step leaves unchanged *)

Section Keeps.
Context {B : Type} (proj : World -> B).
Hypothesis proj_faults : forall r w, proj (with_faults r w) = proj w.

Lemma keeps_ret {A} (a : A) : keeps proj (ret a).
Proof. intro w. reflexivity. Qed.

Lemma keeps_raise {A} (e : exn) : keeps proj (@raise A e).
Proof. intro w. reflexivity. Qed.

Lemma keeps_bind {A C} (c : M A) (k : A -> M C) :
  keeps proj c -> (forall a, keeps proj (k a)) -> keeps proj (bind c k).
Proof.
  intros Hc Hk w. unfold after, bind. specialize (Hc w). unfold after in Hc.
  destruct (c w) as [[a | e] w1]; simpl in *.
  - rewrite <- Hc. apply Hk.
  - exact Hc.
Qed.

Lemma keeps_try_except {A} (body : M A) (handler : exn -> M A) :
  keeps proj body -> (forall e, keeps proj (handler e)) ->
  keeps proj (try_except body handler).
Proof.
  intros Hb Hh w. unfold after, try_except. specialize (Hb w). unfold after in Hb.
  destruct (body w) as [[a | e] w1]; simpl in *.
  - exact Hb.
  - rewrite <- Hb. apply Hh.
Qed.

Lemma keeps_for_each {A} (l : list A) (body : A -> M unit) :
  (forall x, keeps proj (body x)) -> keeps proj (for_each l body).
Proof.
  intro H. induction l as [|x t IH]; simpl.
  - apply keeps_ret.
  - apply keeps_bind; [apply H | intro; exact IH].
Qed.

Lemma keeps_external {A} (call : World -> result A * World) :
  (forall w, proj (snd (call w)) = proj w) -> keeps proj (external call).
Proof.
  intros H w. unfold after, external.
  destruct (faults w) as [|[|] rest]; simpl.
  - apply H.
  - apply proj_faults.
  - rewrite H. apply proj_faults.
Qed.

Lemma keeps_fetch {A} (q : QuerySet) (f : list NetworkFlow.t -> result A) :
  keeps proj (fetch q f).
Proof. apply keeps_external. intro w. reflexivity. Qed.
Lemma keeps_aggregate (q : QuerySet) name agg : keeps proj (aggregate q name agg).
Proof.
  unfold aggregate.
  destruct (NetworkFlow.numeric_column name); [apply keeps_fetch | apply keeps_raise].
Qed.

(** What comes after a step that raises is not run. *)
Lemma keeps_bind_raises {A C} (c : M A) (k : A -> M C) :
  keeps proj c -> always_raises c -> keeps proj (bind c k).
Proof.
  intros Hc R w. rewrite after_bind. destruct (R w) as (e & E). rewrite E. apply Hc.
Qed.
End Keeps.

Lemma keeps_flows_create now ty sev title descr flow th cur :
  keeps network_flows (FlowAlert_create now ty sev title descr flow th cur).
Proof. apply keeps_external; intros; reflexivity. Qed.

Lemma keeps_flows_logger_info msg : keeps network_flows (logger_info msg).
Proof. intro w. reflexivity. Qed.

Lemma keeps_flows_logger_error msg : keeps network_flows (logger_error msg).
Proof. intro w. reflexivity. Qed.

Ltac keeps_flows :=
  repeat first
    [ apply keeps_flows_create
    | apply (keeps_raise network_flows)
    | apply keeps_flows_logger_info
    | apply keeps_flows_logger_error
    | apply (keeps_fetch network_flows); intros; reflexivity
    | apply (keeps_ret network_flows)
    | apply (keeps_for_each network_flows); intro
    | apply (keeps_try_except network_flows); [ | intro]
    | apply (keeps_bind network_flows); [ | intro]
    | match goal with
      | |- keeps network_flows (if ?b then _ else _) => destruct b
      end ].

Lemma check_bandwidth_spikes_keeps_flows now :
  keeps network_flows (check_bandwidth_spikes now).
Proof.
  unfold check_bandwidth_spikes, try_bandwidth_spikes.
  rewrite !aggregate_bandwidth_mbps. keeps_flows.
Qed.

Lemma check_unusual_protocols_keeps_flows now :
  keeps network_flows (check_unusual_protocols now).
Proof. unfold check_unusual_protocols, try_unusual_protocols. keeps_flows. Qed.

Lemma check_port_scans_keeps_flows now :
  keeps network_flows (check_port_scans now).
Proof. unfold check_port_scans, try_port_scans. keeps_flows. Qed.

Lemma check_ddos_patterns_keeps_flows now :
  keeps network_flows (check_ddos_patterns now).
Proof. unfold check_ddos_patterns, try_ddos_patterns. keeps_flows. Qed.

(** ** A block that logs what it catches *)

(** [try: body / except Exception as e: logger.error(...)] ends normally. *)
Lemma guarded_never_raises (body : M unit) (msg : exn -> string) (w : World) :
  outcome (try_except body (fun e => logger_error (msg e))) w = Ok tt.
Proof.
  unfold outcome, try_except.
  destruct (body w) as [[[] | e] w1]; reflexivity.
Qed.

(** ** The bandwidth-spike heuristic *)

(** The [try] block: it asks whether the window holds a flow, and if so
    raises on the first aggregate, before any alert. *)
Lemma try_bandwidth_spikes_run (now : Z) (w : World) :
  try_bandwidth_spikes now w
  = match qs_exists (objects_filter
                       (fun f => now - minutes 5 <=? NetworkFlow.timestamp f)) w with
    | (Ok true, w1) => (Raise (FieldError "bandwidth_mbps"), w1)
    | (Ok false, w1) => (Ok tt, w1)
    | (Raise e, w1) => (Raise e, w1)
    end.
Proof.
  unfold try_bandwidth_spikes, bind.
  destruct (qs_exists _ w) as [[[|] | e] w1]; reflexivity.
Qed.

Lemma check_bandwidth_spikes_no_faults (now : Z) (w : World) :
  faults w = [] ->
  check_bandwidth_spikes now w
  = (Ok tt,
     if existsb (fun f => now - minutes 5 <=? NetworkFlow.timestamp f) (network_flows w)
     then with_log
            (log w ++ [(ERROR, ("Error checking bandwidth spikes: "
                                  ++ str_exn (FieldError "bandwidth_mbps"))%string)]) w
     else w).
Proof.
  intro H. unfold check_bandwidth_spikes, try_except.
  rewrite try_bandwidth_spikes_run. unfold qs_exists.
  rewrite fetch_no_faults by exact H. unfold objects_filter.
  destruct (existsb _ (network_flows w)) eqn:X.
  - apply filter_some in X.
    destruct (filter _ (network_flows w)); [contradiction | reflexivity].
  - rewrite (filter_none _ _ X). reflexivity.
Qed.

Lemma check_bandwidth_spikes_keeps_alerts now :
  keeps flow_alerts (check_bandwidth_spikes now).
Proof.
  intro w. unfold after, check_bandwidth_spikes, try_except.
  rewrite try_bandwidth_spikes_run. unfold qs_exists, fetch, external.
  destruct (faults w) as [|[|] rest]; cbn;
    repeat match goal with |- context [match ?l with [] => _ | _ => _ end] =>
                             destruct l
           end; reflexivity.
Qed.

(** C7.  The bandwidth-spike heuristic never reports a spike.  Its
    averages and maxima are asked of the database over [bandwidth_mbps],
    which is a property of the class and not a column: the first
    aggregate raises [FieldError], the handler logs it, and the
    comparison with the thresholds is not reached.  Whatever fails, the
    heuristic ends normally and leaves the alerts and the flows as they
    were; when no call fails, it logs the error exactly when its window
    holds a flow. *)
Theorem bandwidth_spike_is_never_reported (now : Z) (w : World) :
  let w' := after (check_bandwidth_spikes now) w in
  outcome (check_bandwidth_spikes now) w = Ok tt
  /\ flow_alerts w' = flow_alerts w
  /\ network_flows w' = network_flows w
  /\ (faults w = [] ->
      log w'
      = log w
        ++ (if existsb (fun f => now - minutes 5 <=? NetworkFlow.timestamp f)
                       (network_flows w)
            then [(ERROR,
                   ("Error checking bandwidth spikes: "
                      ++ "Cannot resolve keyword 'bandwidth_mbps' into field. "
                      ++ "Choices are: " ++ field_choices)%string)]
            else [])).
Proof.
  intro w'. split; [apply guarded_never_raises|].
  split; [apply check_bandwidth_spikes_keeps_alerts|].
  split; [apply check_bandwidth_spikes_keeps_flows|].
  intro H. unfold w', after. rewrite check_bandwidth_spikes_no_faults by exact H.
  destruct (existsb _ (network_flows w)); cbn [snd].
  - reflexivity.
  - rewrite app_nil_r. reflexivity.
Qed.

(** The world of the spike: the per-flow bandwidths have average 20 and
    maximum 100.01, so that both thresholds are passed; no alert is
    created, and the log has the error. *)
Lemma bandwidth_spike_is_never_reported_witness :
  (or_0 (Avg (map bandwidth (network_flows spike_world))) == 20)%Q
  /\ (or_0 (Max (map bandwidth (network_flows spike_world))) == 10001 # 100)%Q
  /\ flow_alerts (after (check_bandwidth_spikes t0) spike_world) = []
  /\ map fst (log (after (check_bandwidth_spikes t0) spike_world)) = [ERROR].
Proof.
  destruct (bandwidth_spike_is_never_reported t0 spike_world) as (_ & A & _ & L).
  split; [vm_compute; reflexivity|]. split; [vm_compute; reflexivity|].
  split; [exact A|]. rewrite (L eq_refl). reflexivity.
Defined.

(** The same trace where the maximum is 100 and no threshold is passed:
    the heuristic does not come to compare. *)
Example no_spike_same_trace :
  (or_0 (Max (map bandwidth (network_flows quiet_world))) == 100)%Q
  /\ flow_alerts (after (check_bandwidth_spikes t0) quiet_world)
     = flow_alerts (after (check_bandwidth_spikes t0) spike_world)
  /\ log (after (check_bandwidth_spikes t0) quiet_world)
     = log (after (check_bandwidth_spikes t0) spike_world).
Proof. vm_compute. repeat split. Qed.

Lemma derived_fields_total_witness :
  NetworkFlow.bandwidth_mbps (sample_flow 1 0 "10.0.0.1" "10.0.1.1" 80 6 12500000)
  = Ok (inject_Z (12500000 * 8) / (1 * inject_Z 1000000))%Q.
Proof.
  apply (proj1 (derived_fields_total
                  (sample_flow 1 0 "10.0.0.1" "10.0.1.1" 80 6 12500000))).
  reflexivity.
Defined.

(** ** Grouping and counting *)

Section Distinct.
Context {K : Type} (eqb : K -> K -> bool).
Hypothesis eqb_eq : forall x y, eqb x y = true <-> x = y.

Lemma In_distinct (l : list K) (x : K) : In x (distinct eqb l) <-> In x l.
Proof.
  induction l as [|a t IH]; simpl; [tauto|]. split.
  - intros [E | H]; [left; exact E|].
    apply filter_In in H. right. apply IH, H.
  - intros [E | H]; [left; exact E|].
    destruct (eqb a x) eqn:E.
    + left. apply eqb_eq, E.
    + right. apply filter_In. split; [apply IH, H | rewrite E; reflexivity].
Qed.

Lemma NoDup_distinct (l : list K) : NoDup (distinct eqb l).
Proof.
  induction l as [|a t IH]; simpl; constructor.
  - intro H. apply filter_In in H. destruct H as [_ H].
    rewrite (proj2 (eqb_eq a a) eq_refl) in H. discriminate.
  - apply NoDup_filter, IH.
Qed.
End Distinct.

(** Selecting rows keeps their keys distinct. *)
Lemma NoDup_map_filter {Row Key : Type} (key : Row -> Key) (keep : Row -> bool) :
  forall rows : list Row,
    NoDup (map key rows) -> NoDup (map key (filter keep rows)).
Proof.
  intro rows. induction rows as [|r rest IH]; simpl; intro U; [constructor|].
  inversion U as [|? ? Hfresh Hrest]; subst.
  destruct (keep r); simpl; [constructor|]; auto.
  intro Hin. apply Hfresh. apply in_map_iff in Hin. destruct Hin as (x & E & Hx).
  apply in_map_iff. exists x. split; [exact E|]. apply filter_In in Hx. tauto.
Qed.

Section CountDistinct.
Context {K C : Type} (keqb : K -> K -> bool) (ceqb : C -> C -> bool).
Hypothesis keqb_eq : forall x y, keqb x y = true <-> x = y.
Variables (key : NetworkFlow.t -> K) (col : NetworkFlow.t -> C) (least : Z).

Notation group_key := (fun f : NetworkFlow.t => (key f, NetworkFlow.timestamp f)).
Notation same_group :=
  (fun a b : K * Z => keqb (fst a) (fst b) && (snd a =? snd b)).

Lemma same_group_eq (a b : K * Z) : same_group a b = true <-> a = b.
Proof.
  destruct a as [k t], b as [k' t']. cbn [fst snd].
  rewrite andb_true_iff, keqb_eq, Z.eqb_eq. split.
  - intros (-> & ->). reflexivity.
  - intro E. injection E as -> ->. split; reflexivity.
Qed.

(** The groups: one for each pair of a key and a timestamp that occurs,
    holding the rows of that pair. *)
Lemma In_values_annotate (rows : list NetworkFlow.t) (g : (K * Z) * list NetworkFlow.t) :
  In g (values_annotate keqb key rows)
  <-> In (fst g) (map group_key rows)
      /\ snd g = group_rows keqb key (fst (fst g)) (snd (fst g)) rows.
Proof.
  unfold values_annotate. split.
  - intro H. apply (Permutation_in _ (sort_by_permutation _ _)) in H.
    unfold group_by in H. apply in_map_iff in H. destruct H as (k & <- & Hk).
    apply (proj1 (In_distinct _ same_group_eq _ _)) in Hk.
    split; [exact Hk | reflexivity].
  - intros (Hk & Hg).
    apply (Permutation_in _ (Permutation_sym (sort_by_permutation _ _))).
    unfold group_by. apply in_map_iff. exists (fst g). split.
    + destruct g as [k2 rs]. cbn [fst snd] in *. rewrite Hg. reflexivity.
    + apply (proj2 (In_distinct _ same_group_eq _ _)), Hk.
Qed.

Lemma values_annotate_keys (rows : list NetworkFlow.t) :
  NoDup (map fst (values_annotate keqb key rows)).
Proof.
  unfold values_annotate.
  apply (Permutation_NoDup
           (Permutation_map fst (Permutation_sym (sort_by_permutation _ _)))).
  unfold group_by. rewrite map_map. cbn [fst]. rewrite map_id.
  apply NoDup_distinct, same_group_eq.
Qed.

(** The rows of the result: one for each group that has at least [least]
    distinct values of the column, carrying the key and that number. *)
Lemma count_distinct_gte_groups (rows : list NetworkFlow.t) :
  exists groups : list (K * Z),
    NoDup groups
    /\ (forall k t,
          In (k, t) groups
          <-> In (k, t) (map group_key rows)
              /\ least <= distinct_in_group keqb key ceqb col k t rows)
    /\ count_distinct_gte keqb key ceqb col least rows
       = map (fun g => (fst g, distinct_in_group keqb key ceqb col (fst g) (snd g) rows))
             groups.
Proof.
  exists (map fst
            (filter (fun g => least <=? len (distinct ceqb (map col (snd g))))
                    (values_annotate keqb key rows))).
  split; [apply NoDup_map_filter, values_annotate_keys|]. split.
  - intros k t. rewrite in_map_iff. split.
    + intros (g & E & Hg). apply filter_In in Hg. destruct Hg as (Hg & L).
      apply In_values_annotate in Hg. destruct Hg as (Hk & Hrows).
      rewrite E in Hk, Hrows. cbn [fst snd] in Hrows.
      split; [exact Hk|]. unfold distinct_in_group. rewrite <- Hrows.
      apply Z.leb_le, L.
    + intros (Hk & L). exists ((k, t), group_rows keqb key k t rows).
      split; [reflexivity|]. apply filter_In. split.
      * apply In_values_annotate. split; [exact Hk | reflexivity].
      * apply Z.leb_le, L.
  - unfold count_distinct_gte. rewrite filter_map, map_map.
    apply map_ext_in. intros g Hg. apply filter_In in Hg. destruct Hg as (Hg & _).
    apply In_values_annotate in Hg. destruct Hg as (_ & Hrows).
    cbn [fst snd]. unfold distinct_in_group. rewrite <- Hrows. reflexivity.
Qed.

(** Rows of one key and one timestamp make one group. *)
Lemma count_distinct_gte_one_group (rows : list NetworkFlow.t) (k : K) (t : Z) :
  rows <> [] ->
  (forall f, In f rows -> key f = k /\ NetworkFlow.timestamp f = t) ->
  count_distinct_gte keqb key ceqb col least rows
  = if least <=? len (distinct ceqb (map col rows))
    then [(k, len (distinct ceqb (map col rows)))]
    else [].
Proof.
  intros Ne Same.
  assert (Keys : forall k2, In k2 (map group_key rows) <-> k2 = (k, t)).
  { intro k2. rewrite in_map_iff. split.
    - intros (f & <- & Hf). destruct (Same f Hf) as (-> & ->). reflexivity.
    - intros ->. destruct rows as [|f rest]; [contradiction|].
      exists f. destruct (Same f (or_introl eq_refl)) as (-> & ->).
      split; [reflexivity | left; reflexivity]. }
  assert (All : group_rows keqb key k t rows = rows).
  { apply filter_every. intros f Hf. destruct (Same f Hf) as (-> & ->).
    rewrite (proj2 (keqb_eq _ _) eq_refl), Z.eqb_refl. reflexivity. }
  destruct (count_distinct_gte_groups rows) as (groups & U & Char & ->).
  assert (Count : distinct_in_group keqb key ceqb col k t rows
                  = len (distinct ceqb (map col rows)))
    by (unfold distinct_in_group; rewrite All; reflexivity).
  destruct (least <=? len (distinct ceqb (map col rows))) eqn:L.
  - apply Z.leb_le in L.
    assert (Hin : In (k, t) groups)
      by (apply Char; split; [apply Keys; reflexivity | rewrite Count; exact L]).
    destruct groups as [|g [|g' rest]].
    + contradiction.
    + destruct Hin as [-> | []]. cbn [map fst snd]. rewrite Count. reflexivity.
    + exfalso. inversion U as [|? ? Hfresh _]; subst. apply Hfresh.
      assert (Eg : g = (k, t)).
      { destruct g as [k1 t1]. apply Keys, (Char k1 t1). left. reflexivity. }
      assert (Eg' : g' = (k, t)).
      { destruct g' as [k1 t1]. apply Keys, (Char k1 t1). right. left. reflexivity. }
      rewrite Eg, Eg'. left. reflexivity.
  - apply Z.leb_gt in L. destruct groups as [|[k1 t1] rest]; [reflexivity|].
    exfalso. destruct (proj1 (Char k1 t1) (or_introl eq_refl)) as (Hk & Hl).
    apply Keys in Hk. injection Hk as -> ->. rewrite Count in Hl. lia.
Qed.
End CountDistinct.

Lemma with_flow_alerts_same (w : World) : with_flow_alerts (flow_alerts w) w = w.
Proof. destruct w. reflexivity. Qed.

(** A loop that creates one alert per element. *)
Lemma for_each_create {A} (mk : A -> FlowAlert.t) (body : A -> M unit) (l : list A) :
  (forall x w, faults w = [] ->
               body x w = (Ok tt, with_flow_alerts (flow_alerts w ++ [mk x]) w)) ->
  forall w, faults w = [] ->
            for_each l body w
            = (Ok tt, with_flow_alerts (flow_alerts w ++ map mk l) w).
Proof.
  intro Hbody. induction l as [|x t IH]; intros w H; simpl.
  - rewrite app_nil_r, with_flow_alerts_same. reflexivity.
  - unfold bind. rewrite Hbody by exact H. rewrite IH by exact H.
    simpl. rewrite <- app_assoc. reflexivity.
Qed.

Lemma Forall2_map_right {A B} (R : A -> B -> Prop) (f : A -> B) (l : list A) :
  (forall x, R x (f x)) -> Forall2 R l (map f l).
Proof. intro H. induction l; simpl; constructor; auto. Qed.

Lemma Forall2_map_both {A B C} (R : A -> C -> Prop) (f : A -> B) (g : B -> C)
      (l : list A) :
  (forall x, R x (g (f x))) -> Forall2 R l (map g (map f l)).
Proof. intro H. induction l; simpl; constructor; auto. Qed.

(** ** The DDoS fan-in heuristic *)

Lemma check_ddos_patterns_no_faults (now : Z) (w : World) :
  faults w = [] ->
  check_ddos_patterns now w
  = (Ok tt,
     with_flow_alerts
       (flow_alerts w ++ map (ddos_alert now) (ddos_targets now (network_flows w))) w).
Proof.
  intro H. unfold check_ddos_patterns, try_ddos_patterns, try_except, bind.
  rewrite fetch_no_faults by exact H.
  unfold objects_filter. fold (recent now).
  erewrite for_each_create; [reflexivity | | exact H].
  intros x w0 H0. unfold FlowAlert_create.
  rewrite external_no_faults by exact H0. reflexivity.
Qed.

(** C8, as the code runs.  The query of the DDoS heuristic has no
    [order_by()], so that it groups the flows of the window by
    destination and timestamp, not by destination alone.  For each such
    group with at least 50 distinct sources the heuristic emits exactly
    one ddos_attack alert of severity high, with threshold 50 and the
    number of distinct sources of the group as current value, and it
    emits nothing else. *)
Theorem ddos_fan_in_threshold (now : Z) (w : World) :
  faults w = [] ->
  let rows :=
    filter (fun f => now - minutes 5 <=? NetworkFlow.timestamp f) (network_flows w) in
  let sources := fun d t =>
    len (distinct String.eqb
           (map NetworkFlow.src_ip
                (filter (fun f => String.eqb d (NetworkFlow.dst_ip f)
                                  && (t =? NetworkFlow.timestamp f)) rows))) in
  let w' := after (check_ddos_patterns now) w in
  outcome (check_ddos_patterns now) w = Ok tt
  /\ exists groups new,
      flow_alerts w' = flow_alerts w ++ new
      /\ Forall2 (fun g a =>
                    FlowAlert.alert_type a = "ddos_attack"
                    /\ FlowAlert.severity a = "high"
                    /\ FlowAlert.title a
                       = ("Potential DDoS attack on " ++ fst g)%string
                    /\ FlowAlert.threshold_value a = Some (inject_Z 50)
                    /\ FlowAlert.current_value a
                       = Some (inject_Z (sources (fst g) (snd g))))
                 groups new
      /\ NoDup groups
      /\ (forall d t,
            In (d, t) groups
            <-> In (d, t) (map (fun f => (NetworkFlow.dst_ip f, NetworkFlow.timestamp f))
                               rows)
                /\ 50 <= sources d t).
Proof.
  intros H rows sources w'.
  pose proof (check_ddos_patterns_no_faults now w H) as R.
  split; [unfold outcome; rewrite R; reflexivity|].
  destruct (count_distinct_gte_groups String.eqb String.eqb String.eqb_eq
              NetworkFlow.dst_ip NetworkFlow.src_ip 50 rows)
    as (groups & U & Char & E).
  exists groups. eexists. split.
  - unfold w', after. rewrite R. cbn [snd flow_alerts with_flow_alerts].
    unfold ddos_targets, recent. fold rows. rewrite E. reflexivity.
  - split; [apply Forall2_map_both; intro g; repeat split|].
    split; [exact U | exact Char].
Qed.

(** Fifty sources to one destination within the window, one flow per
    second: no group has two sources, and nothing is reported. *)
Lemma ddos_fan_in_threshold_witness :
  len (distinct String.eqb (map NetworkFlow.src_ip (network_flows (spread_fan_in 50))))
  = 50
  /\ Forall (fun f => t0 - minutes 5 <= NetworkFlow.timestamp f
                      /\ NetworkFlow.dst_ip f = "10.0.1.1")
            (network_flows (spread_fan_in 50))
  /\ outcome (check_ddos_patterns t0) (spread_fan_in 50) = Ok tt
  /\ flow_alerts (after (check_ddos_patterns t0) (spread_fan_in 50)) = []
  /\ log (after (check_ddos_patterns t0) (spread_fan_in 50)) = [].
Proof.
  split; [vm_compute; reflexivity|].
  split; [apply Forall_forall; intros f Hf; apply in_map_iff in Hf;
          destruct Hf as (i & <- & Hi); apply in_seq in Hi;
          cbn [NetworkFlow.timestamp NetworkFlow.dst_ip sample_flow];
          unfold t0, minutes, microseconds_per_minute; split; [lia | reflexivity]|].
  destruct (ddos_fan_in_threshold t0 (spread_fan_in 50) eq_refl) as (O & _).
  split; [exact O|].
  split; vm_compute; reflexivity.
Defined.

(** The same flows dated at one instant are one group. *)
Example ddos_49_sources_no_alert :
  flow_alerts (after (check_ddos_patterns t0) (fan_in 49)) = [].
Proof. vm_compute. reflexivity. Qed.

Example ddos_50_sources_one_alert :
  map FlowAlert.current_value
      (flow_alerts (after (check_ddos_patterns t0) (fan_in 50)))
  = [Some (inject_Z 50)].
Proof. vm_compute. reflexivity. Qed.

(** ** Fault isolation of the heuristics *)

Lemma guarded_caught (body : M unit) (prefix : string) (w : World) :
  caught_and_logged body prefix w
    (after (try_except body (fun e => logger_error (prefix ++ str_exn e)%string)) w).
Proof.
  unfold caught_and_logged, after, outcome, try_except.
  destruct (body w) as [[[] | e] w1]; cbn [fst snd].
  - left. split; reflexivity.
  - right. exists e. split; reflexivity.
Qed.

Lemma check_bandwidth_spikes_never_raises now w :
  outcome (check_bandwidth_spikes now) w = Ok tt.
Proof. apply guarded_never_raises. Qed.

Lemma check_unusual_protocols_never_raises now w :
  outcome (check_unusual_protocols now) w = Ok tt.
Proof. apply guarded_never_raises. Qed.

Lemma check_port_scans_never_raises now w :
  outcome (check_port_scans now) w = Ok tt.
Proof. apply guarded_never_raises. Qed.

Lemma check_ddos_patterns_never_raises now w :
  outcome (check_ddos_patterns now) w = Ok tt.
Proof. apply guarded_never_raises. Qed.

(** C9. Whatever fails, and wherever: [check_flow_alerts] ends normally
    and has run the four heuristics one after the other, each on the world
    that the one before left.  Each heuristic ends normally by itself and
    sees the same flows as the others; what it leaves is what its [try]
    block leaves, with one line more in the log when the block raised:
    the error, under the name of the heuristic. *)
Theorem heuristics_fault_isolated (now : Z) (w : World) :
  let w0 := after (logger_info "Checking for flow alerts") w in
  let w1 := after (check_bandwidth_spikes now) w0 in
  let w2 := after (check_unusual_protocols now) w1 in
  let w3 := after (check_port_scans now) w2 in
  let w4 := after (check_ddos_patterns now) w3 in
  check_flow_alerts now w
  = (Ok tt, after (logger_info "Flow alert checking completed") w4)
  /\ (outcome (check_bandwidth_spikes now) w0 = Ok tt
      /\ outcome (check_unusual_protocols now) w1 = Ok tt
      /\ outcome (check_port_scans now) w2 = Ok tt
      /\ outcome (check_ddos_patterns now) w3 = Ok tt)
  /\ (network_flows w1 = network_flows w
      /\ network_flows w2 = network_flows w
      /\ network_flows w3 = network_flows w)
  /\ caught_and_logged (try_bandwidth_spikes now)
       "Error checking bandwidth spikes: " w0 w1
  /\ caught_and_logged (try_unusual_protocols now)
       "Error checking unusual protocols: " w1 w2
  /\ caught_and_logged (try_port_scans now)
       "Error checking port scans: " w2 w3
  /\ caught_and_logged (try_ddos_patterns now)
       "Error checking DDoS patterns: " w3 w4.
Proof.
  intros w0 w1 w2 w3 w4.
  split.
  { unfold check_flow_alerts, try_except.
    rewrite (bind_ok (logger_info "Checking for flow alerts") _ w tt eq_refl).
    fold w0.
    rewrite (bind_ok _ _ w0 tt (check_bandwidth_spikes_never_raises now w0)). fold w1.
    rewrite (bind_ok _ _ w1 tt (check_unusual_protocols_never_raises now w1)). fold w2.
    rewrite (bind_ok _ _ w2 tt (check_port_scans_never_raises now w2)). fold w3.
    rewrite (bind_ok _ _ w3 tt (check_ddos_patterns_never_raises now w3)). fold w4.
    reflexivity. }
  split.
  { repeat split; apply guarded_never_raises. }
  assert (F1 : network_flows w1 = network_flows w)
    by (unfold w1; rewrite check_bandwidth_spikes_keeps_flows; reflexivity).
  assert (F2 : network_flows w2 = network_flows w)
    by (unfold w2; rewrite check_unusual_protocols_keeps_flows; exact F1).
  assert (F3 : network_flows w3 = network_flows w)
    by (unfold w3; rewrite check_port_scans_keeps_flows; exact F2).
  split; [auto|].
  repeat split; apply guarded_caught.
Qed.

(** The first query of the bandwidth heuristic fails: its error is
    logged, and the unusual-protocol heuristic still emits its alert. *)
Example failed_heuristic_does_not_stop_the_next :
  let w := after (check_flow_alerts t0) failing_world in
  outcome (check_flow_alerts t0) failing_world = Ok tt
  /\ log w = [ (INFO, "Checking for flow alerts");
               (ERROR, "Error checking bandwidth spikes: OperationalError");
               (INFO, "Flow alert checking completed") ]
  /\ map FlowAlert.alert_type (flow_alerts w) = ["unusual_protocol"].
Proof. vm_compute. repeat split. Qed.

(** No call fails: the bandwidth heuristic raises by itself, on the name
    that is no column, and the three others run after it. *)
Example field_error_does_not_stop_the_next :
  let w := after (check_flow_alerts t0) (world_of [future_flow] [] [] []) in
  outcome (try_bandwidth_spikes t0) (world_of [future_flow] [] [] [])
  = Raise (FieldError "bandwidth_mbps")
  /\ map fst (log w) = [INFO; ERROR; INFO]
  /\ map FlowAlert.alert_type (flow_alerts w) = ["unusual_protocol"].
Proof. vm_compute. repeat split. Qed.

(** ** The alerts of a run that no call fails *)

Lemma FlowAlert_create_no_faults now ty sev title descr flow th cur w :
  faults w = [] ->
  FlowAlert_create now ty sev title descr flow th cur w
  = (Ok tt,
     with_flow_alerts
       (flow_alerts w ++ [FlowAlert.mk ty sev title descr flow [] now false
                                       None None th cur]) w).
Proof.
  intro H. unfold FlowAlert_create. rewrite external_no_faults by exact H. reflexivity.
Qed.

Lemma ordering_permutation (rows : list NetworkFlow.t) : Permutation (ordering rows) rows.
Proof. apply sort_by_permutation. Qed.

Lemma check_unusual_protocols_emits now w :
  faults w = [] ->
  check_unusual_protocols now w
  = (Ok tt,
     with_flow_alerts
       (flow_alerts w ++ map (unusual_alert now) (unusual_flows now (network_flows w)))
       w).
Proof.
  intro H. unfold check_unusual_protocols, try_unusual_protocols, try_except, bind,
    qs_exists, qs_iter.
  rewrite fetch_no_faults by exact H.
  unfold exclude, objects_filter. fold (recent now).
  destruct (filter (fun f => negb (well_known_protocol f))
                   (filter (recent now) (network_flows w))) as [|r rs] eqn:R.
  - unfold unusual_flows. rewrite R. simpl.
    rewrite app_nil_r, with_flow_alerts_same. reflexivity.
  - rewrite fetch_no_faults by exact H. fold (recent now). rewrite R.
    erewrite for_each_create; [|intros x w0 H0; apply FlowAlert_create_no_faults, H0
                                |exact H].
    unfold unusual_flows. rewrite R. reflexivity.
Qed.

Lemma check_port_scans_emits now w :
  faults w = [] ->
  check_port_scans now w
  = (Ok tt,
     with_flow_alerts
       (flow_alerts w
          ++ map (port_scan_alert now) (port_scan_sources now (network_flows w)))
       w).
Proof.
  intro H. unfold check_port_scans, try_port_scans, try_except, bind.
  rewrite fetch_no_faults by exact H.
  unfold objects_filter. fold (recent now).
  erewrite for_each_create; [reflexivity | | exact H].
  intros x w0 H0. apply FlowAlert_create_no_faults, H0.
Qed.

(** ** The window of the heuristics *)

Section WindowBlind.
Variable now : Z.

Lemma window_blind_ret {A} (a : A) : window_blind now (ret a).
Proof. intros w table _. split; reflexivity. Qed.

Lemma window_blind_bind {A B} (c : M A) (k : A -> M B) :
  window_blind now c -> (forall a, window_blind now (k a)) ->
  window_blind now (bind c k).
Proof.
  intros Hc Hk w table Hw. destruct (Hc w table Hw) as (Ec & Fc).
  unfold outcome, after, bind in *. rewrite Ec.
  destruct (c w) as [[a | e] w1]; simpl in *.
  - assert (Hw1 : filter (recent now) table = filter (recent now) (network_flows w1))
      by (rewrite Fc; exact Hw).
    destruct (Hk a w1 table Hw1) as (Ek & Fk).
    split; [exact Ek | rewrite <- Fc; exact Fk].
  - split; [reflexivity | exact Fc].
Qed.

Lemma window_blind_try_except {A} (body : M A) (handler : exn -> M A) :
  window_blind now body -> (forall e, window_blind now (handler e)) ->
  window_blind now (try_except body handler).
Proof.
  intros Hb Hh w table Hw. destruct (Hb w table Hw) as (Eb & Fb).
  unfold outcome, after, try_except in *. rewrite Eb.
  destruct (body w) as [[a | e] w1]; simpl in *.
  - split; [reflexivity | exact Fb].
  - assert (Hw1 : filter (recent now) table = filter (recent now) (network_flows w1))
      by (rewrite Fb; exact Hw).
    destruct (Hh e w1 table Hw1) as (Eh & Fh).
    split; [exact Eh | rewrite <- Fb; exact Fh].
Qed.

Lemma window_blind_for_each {A} (l : list A) (body : A -> M unit) :
  (forall x, window_blind now (body x)) -> window_blind now (for_each l body).
Proof.
  intro H. induction l as [|x t IH]; simpl.
  - apply window_blind_ret.
  - apply window_blind_bind; [apply H | intro; exact IH].
Qed.

Lemma window_blind_fetch {A} (q : QuerySet) (f : list NetworkFlow.t -> result A) :
  (forall t1 t2, filter (recent now) t1 = filter (recent now) t2 -> q t1 = q t2) ->
  window_blind now (fetch q f).
Proof.
  intros Hq w table Hw. unfold outcome, after, fetch, external. simpl.
  destruct (faults w) as [|[|] rest]; simpl;
    try rewrite (Hq _ _ Hw); split; reflexivity.
Qed.

Lemma window_blind_create ty sev title descr flow th cur :
  window_blind now (FlowAlert_create now ty sev title descr flow th cur).
Proof.
  intros w table _. unfold outcome, after, FlowAlert_create, external. simpl.
  destruct (faults w) as [|[|] rest]; simpl; split; reflexivity.
Qed.

Lemma window_blind_logger_error msg : window_blind now (logger_error msg).
Proof. intros w table _. split; reflexivity. Qed.

Lemma window_blind_logger_info msg : window_blind now (logger_info msg).
Proof. intros w table _. split; reflexivity. Qed.

Lemma window_blind_raise {A} (e : exn) : window_blind now (@raise A e).
Proof. intros w table _. split; reflexivity. Qed.
Lemma window_blind_aggregate (q : QuerySet) name agg :
  (forall t1 t2, filter (recent now) t1 = filter (recent now) t2 -> q t1 = q t2) ->
  window_blind now (aggregate q name agg).
Proof.
  intro Hq. unfold aggregate.
  destruct (NetworkFlow.numeric_column name);
    [apply window_blind_fetch, Hq | apply window_blind_raise].
Qed.
End WindowBlind.

Ltac window_blind :=
  repeat first
    [ apply window_blind_create
    | apply window_blind_aggregate;
      unfold exclude, objects_filter; intros ? ? Hsame;
      unfold recent in Hsame; rewrite Hsame; reflexivity
    | apply window_blind_logger_error
    | apply window_blind_logger_info
    | apply window_blind_raise
    | apply window_blind_ret
    | apply window_blind_fetch;
      unfold exclude, objects_filter; intros ? ? Hsame;
      unfold recent in Hsame; rewrite Hsame; reflexivity
    | apply window_blind_for_each; intro
    | apply window_blind_try_except; [ | intro]
    | apply window_blind_bind; [ | intro]
    | match goal with
      | |- window_blind _ (if ?b then _ else _) => destruct b
      end ].

Lemma check_bandwidth_spikes_window now : window_blind now (check_bandwidth_spikes now).
Proof. unfold check_bandwidth_spikes, try_bandwidth_spikes. window_blind. Qed.

Lemma check_unusual_protocols_window now : window_blind now (check_unusual_protocols now).
Proof. unfold check_unusual_protocols, try_unusual_protocols. window_blind. Qed.

Lemma check_port_scans_window now : window_blind now (check_port_scans now).
Proof. unfold check_port_scans, try_port_scans. window_blind. Qed.

Lemma check_ddos_patterns_window now : window_blind now (check_ddos_patterns now).
Proof. unfold check_ddos_patterns, try_ddos_patterns. window_blind. Qed.

Lemma check_flow_alerts_window now : window_blind now (check_flow_alerts now).
Proof.
  unfold check_flow_alerts.
  apply window_blind_try_except; [|intro; window_blind].
  apply window_blind_bind; [window_blind | intro].
  apply window_blind_bind; [apply check_bandwidth_spikes_window | intro].
  apply window_blind_bind; [apply check_unusual_protocols_window | intro].
  apply window_blind_bind; [apply check_port_scans_window | intro].
  apply window_blind_bind; [apply check_ddos_patterns_window | intro].
  window_blind.
Qed.

Lemma recent_spec (now : Z) (f : NetworkFlow.t) :
  recent now f = true <-> now - minutes 5 <= NetworkFlow.timestamp f.
Proof. unfold recent. apply Z.leb_le. Qed.

(** Flows of one instant are in the window together, or out of it. *)
Lemma filter_recent_at (now t : Z) (rows : list NetworkFlow.t) :
  (forall f, In f rows -> NetworkFlow.timestamp f = t) ->
  filter (recent now) rows = if now - minutes 5 <=? t then rows else [].
Proof.
  intro Same. destruct (now - minutes 5 <=? t) eqn:E.
  - apply filter_every. intros f Hf. unfold recent. rewrite (Same f Hf). exact E.
  - apply filter_none.
    destruct (existsb (recent now) rows) eqn:X; [|reflexivity].
    apply existsb_exists in X. destruct X as (f & Hf & R).
    unfold recent in R. rewrite (Same f Hf) in R. congruence.
Qed.

Lemma scan_at_rows (t : Z) (n : nat) (f : NetworkFlow.t) :
  In f (scan_at t n) -> NetworkFlow.src_ip f = "10.0.0.7" /\ NetworkFlow.timestamp f = t.
Proof.
  unfold scan_at. intro H. apply in_map_iff in H. destruct H as (i & <- & _).
  split; reflexivity.
Qed.

Lemma fan_in_at_rows (t : Z) (n : nat) (f : NetworkFlow.t) :
  In f (fan_in_at t n) -> NetworkFlow.dst_ip f = "10.0.1.1" /\ NetworkFlow.timestamp f = t.
Proof.
  unfold fan_in_at. intro H. apply in_map_iff in H. destruct H as (i & <- & _).
  split; reflexivity.
Qed.

(** C5, as the code has it.  The window of the four heuristics is
    [timestamp >= now - 5 minutes], with no upper end.  Nothing outside
    it is read: a heuristic run on another table with the same flows in
    that window ends the same way and leaves the same alerts and log.
    And a flow of any date in it is read, by each heuristic: the
    bandwidth heuristic finds its window not empty, and logs the error
    of its aggregate; the unusual-protocol heuristic reports a GRE flow;
    the port-scan heuristic reports ten ports reached at that date, and
    the DDoS heuristic fifty sources seen at that date.  The same flows
    dated before [now - 5 minutes] leave no trace. *)
Theorem heuristics_read_trailing_window (now : Z) :
  (forall (w : World) (table : list NetworkFlow.t),
      filter (fun f => now - minutes 5 <=? NetworkFlow.timestamp f) table
      = filter (fun f => now - minutes 5 <=? NetworkFlow.timestamp f) (network_flows w) ->
      forall check,
        In check [check_bandwidth_spikes; check_unusual_protocols;
                  check_port_scans; check_ddos_patterns; check_flow_alerts] ->
        check now (with_network_flows table w)
        = (outcome (check now) w, with_network_flows table (after (check now) w)))
  /\ (forall t,
        log (after (check_bandwidth_spikes now) (world_of [gre_flow t] [] [] []))
        = if now - minutes 5 <=? t
          then [(ERROR, ("Error checking bandwidth spikes: "
                           ++ str_exn (FieldError "bandwidth_mbps"))%string)]
          else [])
  /\ (forall t,
        flow_alerts (after (check_unusual_protocols now) (world_of [gre_flow t] [] [] []))
        = if now - minutes 5 <=? t then [unusual_alert now (gre_flow t)] else [])
  /\ (forall t,
        flow_alerts (after (check_port_scans now) (world_of (scan_at t 10) [] [] []))
        = if now - minutes 5 <=? t then [port_scan_alert now ("10.0.0.7", 10)] else [])
  /\ (forall t,
        flow_alerts (after (check_ddos_patterns now) (world_of (fan_in_at t 50) [] [] []))
        = if now - minutes 5 <=? t then [ddos_alert now ("10.0.1.1", 50)] else []).
Proof.
  split; [|split; [|split; [|split]]].
  - intros w table Hw check Hin. simpl in Hin.
    destruct Hin as [E | [E | [E | [E | [E | []]]]]]; subst check.
    + apply check_bandwidth_spikes_window, Hw.
    + apply check_unusual_protocols_window, Hw.
    + apply check_port_scans_window, Hw.
    + apply check_ddos_patterns_window, Hw.
    + apply check_flow_alerts_window, Hw.
  - intro t. unfold after. rewrite check_bandwidth_spikes_no_faults by reflexivity.
    cbn [network_flows world_of existsb NetworkFlow.timestamp gre_flow sample_flow].
    rewrite orb_false_r. destruct (now - minutes 5 <=? t); reflexivity.
  - intro t. unfold after. rewrite check_unusual_protocols_emits by reflexivity.
    cbn [snd flow_alerts with_flow_alerts world_of network_flows app].
    unfold unusual_flows.
    rewrite (filter_recent_at now t [gre_flow t])
      by (intros f [<- | []]; reflexivity).
    destruct (now - minutes 5 <=? t); reflexivity.
  - intro t. unfold after. rewrite check_port_scans_emits by reflexivity.
    cbn [snd flow_alerts with_flow_alerts world_of network_flows app].
    unfold port_scan_sources.
    rewrite (filter_recent_at now t (scan_at t 10))
      by (intros f Hf; apply (scan_at_rows t 10 f Hf)).
    destruct (now - minutes 5 <=? t); [|reflexivity].
    rewrite (count_distinct_gte_one_group String.eqb Z.eqb String.eqb_eq
               NetworkFlow.src_ip NetworkFlow.dst_port 10 (scan_at t 10) "10.0.0.7" t);
      [reflexivity | discriminate | apply scan_at_rows].
  - intro t. unfold after. rewrite check_ddos_patterns_no_faults by reflexivity.
    cbn [snd flow_alerts with_flow_alerts world_of network_flows app].
    unfold ddos_targets.
    rewrite (filter_recent_at now t (fan_in_at t 50))
      by (intros f Hf; apply (fan_in_at_rows t 50 f Hf)).
    destruct (now - minutes 5 <=? t); [|reflexivity].
    rewrite (count_distinct_gte_one_group String.eqb String.eqb String.eqb_eq
               NetworkFlow.dst_ip NetworkFlow.src_ip 50 (fan_in_at t 50) "10.0.1.1" t);
      [reflexivity | discriminate | apply fan_in_at_rows].
Qed.

(** A flow nine minutes old, added to the table, changes nothing; fifty
    sources seen one day after [t0] are reported at [t0]. *)
Lemma heuristics_read_trailing_window_witness :
  check_flow_alerts t0 (with_network_flows (old_flow :: network_flows spike_world)
                                           spike_world)
  = (outcome (check_flow_alerts t0) spike_world,
     with_network_flows (old_flow :: network_flows spike_world)
                        (after (check_flow_alerts t0) spike_world))
  /\ map FlowAlert.alert_type
         (flow_alerts (after (check_ddos_patterns t0)
                             (world_of (fan_in_at (t0 + days 1) 50) [] [] [])))
     = ["ddos_attack"].
Proof.
  destruct (heuristics_read_trailing_window t0) as (Blind & _ & _ & _ & Fan).
  split.
  - apply (Blind spike_world (old_flow :: network_flows spike_world) eq_refl).
    simpl. tauto.
  - rewrite (Fan (t0 + days 1)). reflexivity.
Defined.

(** A flow dated after [now] is read by the heuristics: alone in the
    table, it gets an unusual-protocol alert that refers to it. *)
Lemma future_flow_is_considered :
  t0 <= NetworkFlow.timestamp future_flow
  /\ map FlowAlert.flow
         (flow_alerts (after (check_flow_alerts t0)
                             (world_of [future_flow] [] [] [])))
     = [Some (NetworkFlow.id future_flow)]
  /\ flow_alerts (after (check_flow_alerts t0) (world_of [] [] [] [])) = [].
Proof. vm_compute. split; [discriminate | split; reflexivity]. Qed.

(** ** The windowed aggregator *)

Lemma always_raises_raise {A} (e : exn) : always_raises (@raise A e).
Proof. intro w. exists e. reflexivity. Qed.

Lemma always_raises_bind_left {A B} (c : M A) (k : A -> M B) :
  always_raises c -> always_raises (bind c k).
Proof.
  intros R w. destruct (R w) as (e & E). exists e.
  unfold outcome, bind in *. destruct (c w) as [[a | e'] w1]; cbn [fst] in *.
  - discriminate.
  - injection E as ->. reflexivity.
Qed.

Lemma always_raises_bind_right {A B} (c : M A) (k : A -> M B) :
  (forall a, always_raises (k a)) -> always_raises (bind c k).
Proof.
  intros R w. unfold outcome, bind. destruct (c w) as [[a | e] w1].
  - apply R.
  - exists e. reflexivity.
Qed.

(** [calculate_flow_statistics] never returns: after its first four
    queries it asks for [Max('bandwidth_mbps')], which is no column. *)
Lemma calculate_flow_statistics_raises (flows : QuerySet) period timestamp :
  always_raises (calculate_flow_statistics flows period timestamp).
Proof.
  unfold calculate_flow_statistics.
  do 4 (apply always_raises_bind_right; intro).
  apply always_raises_bind_left. rewrite aggregate_bandwidth_mbps.
  apply always_raises_raise.
Qed.

Lemma calculate_flow_statistics_no_faults (flows : QuerySet) period timestamp w :
  faults w = [] ->
  calculate_flow_statistics flows period timestamp w
  = (Raise (FieldError "bandwidth_mbps"), w).
Proof.
  intro H. unfold calculate_flow_statistics, qs_count, aggregate_z, bind.
  do 3 (rewrite fetch_no_faults by exact H; cbv beta iota).
  rewrite (aggregate_column _ "duration" _ _ w eq_refl H).
  reflexivity.
Qed.

Section KeepsTables.
Context {B : Type} (proj : World -> B).
Hypothesis proj_faults : forall r w, proj (with_faults r w) = proj w.
Hypothesis proj_log : forall l w, proj (with_log l w) = proj w.
Hypothesis proj_channel : forall c w, proj (with_channel c w) = proj w.

Lemma calculate_flow_statistics_keeps (flows : QuerySet) period timestamp :
  keeps proj (calculate_flow_statistics flows period timestamp).
Proof.
  unfold calculate_flow_statistics, qs_count, aggregate_z.
  repeat first
    [ apply (keeps_fetch proj proj_faults)
    | apply (keeps_aggregate proj proj_faults)
    | apply (keeps_ret proj)
    | apply (keeps_bind proj); [ | intro] ].
Qed.

(** A turn of the loop does not reach [create]. *)
Lemma aggregate_period_keeps now p : keeps proj (aggregate_period now p).
Proof.
  destruct p as [[name trunc] delta]. unfold aggregate_period, FlowStatistics_exists.
  apply (keeps_bind proj);
    [apply (keeps_external proj proj_faults); intro; reflexivity | intros [|]];
    [apply (keeps_ret proj)|].
  apply (keeps_bind proj); [apply (keeps_fetch proj proj_faults) | intros [|]];
    cbn [negb]; [|apply (keeps_ret proj)].
  apply (keeps_bind_raises proj);
    [apply calculate_flow_statistics_keeps | apply calculate_flow_statistics_raises].
Qed.

Lemma send_statistics_updates_keeps now : keeps proj (send_statistics_updates now).
Proof.
  unfold send_statistics_updates, group_send.
  apply (keeps_try_except proj); [|intros e w; apply proj_log].
  apply (keeps_bind proj);
    [apply (keeps_external proj proj_faults); intro; reflexivity | intros [s|]];
    [|apply (keeps_ret proj)].
  apply (keeps_external proj proj_faults). intro w. apply proj_channel.
Qed.

Lemma aggregate_flow_statistics_keeps now : keeps proj (aggregate_flow_statistics now).
Proof.
  unfold aggregate_flow_statistics.
  apply (keeps_try_except proj).
  - apply (keeps_bind proj); [intro w; apply proj_log | intro].
    apply (keeps_bind proj);
      [apply (keeps_for_each proj); intro; apply aggregate_period_keeps | intro].
    apply (keeps_bind proj); [apply send_statistics_updates_keeps | intro].
    intro w. apply proj_log.
  - intro e. apply (keeps_bind proj); [intro w; apply proj_log | intro].
    apply (keeps_raise proj).
Qed.
End KeepsTables.

(** Whatever fails, a run of the aggregator writes to no table. *)
Lemma aggregate_flow_statistics_writes_nothing now w :
  let w' := after (aggregate_flow_statistics now) w in
  flow_statistics w' = flow_statistics w
  /\ network_flows w' = network_flows w
  /\ flow_alerts w' = flow_alerts w.
Proof.
  repeat split;
    [ apply (aggregate_flow_statistics_keeps flow_statistics)
    | apply (aggregate_flow_statistics_keeps network_flows)
    | apply (aggregate_flow_statistics_keeps flow_alerts) ];
    intros; reflexivity.
Qed.

(** One turn of the loop, when no call fails: a period whose bucket has
    its snapshot, or no flow, is passed over; for any other the turn
    raises, and nothing is written. *)
Lemma aggregate_period_no_faults now p w :
  faults w = [] ->
  aggregate_period now p w
  = (if is_settled now w p then Ok tt else Raise (FieldError "bandwidth_mbps"), w).
Proof.
  intro H. destruct p as [[name trunc] delta].
  unfold aggregate_period, is_settled, FlowStatistics_exists, qs_exists.
  unfold bind at 1. rewrite external_no_faults by exact H.
  destruct (existsb (same_bucket name (trunc now)) (flow_statistics w)); [reflexivity|].
  unfold bind at 1. rewrite fetch_no_faults by exact H.
  change (bucket_flows (trunc now) delta (network_flows w))
    with (filter (in_bucket (trunc now) delta) (network_flows w)).
  destruct (filter (in_bucket (trunc now) delta) (network_flows w)) as [|r rs];
    [reflexivity|].
  cbn [negb nonempty orb].
  unfold bind at 1. rewrite calculate_flow_statistics_no_faults by exact H. reflexivity.
Qed.

(** The loop over the periods, when no call fails. *)
Lemma aggregate_periods_no_faults now (ps : list (string * (Z -> Z) * Z)) w :
  faults w = [] ->
  for_each ps (aggregate_period now) w
  = (if forallb (is_settled now w) ps then Ok tt else Raise (FieldError "bandwidth_mbps"),
     w).
Proof.
  intro H. induction ps as [|p t IH]; [reflexivity|].
  cbn [for_each forallb]. unfold bind.
  rewrite aggregate_period_no_faults by exact H.
  destruct (is_settled now w p); [exact IH | reflexivity].
Qed.

Lemma send_statistics_updates_no_faults now w :
  faults w = [] ->
  exists w',
    send_statistics_updates now w = (Ok tt, w')
    /\ faults w' = []
    /\ network_flows w' = network_flows w
    /\ flow_statistics w' = flow_statistics w.
Proof.
  intro H. unfold send_statistics_updates, try_except, bind.
  rewrite external_no_faults by exact H.
  match goal with |- context [hd_error ?l] => destruct (hd_error l) end.
  - unfold group_send. rewrite external_no_faults by exact H.
    eexists. repeat split. exact H.
  - exists w. repeat split. exact H.
Qed.

(** One run of the aggregator, when no call fails. *)
Lemma aggregate_flow_statistics_no_faults now w :
  faults w = [] ->
  let w0 := with_log (log w ++ [(INFO, "Starting flow statistics aggregation")]) w in
  if forallb (is_settled now w) periods
  then outcome (aggregate_flow_statistics now) w = Ok tt
       /\ faults (after (aggregate_flow_statistics now) w) = []
  else aggregate_flow_statistics now w
       = (Raise (FieldError "bandwidth_mbps"),
          with_log (log w0 ++ [(ERROR, ("Error aggregating statistics: "
                                          ++ str_exn (FieldError "bandwidth_mbps"))%string)])
                   w0).
Proof.
  intros H w0.
  assert (Start : logger_info "Starting flow statistics aggregation" w = (Ok tt, w0))
    by reflexivity.
  assert (Loop := aggregate_periods_no_faults now periods w0 H).
  change (forallb (is_settled now w0) periods)
    with (forallb (is_settled now w) periods) in Loop.
  destruct (forallb (is_settled now w) periods).
  - destruct (send_statistics_updates_no_faults now w0 H) as (w1 & E & H1 & _).
    unfold outcome, after, aggregate_flow_statistics, try_except, bind.
    rewrite Start, Loop, E. split; [reflexivity | exact H1].
  - unfold aggregate_flow_statistics, try_except, bind.
    rewrite Start, Loop. reflexivity.
Qed.

Lemma in_bucket_spec (bucket_start delta : Z) (f : NetworkFlow.t) :
  in_bucket bucket_start delta f = true
  <-> bucket_start - delta <= NetworkFlow.timestamp f < bucket_start.
Proof.
  unfold in_bucket. rewrite andb_true_iff, Z.leb_le, Z.ltb_lt. tauto.
Qed.

Lemma periods_positive name trunc delta :
  In (name, trunc, delta) periods -> 0 < delta.
Proof.
  unfold periods. simpl. intros [E | [E | [E | [E | [E | []]]]]];
    injection E as _ _ E; subst delta; reflexivity.
Qed.

(** C4, as the code runs.  The flows of a bucket are those of the
    half-open interval [bucket_start - window <= timestamp < bucket_start]:
    a flow dated [bucket_start - window] is selected, a flow dated
    [bucket_start] is not.  But the statistics of the selected flows are
    never made: when the bucket has no snapshot yet and the selection is
    not empty, the turn of the loop raises [FieldError] in
    [calculate_flow_statistics], before it creates the snapshot, and
    leaves the tables as they were; when the selection is empty the turn
    ends normally. *)
Theorem bucket_is_half_open now name trunc delta w :
  faults w = [] ->
  In (name, trunc, delta) periods ->
  let bucket_start := trunc now in
  let rows := bucket_flows bucket_start delta (network_flows w) in
  (forall f, In f rows
             <-> In f (network_flows w)
                 /\ bucket_start - delta <= NetworkFlow.timestamp f < bucket_start)
  /\ (forall f, In f (network_flows w) ->
                NetworkFlow.timestamp f = bucket_start - delta -> In f rows)
  /\ (forall f, NetworkFlow.timestamp f = bucket_start -> ~ In f rows)
  /\ (existsb (same_bucket name bucket_start) (flow_statistics w) = false ->
      (rows <> [] ->
       aggregate_period now (name, trunc, delta) w
       = (Raise (FieldError "bandwidth_mbps"), w))
      /\ (rows = [] -> aggregate_period now (name, trunc, delta) w = (Ok tt, w))).
Proof.
  intros H Hp bucket_start rows.
  assert (Sel : forall f, In f rows
                          <-> In f (network_flows w)
                              /\ bucket_start - delta <= NetworkFlow.timestamp f
                                 < bucket_start).
  { intro f. unfold rows, bucket_flows, objects_filter.
    rewrite filter_In. fold (in_bucket bucket_start delta f).
    rewrite in_bucket_spec. tauto. }
  split; [exact Sel|]. split; [|split].
  - intros f Hf E. apply Sel. split; [exact Hf|].
    pose proof (periods_positive _ _ _ Hp). lia.
  - intros f E Hin. apply Sel in Hin. lia.
  - intro Hnew. rewrite aggregate_period_no_faults by exact H.
    unfold is_settled. fold bucket_start. rewrite Hnew.
    change (filter (in_bucket bucket_start delta) (network_flows w)) with rows.
    split; intro R.
    + destruct rows; [contradiction | reflexivity].
    + rewrite R. reflexivity.
Qed.

(** At [t0] the bucket of the period 1m covers minute 9: of the two
    flows of the world the one dated 00:09:00 is selected, the one dated
    00:10:00 is not, and the turn of the loop raises and stores nothing. *)
Lemma bucket_is_half_open_witness :
  map NetworkFlow.id
      (bucket_flows (TruncMinute t0) (minutes 1) (network_flows boundary_world)) = [1]
  /\ aggregate_period t0 ("1m", TruncMinute, minutes 1) boundary_world
     = (Raise (FieldError "bandwidth_mbps"), boundary_world)
  /\ flow_statistics (after (aggregate_flow_statistics t0) boundary_world) = [].
Proof.
  destruct (bucket_is_half_open t0 "1m" TruncMinute (minutes 1) boundary_world
              eq_refl (or_introl eq_refl))
    as (_ & _ & _ & Run).
  split; [reflexivity|]. split.
  - apply (Run eq_refl). discriminate.
  - apply (aggregate_flow_statistics_writes_nothing t0 boundary_world).
Defined.


(** ** Idempotence of the aggregator *)




(** Whether a period needs work depends on the two tables only. *)
Lemma is_settled_same now w w' p :
  network_flows w' = network_flows w ->
  flow_statistics w' = flow_statistics w ->
  is_settled now w' p = is_settled now w p.
Proof.
  intros F S. destruct p as [[name trunc] delta]. unfold is_settled.
  rewrite F, S. reflexivity.
Qed.




(** ** The start of a bucket *)

Lemma truncation_bounds (t unit : Z) :
  0 < unit -> (t - t mod unit) mod unit = 0 /\ t - t mod unit <= t < t - t mod unit + unit.
Proof.
  intro H. pose proof (Z.mod_pos_bound t unit H). split; [|lia].
  rewrite Zminus_mod, Zmod_mod, Z.sub_diag. apply Zmod_0_l.
Qed.

(** C2, as the code has it.  The start of the bucket is [now] truncated
    to the minute for the periods 1m, 5m and 15m, to the hour for 1h and
    to the day for 1d.  It is the date under which a turn of the loop
    looks for the snapshot of the period, and the end of the window of
    flows it reads: with no call failing, a period that has a snapshot
    dated [bucket_start], or no flow in the window that ends there, is
    passed over. *)
Theorem bucket_start_granularity now :
  map (fun p => (fst (fst p), bucket_start now p)) periods
  = [ ("1m", TruncMinute now); ("5m", TruncMinute now); ("15m", TruncMinute now);
      ("1h", TruncHour now); ("1d", TruncDay now) ]
  /\ (TruncMinute now mod minutes 1 = 0
      /\ TruncMinute now <= now < TruncMinute now + minutes 1)
  /\ (TruncHour now mod hours 1 = 0
      /\ TruncHour now <= now < TruncHour now + hours 1)
  /\ (TruncDay now mod days 1 = 0
      /\ TruncDay now <= now < TruncDay now + days 1)
  /\ (forall w p,
        faults w = [] ->
        In p periods ->
        existsb (same_bucket (fst (fst p)) (bucket_start now p)) (flow_statistics w) = true
        \/ bucket_flows (bucket_start now p) (snd p) (network_flows w) = [] ->
        aggregate_period now p w = (Ok tt, w)).
Proof.
  split; [reflexivity|].
  split; [apply truncation_bounds; reflexivity|].
  split; [apply truncation_bounds; reflexivity|].
  split; [apply truncation_bounds; reflexivity|].
  intros w [[name trunc] delta] H _ Done.
  rewrite aggregate_period_no_faults by exact H.
  unfold is_settled. cbn [fst snd bucket_start] in Done.
  change (bucket_flows (trunc now) delta (network_flows w))
    with (filter (in_bucket (trunc now) delta) (network_flows w)) in Done.
  destruct Done as [-> | ->]; [reflexivity|].
  rewrite orb_true_r. reflexivity.
Qed.

(** At 00:07:30 the period 5m is passed over when its table holds a
    snapshot dated 00:07:00. *)
Lemma bucket_start_granularity_witness :
  bucket_start half_past_seven ("5m", TruncMinute, minutes 5) = minutes 7
  /\ aggregate_period half_past_seven ("5m", TruncMinute, minutes 5) minute_dated_world
     = (Ok tt, minute_dated_world).
Proof.
  split; [reflexivity|].
  destruct (bucket_start_granularity half_past_seven) as (_ & _ & _ & _ & Skip).
  apply (Skip minute_dated_world ("5m", TruncMinute, minutes 5) eq_refl).
  - simpl. tauto.
  - left. reflexivity.
Defined.

(** At 00:07:30 the buckets of the periods 5m and 15m start at 00:07:00,
    which is on no 5-minute or 15-minute boundary: the run finds the
    snapshots dated 00:07:00 and has nothing to do, and it does not find
    snapshots dated 00:05:00 and 00:00:00. *)
Lemma five_minute_bucket_off_boundary :
  bucket_start half_past_seven ("5m", TruncMinute, minutes 5) = minutes 7
  /\ bucket_start half_past_seven ("15m", TruncMinute, minutes 15) = minutes 7
  /\ minutes 7 mod minutes 5 <> 0
  /\ minutes 7 mod minutes 15 <> 0
  /\ outcome (aggregate_flow_statistics half_past_seven) minute_dated_world = Ok tt
  /\ outcome (FlowStatistics_exists "5m"
                (bucket_start half_past_seven ("5m", TruncMinute, minutes 5)))
             boundary_dated_world = Ok false
  /\ outcome (FlowStatistics_exists "15m"
                (bucket_start half_past_seven ("15m", TruncMinute, minutes 15)))
             boundary_dated_world = Ok false.
Proof. vm_compute. repeat split; discriminate. Qed.

(** ** What a run of the aggregator leaves *)

(** X9. Whatever fails, a run of the aggregator leaves the three tables as
    they were.  With no call failing it ends normally when every period
    has the snapshot of its bucket or no flow in its window; otherwise it
    logs the [FieldError] of [calculate_flow_statistics] and raises it
    again, and the periods after the one that raised are not looked at. *)
Theorem aggregator_stores_nothing now w :
  let w' := after (aggregate_flow_statistics now) w in
  flow_statistics w' = flow_statistics w
  /\ network_flows w' = network_flows w
  /\ flow_alerts w' = flow_alerts w
  /\ (faults w = [] ->
      (Forall (settled now w) periods ->
       outcome (aggregate_flow_statistics now) w = Ok tt)
      /\ (~ Forall (settled now w) periods ->
          outcome (aggregate_flow_statistics now) w = Raise (FieldError "bandwidth_mbps")
          /\ channel w' = channel w
          /\ log w'
             = log w
               ++ [ (INFO, "Starting flow statistics aggregation");
                    (ERROR, ("Error aggregating statistics: "
                               ++ str_exn (FieldError "bandwidth_mbps"))%string) ])).
Proof.
  intro w'.
  destruct (aggregate_flow_statistics_writes_nothing now w) as (S & F & A).
  split; [exact S|]. split; [exact F|]. split; [exact A|].
  intro H. pose proof (aggregate_flow_statistics_no_faults now w H) as Run.
  cbv zeta in Run.
  destruct (forallb (is_settled now w) periods) eqn:Every.
  - split; [intros _; exact (proj1 Run)|].
    intro N. exfalso. apply N, Forall_forall. intros p Hp.
    exact (proj1 (forallb_forall _ _) Every p Hp).
  - split.
    + intro All. exfalso.
      assert (forallb (is_settled now w) periods = true)
        by (apply forallb_forall; intros p Hp;
            exact (proj1 (Forall_forall _ _) All p Hp)).
      congruence.
    + intros _. unfold w', outcome, after. rewrite Run. cbn [fst snd].
      split; [reflexivity|]. split; [reflexivity|].
      cbn [log with_log]. rewrite <- app_assoc. reflexivity.
Qed.

(** At [t0] the bucket of the period 1m of [boundary_world] holds a flow:
    the run raises, and stores and sends nothing. *)
Lemma aggregator_stores_nothing_witness :
  let w' := after (aggregate_flow_statistics t0) boundary_world in
  outcome (aggregate_flow_statistics t0) boundary_world
  = Raise (FieldError "bandwidth_mbps")
  /\ flow_statistics w' = []
  /\ channel w' = []
  /\ map fst (log w') = [INFO; ERROR].
Proof.
  destruct (aggregator_stores_nothing t0 boundary_world) as (S & _ & _ & Run).
  destruct (Run eq_refl) as (_ & Fails).
  assert (N : ~ Forall (settled t0 boundary_world) periods)
    by (intro All; inversion All as [|? ? Hd _]; discriminate Hd).
  destruct (Fails N) as (O & C & L).
  split; [exact O|]. split; [exact S|]. split; [exact C|].
  cbv zeta. rewrite L. reflexivity.
Defined.

(** ** The retention sweeper *)

Lemma refers_to_nothing (a : FlowAlert.t) : refers_to [] a = false.
Proof. unfold refers_to. destruct (FlowAlert.flow a); reflexivity. Qed.

(** One sweep, when no call fails: the flows older than the retention
    go, and with them the alerts that refer to them; then the statistics
    older than the retention; then the alerts older than 90 days. *)
Lemma cleanup_old_flows_no_faults setting now w :
  faults w = [] ->
  let cutoff_date :=
    now - days (match setting with Some d => d | None => 30 end) in
  let ids :=
    map NetworkFlow.id
        (filter (fun f => NetworkFlow.timestamp f <? cutoff_date) (network_flows w)) in
  exists w',
    cleanup_old_flows setting now w = (Ok tt, w')
    /\ network_flows w'
       = filter (fun f => negb (mem_z (NetworkFlow.id f) ids)) (network_flows w)
    /\ flow_statistics w'
       = filter (fun s => negb (FlowStatistics.timestamp s <? cutoff_date))
                (flow_statistics w)
    /\ flow_alerts w'
       = filter (fun a => negb (FlowAlert.timestamp a <? now - days 90))
                (filter (fun a => negb (refers_to ids a)) (flow_alerts w)).
Proof.
  intros H cutoff_date ids.
  unfold cleanup_old_flows. fold cutoff_date.
  set (old_flows := objects_filter (fun f => NetworkFlow.timestamp f <? cutoff_date)).
  set (old_stats := fun s => FlowStatistics.timestamp s <? cutoff_date).
  set (old_alerts := fun a => FlowAlert.timestamp a <? now - days 90).
  match goal with
  | |- exists w', try_except ?body ?handler w = _ /\ ?P1 /\ ?P2 /\ ?P3 =>
      enough (Body : exists w', body w = (Ok tt, w') /\ P1 /\ P2 /\ P3)
  end.
  { destruct Body as (w' & E & P). exists w'. split; [|exact P].
    apply try_except_ok, E. }
  (* the flows *)
  rewrite (bind_step _ _ w w (len (old_flows (network_flows w))))
    by (unfold qs_count; apply fetch_no_faults, H).
  match goal with
  | |- exists w', bind (if ?c then ?th else ?el) _ w = _ /\ _ =>
      assert (S1 : exists w1,
                 (if c then th else el) w = (Ok tt, w1)
                 /\ faults w1 = []
                 /\ network_flows w1
                    = filter (fun f => negb (mem_z (NetworkFlow.id f) ids))
                             (network_flows w)
                 /\ flow_statistics w1 = flow_statistics w
                 /\ flow_alerts w1
                    = filter (fun a => negb (refers_to ids a)) (flow_alerts w))
  end.
  { destruct (0 <? len (old_flows (network_flows w))) eqn:C.
    - unfold bind, delete_flows. rewrite external_no_faults by exact H.
      eexists. split; [reflexivity|]. simpl. repeat split. exact H.
    - apply len_zero in C. exists w. split; [reflexivity|]. split; [exact H|].
      unfold old_flows, objects_filter in C. unfold ids. rewrite C. simpl.
      rewrite (filter_keep_all _ (network_flows w)) by reflexivity.
      rewrite (filter_keep_all _ (flow_alerts w))
        by (intro a; rewrite refers_to_nothing; reflexivity).
      repeat split. }
  destruct S1 as (w1 & E1 & H1 & F1 & T1 & A1).
  rewrite (bind_step _ _ w w1 tt E1).
  (* the statistics *)
  rewrite (bind_step _ _ w1 w1 (len (filter old_stats (flow_statistics w1))))
    by (rewrite external_no_faults by exact H1; reflexivity).
  match goal with
  | |- exists w', bind (if ?c then ?th else ?el) _ w1 = _ /\ _ =>
      assert (S2 : exists w2,
                 (if c then th else el) w1 = (Ok tt, w2)
                 /\ faults w2 = []
                 /\ network_flows w2 = network_flows w1
                 /\ flow_statistics w2
                    = filter (fun s => negb (old_stats s)) (flow_statistics w1)
                 /\ flow_alerts w2 = flow_alerts w1)
  end.
  { destruct (0 <? len (filter old_stats (flow_statistics w1))) eqn:C.
    - unfold bind. rewrite external_no_faults by exact H1.
      eexists. split; [reflexivity|]. simpl. repeat split. exact H1.
    - apply len_zero in C. exists w1. split; [reflexivity|].
      rewrite (filter_all _ _ C). repeat split. exact H1. }
  destruct S2 as (w2 & E2 & H2 & F2 & T2 & A2).
  rewrite (bind_step _ _ w1 w2 tt E2).
  (* the alerts *)
  rewrite (bind_step _ _ w2 w2 (len (filter old_alerts (flow_alerts w2))))
    by (rewrite external_no_faults by exact H2; reflexivity).
  destruct (0 <? len (filter old_alerts (flow_alerts w2))) eqn:C.
  - unfold bind. rewrite external_no_faults by exact H2.
    eexists. split; [reflexivity|]. simpl.
    rewrite F2, F1, T2, T1, A2, A1. repeat split.
  - apply len_zero in C. exists w2. split; [reflexivity|].
    rewrite F2, F1, T2, T1. repeat split.
    rewrite <- A1, <- A2. symmetry. apply (filter_all old_alerts _ C).
Qed.

(** C3 fails on the code.  The flow of day 69 is past its retention on
    day 100 and is deleted; the alert that refers to it is 31 days old,
    well within the 90 days, and is deleted with it by the cascade. *)
Theorem sweep_cascades_to_recent_alert :
  day_100 - days 90 <= FlowAlert.timestamp alert_of_day_69
  /\ flow_alerts day_100_world = [alert_of_day_69]
  /\ outcome (cleanup_old_flows None day_100) day_100_world = Ok tt
  /\ network_flows (after (cleanup_old_flows None day_100) day_100_world) = []
  /\ flow_alerts (after (cleanup_old_flows None day_100) day_100_world) = [].
Proof. vm_compute. repeat split. discriminate. Qed.

(** The same alert, referring to no flow, stays. *)
Example sweep_keeps_recent_unreferenced_alert :
  flow_alerts
    (after (cleanup_old_flows None day_100)
           (world_of [sample_flow 1 (days 69) "10.0.0.1" "10.0.1.1" 80 47 0] []
                     [alert_about None] []))
  = [alert_about None].
Proof. vm_compute. reflexivity. Qed.

(** ** The enrichment stage *)

Lemma row_step_refl (t : list NetworkFlow.t) : Forall2 row_step t t.
Proof. induction t; constructor; [left; reflexivity | assumption]. Qed.

Lemma row_step_id (f g : NetworkFlow.t) :
  row_step f g -> NetworkFlow.id g = NetworkFlow.id f.
Proof. intros [E | (_ & (Fx & _))]; [subst; reflexivity | apply Fx]. Qed.

Lemma row_step_ids (t t' : list NetworkFlow.t) :
  Forall2 row_step t t' -> map NetworkFlow.id t' = map NetworkFlow.id t.
Proof.
  induction 1 as [|f g t t' R _ IH]; simpl; [reflexivity|].
  rewrite IH, (row_step_id _ _ R). reflexivity.
Qed.

Lemma row_step_trans (f g h : NetworkFlow.t) :
  row_step f g -> row_step g h -> row_step f h.
Proof.
  intros [E1 | (P1 & En1)] [E2 | (P2 & En2)]; subst.
  - left. reflexivity.
  - right. split; assumption.
  - right. split; assumption.
  - destruct En1 as (_ & Pg & _). congruence.
Qed.

Lemma table_step_trans (t1 t2 t3 : list NetworkFlow.t) :
  Forall2 row_step t1 t2 -> Forall2 row_step t2 t3 -> Forall2 row_step t1 t3.
Proof.
  intro H. revert t3. induction H as [|f g t t' R _ IH]; intros t3 H3.
  - inversion H3. constructor.
  - inversion H3 as [|? h ? t3' R' H3']; subst.
    constructor; [eapply row_step_trans; eassumption | apply IH, H3'].
Qed.

(** The row that one turn of the batch loop saves. *)
Lemma enrich_saves sha256_hexdigest isoformat now s :
  exists row,
    (forall w, enrich sha256_hexdigest isoformat now s w = Model_save now row w)
    /\ enriched s (NetworkFlow.set_updated_at now row).
Proof.
  unfold enrich, save. eexists. split; [intro w; reflexivity|].
  destruct s as [id fid ts fs ls sip dip sp dp pr pn pk by_ du ii oi tos fl
                 sc sci dc dci sa da fd ca ua prc].
  unfold enriched, same_fixed_columns, get_geolocation, get_asn. cbn.
  destruct (String.eqb sc "") eqn:Sc; cbn;
    destruct (String.eqb dc "") eqn:Dc; cbn;
    destruct (not_asn sa) eqn:Sa; cbn;
    destruct (not_asn da) eqn:Da; cbn;
    destruct (String.eqb fid "") eqn:Fi; cbn;
    destruct (String.eqb pn "") eqn:Pn; cbn;
    try apply String.eqb_eq in Sc; try apply String.eqb_eq in Dc;
    try apply String.eqb_eq in Fi; try apply String.eqb_eq in Pn;
    rewrite ?Sa, ?Da; subst;
    (split; [repeat split|]; split; [reflexivity|]);
    repeat split; intros; congruence.
Qed.

Lemma mem_z_In (x : Z) (l : list Z) : mem_z x l = true <-> In x l.
Proof.
  unfold mem_z. rewrite existsb_exists. split.
  - intros (y & Hy & E). apply Z.eqb_eq in E. subst y. exact Hy.
  - intro H. exists x. split; [exact H | apply Z.eqb_refl].
Qed.

Lemma same_id_same_row (table : list NetworkFlow.t) (a b : NetworkFlow.t) :
  NoDup (map NetworkFlow.id table) -> In a table -> In b table ->
  NetworkFlow.id a = NetworkFlow.id b -> a = b.
Proof.
  induction table as [|c t IH]; simpl; intros U Ha Hb E; [contradiction|].
  inversion U as [|? ? Hn Hd]; subst.
  destruct Ha as [Ha | Ha], Hb as [Hb | Hb]; subst.
  - reflexivity.
  - exfalso. apply Hn. rewrite E. apply in_map, Hb.
  - exfalso. apply Hn. rewrite <- E. apply in_map, Ha.
  - apply IH; assumption.
Qed.

Lemma replace_row_step (s g : NetworkFlow.t) (table : list NetworkFlow.t) :
  (forall c, In c table -> NetworkFlow.id c = NetworkFlow.id s -> c = s) ->
  row_step s g ->
  Forall2 row_step table
          (map (fun f => if NetworkFlow.id f =? NetworkFlow.id g then g else f) table).
Proof.
  intros Hs R. pose proof (row_step_id _ _ R) as Eg.
  induction table as [|c t IH]; simpl; constructor.
  - destruct (NetworkFlow.id c =? NetworkFlow.id g) eqn:E.
    + apply Z.eqb_eq in E. rewrite Eg in E.
      rewrite (Hs c (or_introl eq_refl) E). exact R.
    + left. reflexivity.
  - apply IH. intros c' Hc'. apply Hs. right. exact Hc'.
Qed.

Lemma replace_keeps_others (s' g : NetworkFlow.t) (table : list NetworkFlow.t) :
  In s' table -> NetworkFlow.id s' <> NetworkFlow.id g ->
  In s' (map (fun f => if NetworkFlow.id f =? NetworkFlow.id g then g else f) table).
Proof.
  intros Hin Hne. apply in_map_iff. exists s'. split; [|exact Hin].
  destruct (NetworkFlow.id s' =? NetworkFlow.id g) eqn:E; [|reflexivity].
  apply Z.eqb_eq in E. contradiction.
Qed.

(** Saving the enriched copy of a row of the table: the table changes at
    that row only, if at all. *)
Lemma Model_save_step now row s w :
  NoDup (map NetworkFlow.id (network_flows w)) ->
  In s (network_flows w) ->
  row_step s (NetworkFlow.set_updated_at now row) ->
  let w' := after (Model_save now row) w in
  Forall2 row_step (network_flows w) (network_flows w')
  /\ (forall s', In s' (network_flows w) ->
                 NetworkFlow.id s' <> NetworkFlow.id s -> In s' (network_flows w')).
Proof.
  intros U Hs R w'. subst w'.
  pose proof (row_step_id _ _ R) as Eg.
  assert (Same : forall v : World,
             network_flows v = network_flows w ->
             Forall2 row_step (network_flows w) (network_flows v)
             /\ (forall s', In s' (network_flows w) ->
                            NetworkFlow.id s' <> NetworkFlow.id s ->
                            In s' (network_flows v))).
  { intros v E. rewrite E. split; [apply row_step_refl | auto]. }
  assert (Call : forall v : World,
             network_flows v = network_flows w ->
             let v' := snd ((fun w0 =>
               let row0 := NetworkFlow.set_updated_at now row in
               let table := network_flows w0 in
               if existsb (fun f => negb (NetworkFlow.id f =? NetworkFlow.id row0)
                                    && String.eqb (NetworkFlow.flow_id f)
                                                  (NetworkFlow.flow_id row0)) table
               then (@Raise unit IntegrityError, w0)
               else if mem_z (NetworkFlow.id row0) (map NetworkFlow.id table)
               then (Ok tt,
                     with_network_flows
                       (map (fun f => if NetworkFlow.id f =? NetworkFlow.id row0
                                      then row0 else f) table) w0)
               else (Ok tt, with_network_flows (table ++ [row0]) w0)) v) in
             Forall2 row_step (network_flows w) (network_flows v')
             /\ (forall s', In s' (network_flows w) ->
                            NetworkFlow.id s' <> NetworkFlow.id s ->
                            In s' (network_flows v'))).
  { intros v E. cbv zeta. cbv beta. rewrite E.
    destruct (existsb _ (network_flows w)); [apply Same, E|].
    assert (M : mem_z (NetworkFlow.id (NetworkFlow.set_updated_at now row))
                      (map NetworkFlow.id (network_flows w)) = true).
    { apply mem_z_In. rewrite Eg. apply in_map, Hs. }
    rewrite M. cbn [snd network_flows with_network_flows]. split.
    - apply (replace_row_step s); [|exact R].
      intros c Hc Ec. apply (same_id_same_row (network_flows w)); assumption.
    - intros s' Hs' Hne. apply replace_keeps_others; [exact Hs'|].
      rewrite Eg. exact Hne. }
  unfold after, Model_save, external.
  destruct (faults w) as [|[|] rest].
  - apply (Call w eq_refl).
  - apply Same. reflexivity.
  - apply (Call (with_faults rest w) eq_refl).
Qed.

(** A slice of the unprocessed flows: rows of the table, not processed,
    no two with the same primary key. *)
Lemma slice_of_unprocessed (table : list NetworkFlow.t) (i j : nat) :
  NoDup (map NetworkFlow.id table) ->
  let batch :=
    firstn (j - i)
      (skipn i (ordering (objects_filter (fun f => negb (NetworkFlow.processed f))
                                         table))) in
  NoDup (map NetworkFlow.id batch)
  /\ forall s, In s batch -> In s table /\ NetworkFlow.processed s = false.
Proof.
  intros U batch. subst batch. unfold objects_filter, ordering.
  set (rows := filter (fun f => negb (NetworkFlow.processed f)) table).
  set (sorted := sort_by _ rows).
  assert (P : Permutation sorted rows) by apply sort_by_permutation.
  split.
  - assert (Us : NoDup (map NetworkFlow.id sorted)).
    { apply (Permutation_NoDup (l := map NetworkFlow.id rows)).
      - apply Permutation_map. symmetry. exact P.
      - apply NoDup_map_filter, U. }
    rewrite <- (firstn_skipn i sorted), map_app in Us.
    apply NoDup_app_remove_l in Us.
    rewrite <- (firstn_skipn (j - i) (skipn i sorted)), map_app in Us.
    apply NoDup_app_remove_r in Us. exact Us.
  - intros s Hs.
    assert (Hr : In s rows).
    { apply (Permutation_in _ P).
      rewrite <- (firstn_skipn i sorted). apply in_or_app. right.
      rewrite <- (firstn_skipn (j - i) (skipn i sorted)). apply in_or_app. left.
      exact Hs. }
    apply filter_In in Hr. destruct Hr as (Hin & Hp).
    split; [exact Hin | apply negb_true_iff, Hp].
Qed.

(** The loop over a batch: each row of the batch is saved enriched. *)
Lemma enrich_batch sha256_hexdigest isoformat now (batch : list NetworkFlow.t) :
  forall w,
    NoDup (map NetworkFlow.id (network_flows w)) ->
    NoDup (map NetworkFlow.id batch) ->
    (forall s, In s batch ->
               In s (network_flows w) /\ NetworkFlow.processed s = false) ->
    Forall2 row_step (network_flows w)
            (network_flows
               (after (for_each batch (enrich sha256_hexdigest isoformat now)) w)).
Proof.
  induction batch as [|s rest IH]; intros w U Ub Hb.
  - apply row_step_refl.
  - cbn [for_each]. rewrite after_bind.
    destruct (enrich_saves sha256_hexdigest isoformat now s) as (row & Erow & En).
    destruct (Hb s (or_introl eq_refl)) as (Hs & Ps).
    assert (R : row_step s (NetworkFlow.set_updated_at now row))
      by (right; split; assumption).
    destruct (Model_save_step now row s w U Hs R) as (Step & Others).
    assert (Ea : after (enrich sha256_hexdigest isoformat now s) w
                 = after (Model_save now row) w)
      by (unfold after; rewrite Erow; reflexivity).
    rewrite Ea.
    destruct (outcome (enrich sha256_hexdigest isoformat now s) w); [|exact Step].
    eapply table_step_trans; [exact Step|].
    simpl in Ub. inversion Ub as [|? ? Hn Hd]; subst.
    apply IH.
    + rewrite (row_step_ids _ _ Step). exact U.
    + exact Hd.
    + intros s' Hs'. destruct (Hb s' (or_intror Hs')) as (Hin & Pf).
      split; [|exact Pf]. apply Others; [exact Hin|].
      intro E. apply Hn. rewrite <- E. apply in_map, Hs'.
Qed.

Lemma enriches_only_keeps {A} (c : M A) : keeps network_flows c -> enriches_only c.
Proof. intros K w _. rewrite K. apply row_step_refl. Qed.

Lemma enriches_only_bind {A B} (c : M A) (k : A -> M B) :
  enriches_only c -> (forall a, enriches_only (k a)) -> enriches_only (bind c k).
Proof.
  intros Hc Hk w U. rewrite after_bind. specialize (Hc w U).
  destruct (outcome c w) as [a | e]; [|exact Hc].
  eapply table_step_trans; [exact Hc|].
  apply Hk. rewrite (row_step_ids _ _ Hc). exact U.
Qed.

Lemma enriches_only_try_except {A} (body : M A) (handler : exn -> M A) :
  enriches_only body -> (forall e, enriches_only (handler e)) ->
  enriches_only (try_except body handler).
Proof.
  intros Hb Hh w U. rewrite after_try_except. specialize (Hb w U).
  destruct (outcome body w) as [a | e]; [exact Hb|].
  eapply table_step_trans; [exact Hb|].
  apply Hh. rewrite (row_step_ids _ _ Hb). exact U.
Qed.

Lemma enriches_only_for_each {A} (l : list A) (body : A -> M unit) :
  (forall x, enriches_only (body x)) -> enriches_only (for_each l body).
Proof.
  intro H. induction l as [|x t IH]; cbn [for_each].
  - apply enriches_only_keeps. intro w. reflexivity.
  - apply enriches_only_bind; [apply H | intro; exact IH].
Qed.

Lemma fetch_run {A} (q : QuerySet) (f : list NetworkFlow.t -> result A) (w : World) :
  network_flows (after (fetch q f) w) = network_flows w
  /\ forall a, outcome (fetch q f) w = Ok a -> f (q (network_flows w)) = Ok a.
Proof.
  unfold after, outcome, fetch, external.
  destruct (faults w) as [|[|] rest]; simpl; split; auto; discriminate.
Qed.

(** One batch: a slice of the unprocessed flows is read, and its rows
    are enriched. *)
Lemma enriches_only_batch sha256_hexdigest isoformat now (i j : nat) (msg : string) :
  enriches_only
    (batch <- qs_slice (objects_filter (fun f => negb (NetworkFlow.processed f))) i j ;;
     for_each batch (enrich sha256_hexdigest isoformat now) ;;
     logger_info msg).
Proof.
  intros w U. rewrite after_bind. unfold qs_slice.
  destruct (fetch_run (objects_filter (fun f => negb (NetworkFlow.processed f)))
                      (fun rows => Ok (firstn (j - i) (skipn i (ordering rows)))) w)
    as (F & Hbatch).
  match goal with
  | |- context [outcome ?c w] => destruct (outcome c w) as [batch | e] eqn:O
  end.
  - specialize (Hbatch batch eq_refl). injection Hbatch as Hbatch.
    destruct (slice_of_unprocessed (network_flows w) i j U) as (Ub & Hb).
    cbv zeta in Ub, Hb. rewrite Hbatch in Ub, Hb.
    rewrite after_bind.
    match goal with
    | |- context [after (for_each batch ?body) ?w0] =>
        assert (Step : Forall2 row_step (network_flows w)
                               (network_flows (after (for_each batch body) w0)))
    end.
    { rewrite <- F at 1. apply enrich_batch.
      - rewrite F. exact U.
      - exact Ub.
      - intros s Hs. rewrite F. apply Hb, Hs. }
    match goal with
    | |- context [match ?o with Ok _ => _ | Raise _ => _ end] => destruct o
    end; exact Step.
  - rewrite F. apply row_step_refl.
Qed.

Lemma keeps_flows_lift {A} (r : result A) : keeps network_flows (lift r).
Proof. intro w. reflexivity. Qed.

Lemma keeps_flows_raise {A} (e : exn) : keeps network_flows (@raise A e).
Proof. intro w. reflexivity. Qed.

Lemma keeps_flows_send_flow_updates now : keeps network_flows (send_flow_updates now).
Proof.
  unfold send_flow_updates, group_send.
  apply (keeps_try_except network_flows); [|intro; apply keeps_flows_logger_error].
  apply (keeps_bind network_flows);
    [apply (keeps_fetch network_flows); intros; reflexivity | intro].
  apply (keeps_bind network_flows); [apply keeps_flows_lift | intro].
  apply (keeps_external network_flows); intros; reflexivity.
Qed.

Ltac enriches_only :=
  repeat first
    [ apply enriches_only_batch
    | apply enriches_only_keeps;
      first [ apply keeps_flows_send_flow_updates
            | apply keeps_flows_raise
            | apply keeps_flows_logger_info
            | apply keeps_flows_logger_error
            | apply (keeps_fetch network_flows); intros; reflexivity ]
    | apply enriches_only_for_each; intro
    | apply enriches_only_try_except; [ | intro]
    | apply enriches_only_bind; [ | intro]
    | match goal with
      | |- enriches_only (if ?b then _ else _) => destruct b
      end ].

Lemma process_network_flows_enriches_only sha256_hexdigest isoformat now :
  enriches_only (process_network_flows sha256_hexdigest isoformat now).
Proof. unfold process_network_flows. enriches_only. Qed.

(** C10, as the code has it.  The enrichment stage leaves in place every
    row that was processed before, and does to any other row nothing or
    this: [processed] is set; country and city are written only where the
    country was empty; an ASN is written only where it was absent or 0;
    [save] fills [flow_id] and [protocol_name] only where they were empty
    and refreshes [updated_at]; the key, the timestamps, the addresses
    and ports, the protocol, the counters, the duration, the interfaces,
    [tos], [tcp_flags], [flow_data] and [created_at] are as they were. *)
Theorem enrichment_frame sha256_hexdigest isoformat now w :
  NoDup (map NetworkFlow.id (network_flows w)) ->
  Forall2 (fun f g =>
             (NetworkFlow.processed f = true -> g = f)
             /\ (g = f \/ enriched f g))
          (network_flows w)
          (network_flows
             (after (process_network_flows sha256_hexdigest isoformat now) w)).
Proof.
  intro U.
  eapply Forall2_impl;
    [|exact (process_network_flows_enriches_only sha256_hexdigest isoformat now w U)].
  intros f g [E | (P & En)].
  - split; [intros _; exact E | left; exact E].
  - split; [intro T; congruence | right; exact En].
Qed.

Lemma enrichment_frame_witness :
  Forall2 (fun f g =>
             (NetworkFlow.processed f = true -> g = f)
             /\ (g = f \/ enriched f g))
          [asn_zero_flow]
          (network_flows
             (after (process_network_flows sample_digest sample_isoformat t0)
                    (world_of [asn_zero_flow] [] [] []))).
Proof.
  apply (enrichment_frame sample_digest sample_isoformat t0
                          (world_of [asn_zero_flow] [] [] [])).
  simpl. constructor; [intros [] | constructor].
Defined.

(** A source ASN recorded as 0 is present, and enrichment overwrites it:
    the row does not keep its ASN. *)
Lemma zero_asn_is_overwritten :
  let before := [asn_zero_flow] in
  let after_run :=
    network_flows
      (after (process_network_flows sample_digest sample_isoformat t0)
             (world_of before [] [] [])) in
  map NetworkFlow.src_asn before = [Some 0]
  /\ map NetworkFlow.src_asn after_run = [None]
  /\ ~ Forall2 (fun f g =>
                  NetworkFlow.src_asn f <> None ->
                  NetworkFlow.src_asn g = NetworkFlow.src_asn f)
               before after_run.
Proof.
  vm_compute. split; [reflexivity|]. split; [reflexivity|].
  intro H. inversion H as [|? ? ? ? Hrow _]; subst.
  assert (E : @None Z = Some 0) by (apply Hrow; discriminate).
  discriminate E.
Qed.

(** An empty [flow_id] is filled by [save]. *)
Lemma empty_flow_id_is_generated sha256_hexdigest isoformat :
  let f := NetworkFlow.set_flow_id ""
             (sample_flow 1 (minutes 8) "10.0.0.1" "10.0.1.1" 80 6 1000) in
  map NetworkFlow.flow_id
      (network_flows
         (after (process_network_flows sha256_hexdigest isoformat t0)
                (world_of [f] [] [] [])))
  = [_generate_flow_id sha256_hexdigest isoformat f].
Proof. vm_compute. reflexivity. Qed.

(** ** The other heuristics *)

(** X1. The port-scan heuristic.  Its query has no [order_by()], so that
    it groups the flows of its window by source and timestamp, not by
    source alone.  For each such group with at least 10 distinct
    destination ports it emits exactly one port_scan alert of severity
    medium, with threshold 10 and the number of distinct ports of the
    group as current value, and it emits nothing else. *)
Theorem port_scan_threshold (now : Z) (w : World) :
  faults w = [] ->
  let rows :=
    filter (fun f => now - minutes 5 <=? NetworkFlow.timestamp f) (network_flows w) in
  let ports := fun s t =>
    len (distinct Z.eqb
           (map NetworkFlow.dst_port
                (filter (fun f => String.eqb s (NetworkFlow.src_ip f)
                                  && (t =? NetworkFlow.timestamp f)) rows))) in
  let w' := after (check_port_scans now) w in
  exists groups new,
    flow_alerts w' = flow_alerts w ++ new
    /\ Forall2 (fun g a =>
                  FlowAlert.alert_type a = "port_scan"
                  /\ FlowAlert.severity a = "medium"
                  /\ FlowAlert.title a
                     = ("Potential port scan from " ++ fst g)%string
                  /\ FlowAlert.threshold_value a = Some (inject_Z 10)
                  /\ FlowAlert.current_value a
                     = Some (inject_Z (ports (fst g) (snd g))))
               groups new
    /\ NoDup groups
    /\ (forall s t,
          In (s, t) groups
          <-> In (s, t) (map (fun f => (NetworkFlow.src_ip f, NetworkFlow.timestamp f))
                             rows)
              /\ 10 <= ports s t).
Proof.
  intros H rows ports w'.
  destruct (count_distinct_gte_groups String.eqb Z.eqb String.eqb_eq
              NetworkFlow.src_ip NetworkFlow.dst_port 10 rows)
    as (groups & U & Char & E).
  exists groups. eexists. split.
  - unfold w', after. rewrite check_port_scans_emits by exact H.
    cbn [snd flow_alerts with_flow_alerts].
    unfold port_scan_sources, recent. fold rows. rewrite E. reflexivity.
  - split; [apply Forall2_map_both; intro g; repeat split|].
    split; [exact U | exact Char].
Qed.

(** Twelve ports probed by one source at one instant are one group of
    twelve, and reported; twelve ports probed one per second are twelve
    groups of one, and nothing is reported. *)
Lemma port_scan_threshold_witness :
  (exists groups new,
     flow_alerts (after (check_port_scans t0) scan_world) = new
     /\ Forall2 (fun g a => FlowAlert.title a
                            = ("Potential port scan from " ++ fst g)%string)
                groups new
     /\ In ("10.0.0.7", minutes 8) groups)
  /\ len (distinct Z.eqb
            (map NetworkFlow.dst_port (network_flows spread_scan_world))) = 12
  /\ flow_alerts (after (check_port_scans t0) spread_scan_world) = [].
Proof.
  split; [|split; vm_compute; reflexivity].
  destruct (port_scan_threshold t0 scan_world eq_refl)
    as (groups & new & E & F & _ & Char).
  exists groups, new. split; [exact E|]. split.
  - eapply Forall2_impl; [|exact F]. intros s a Hsa. apply Hsa.
  - apply Char. vm_compute. split; [left; reflexivity | discriminate].
Defined.

Example twelve_ports_one_alert :
  map FlowAlert.current_value (flow_alerts (after (check_flow_alerts t0) scan_world))
  = [Some (inject_Z 12)].
Proof. vm_compute. reflexivity. Qed.

(** X2. The unusual-protocol heuristic: it emits one alert of severity
    low for each flow of its window whose protocol is not 1, 6 or 17,
    referring to that flow and carrying its protocol number, and nothing
    for any other flow. *)
Theorem unusual_protocol_alerts (now : Z) (w : World) :
  faults w = [] ->
  let w' := after (check_unusual_protocols now) w in
  exists flows new,
    flow_alerts w' = flow_alerts w ++ new
    /\ Forall2 (fun f a =>
                  FlowAlert.alert_type a = "unusual_protocol"
                  /\ FlowAlert.severity a = "low"
                  /\ FlowAlert.flow a = Some (NetworkFlow.id f)
                  /\ FlowAlert.threshold_value a = None
                  /\ FlowAlert.current_value a
                     = Some (inject_Z (NetworkFlow.protocol f)))
               flows new
    /\ Permutation flows
         (filter (fun f => negb (well_known_protocol f))
                 (filter (recent now) (network_flows w)))
    /\ (forall f, In f flows
                  <-> In f (network_flows w)
                      /\ now - minutes 5 <= NetworkFlow.timestamp f
                      /\ NetworkFlow.protocol f <> 1
                      /\ NetworkFlow.protocol f <> 6
                      /\ NetworkFlow.protocol f <> 17).
Proof.
  intros H w'.
  exists (unusual_flows now (network_flows w)). eexists. split.
  - unfold w', after. rewrite check_unusual_protocols_emits by exact H. reflexivity.
  - split; [apply Forall2_map_right; intro x; repeat split|].
    split; [apply ordering_permutation|].
    intro f. unfold unusual_flows. split.
    + intro Hin. apply (Permutation_in _ (ordering_permutation _)) in Hin.
      apply filter_In in Hin. destruct Hin as (Hin & P).
      apply filter_In in Hin. destruct Hin as (Hin & R).
      apply recent_spec in R. split; [exact Hin|]. split; [exact R|].
      unfold well_known_protocol in P. apply negb_true_iff in P.
      apply orb_false_iff in P. destruct P as (P & P17).
      apply orb_false_iff in P. destruct P as (P1 & P6).
      apply Z.eqb_neq in P1, P6, P17. auto.
    + intros (Hin & R & P1 & P6 & P17).
      apply (Permutation_in _ (Permutation_sym (ordering_permutation _))).
      apply filter_In. split.
      * apply filter_In. split; [exact Hin | apply recent_spec, R].
      * unfold well_known_protocol. apply Z.eqb_neq in P1, P6, P17.
        rewrite P1, P6, P17. reflexivity.
Qed.

Lemma unusual_protocol_alerts_witness :
  exists flows new,
    flow_alerts (after (check_unusual_protocols t0) (world_of [future_flow] [] [] []))
    = new
    /\ Forall2 (fun f a => FlowAlert.flow a = Some (NetworkFlow.id f)) flows new
    /\ In future_flow flows.
Proof.
  destruct (unusual_protocol_alerts t0 (world_of [future_flow] [] [] []) eq_refl)
    as (flows & new & E & F & _ & Char).
  exists flows, new. split; [exact E|]. split.
  - eapply Forall2_impl; [|exact F]. intros f a Hfa. apply Hfa.
  - apply Char. vm_compute. repeat split; try discriminate. left. reflexivity.
Defined.

(** One run of the detector, when no call fails. *)
Lemma check_flow_alerts_emits now w :
  faults w = [] ->
  exists w',
    check_flow_alerts now w = (Ok tt, w')
    /\ faults w' = []
    /\ network_flows w' = network_flows w
    /\ flow_statistics w' = flow_statistics w
    /\ flow_alerts w' = flow_alerts w ++ emitted_alerts now (network_flows w).
Proof.
  intro H. unfold check_flow_alerts, try_except, bind.
  assert (Start : logger_info "Checking for flow alerts" w
                  = (Ok tt, with_log (log w ++ [(INFO, "Checking for flow alerts")]) w))
    by reflexivity.
  rewrite Start, check_bandwidth_spikes_no_faults by exact H.
  cbn [network_flows with_log].
  destruct (existsb _ (network_flows w));
    (rewrite check_unusual_protocols_emits by exact H;
     rewrite check_port_scans_emits by exact H;
     rewrite check_ddos_patterns_no_faults by exact H;
     eexists; split; [reflexivity|];
     cbn; repeat split; [exact H|];
     unfold emitted_alerts; rewrite <- !app_assoc; reflexivity).
Qed.

(** X3. The detector does not de-duplicate: run twice for the same
    [now] over the same flows, with no call failing, each run adds its
    alerts after those that are there, and the second run adds the alerts
    of the first once more. *)
Theorem alerts_repeat_across_runs (now : Z) (w : World) :
  faults w = [] ->
  let w1 := after (check_flow_alerts now) w in
  let w2 := after (check_flow_alerts now) w1 in
  exists first second,
    flow_alerts w1 = flow_alerts w ++ first
    /\ flow_alerts w2 = flow_alerts w ++ first ++ second
    /\ Permutation first second.
Proof.
  intros H w1 w2.
  destruct (check_flow_alerts_emits now w H) as (v1 & E1 & H1 & F1 & _ & A1).
  destruct (check_flow_alerts_emits now v1 H1) as (v2 & E2 & _ & _ & _ & A2).
  assert (W1 : w1 = v1) by (unfold w1, after; rewrite E1; reflexivity).
  assert (W2 : w2 = v2) by (unfold w2, after; rewrite W1, E2; reflexivity).
  exists (emitted_alerts now (network_flows w)), (emitted_alerts now (network_flows w)).
  split; [rewrite W1; exact A1|]. split; [|apply Permutation_refl].
  rewrite W2, A2, A1, F1, <- app_assoc. reflexivity.
Qed.

(** The twelve ports probed at one instant are reported by each of two
    runs. *)
Lemma alerts_repeat_across_runs_witness :
  map FlowAlert.title
    (flow_alerts (after (check_flow_alerts t0) (after (check_flow_alerts t0) scan_world)))
  = ["Potential port scan from 10.0.0.7"; "Potential port scan from 10.0.0.7"].
Proof.
  destruct (alerts_repeat_across_runs t0 scan_world eq_refl)
    as (first & second & A1 & A2 & P).
  assert (F : first = flow_alerts (after (check_flow_alerts t0) scan_world))
    by exact (eq_sym A1).
  vm_compute in F. subst first.
  apply Permutation_length_1_inv in P. subst second.
  rewrite A2. reflexivity.
Defined.
(** ** What the detector never does *)

Section OnlyAppends.
Variable now : Z.

Lemma only_appends_keeps {A} (c : M A) : keeps flow_alerts c -> only_appends now c.
Proof.
  intros K w. exists []. rewrite K, app_nil_r. split; [reflexivity | constructor].
Qed.

Lemma only_appends_bind {A B} (c : M A) (k : A -> M B) :
  only_appends now c -> (forall a, only_appends now (k a)) ->
  only_appends now (bind c k).
Proof.
  intros Hc Hk w. rewrite after_bind. destruct (Hc w) as (n1 & E1 & F1).
  destruct (outcome c w) as [a | e]; [|exists n1; split; assumption].
  destruct (Hk a (after c w)) as (n2 & E2 & F2).
  exists (n1 ++ n2). rewrite E2, E1, <- app_assoc. split; [reflexivity|].
  apply Forall_app. split; assumption.
Qed.

Lemma only_appends_try_except {A} (body : M A) (handler : exn -> M A) :
  only_appends now body -> (forall e, only_appends now (handler e)) ->
  only_appends now (try_except body handler).
Proof.
  intros Hb Hh w. rewrite after_try_except. destruct (Hb w) as (n1 & E1 & F1).
  destruct (outcome body w) as [a | e]; [exists n1; split; assumption|].
  destruct (Hh e (after body w)) as (n2 & E2 & F2).
  exists (n1 ++ n2). rewrite E2, E1, <- app_assoc. split; [reflexivity|].
  apply Forall_app. split; assumption.
Qed.

Lemma only_appends_for_each {A} (l : list A) (body : A -> M unit) :
  (forall x, only_appends now (body x)) -> only_appends now (for_each l body).
Proof.
  intro H. induction l as [|x t IH]; cbn [for_each].
  - apply only_appends_keeps. intro w. reflexivity.
  - apply only_appends_bind; [apply H | intro; exact IH].
Qed.

Lemma only_appends_create ty sev title descr flow th cur :
  only_appends now (FlowAlert_create now ty sev title descr flow th cur).
Proof.
  intro w. unfold after, FlowAlert_create, external.
  destruct (faults w) as [|[|] rest]; simpl.
  - eexists. split; [reflexivity|]. repeat constructor.
  - exists []. rewrite app_nil_r. split; [reflexivity | constructor].
  - eexists. split; [reflexivity|]. repeat constructor.
Qed.
End OnlyAppends.

Ltac only_appends :=
  repeat first
    [ apply only_appends_create
    | apply only_appends_keeps;
      first [ apply (keeps_fetch flow_alerts); intros; reflexivity
            | intro; reflexivity ]
    | apply only_appends_for_each; intro
    | apply only_appends_try_except; [ | intro]
    | apply only_appends_bind; [ | intro]
    | match goal with
      | |- only_appends _ (if ?b then _ else _) => destruct b
      end ].

Lemma check_flow_alerts_only_appends now : only_appends now (check_flow_alerts now).
Proof.
  unfold check_flow_alerts, check_bandwidth_spikes, check_unusual_protocols,
    check_port_scans, check_ddos_patterns, try_bandwidth_spikes,
    try_unusual_protocols, try_port_scans, try_ddos_patterns.
  rewrite !aggregate_bandwidth_mbps. only_appends.
Qed.

Ltac keeps_stats :=
  repeat first
    [ apply (keeps_fetch flow_statistics); intros; reflexivity
    | apply (keeps_raise flow_statistics)
    | apply (keeps_external flow_statistics); intros; reflexivity
    | apply (keeps_ret flow_statistics)
    | apply (keeps_for_each flow_statistics); intro
    | apply (keeps_try_except flow_statistics); [ | intro]
    | apply (keeps_bind flow_statistics); [ | intro]
    | match goal with
      | |- keeps flow_statistics (if ?b then _ else _) => destruct b
      end
    | intro; reflexivity ].

Lemma check_flow_alerts_keeps_statistics now :
  keeps flow_statistics (check_flow_alerts now).
Proof.
  unfold check_flow_alerts, check_bandwidth_spikes, check_unusual_protocols,
    check_port_scans, check_ddos_patterns, try_bandwidth_spikes,
    try_unusual_protocols, try_port_scans, try_ddos_patterns, FlowAlert_create.
  rewrite !aggregate_bandwidth_mbps. keeps_stats.
Qed.

(** X4. Whatever fails, a run of the detector changes no flow and no
    snapshot, removes and alters no alert, and every alert it adds is
    dated [now] and unacknowledged, with no acknowledger and no
    acknowledgement time. *)
Theorem detector_only_adds_fresh_alerts (now : Z) (w : World) :
  let w' := after (check_flow_alerts now) w in
  network_flows w' = network_flows w
  /\ flow_statistics w' = flow_statistics w
  /\ exists new,
      flow_alerts w' = flow_alerts w ++ new
      /\ Forall (fresh_alert now) new.
Proof.
  intro w'. split; [|split].
  - destruct (check_flow_alerts_window now w (network_flows w) eq_refl) as (_ & F).
    exact F.
  - apply check_flow_alerts_keeps_statistics.
  - apply check_flow_alerts_only_appends.
Qed.

(** ** Runs that no failure interrupts *)

Lemma stays_quiet_ret {A} (a : A) : stays_quiet (ret a).
Proof. intros w H. exact H. Qed.

Lemma stays_quiet_bind {A B} (c : M A) (k : A -> M B) :
  stays_quiet c -> (forall a, stays_quiet (k a)) -> stays_quiet (bind c k).
Proof.
  intros Hc Hk w H. rewrite after_bind. specialize (Hc w H).
  destruct (outcome c w); [apply Hk, Hc | exact Hc].
Qed.

Lemma stays_quiet_try_except {A} (body : M A) (handler : exn -> M A) :
  stays_quiet body -> (forall e, stays_quiet (handler e)) ->
  stays_quiet (try_except body handler).
Proof.
  intros Hb Hh w H. rewrite after_try_except. specialize (Hb w H).
  destruct (outcome body w); [exact Hb | apply Hh, Hb].
Qed.

Lemma stays_quiet_for_each {A} (l : list A) (body : A -> M unit) :
  (forall x, stays_quiet (body x)) -> stays_quiet (for_each l body).
Proof.
  intro H. induction l as [|x t IH]; cbn [for_each].
  - apply stays_quiet_ret.
  - apply stays_quiet_bind; [apply H | intro; exact IH].
Qed.

Lemma stays_quiet_external {A} (call : World -> result A * World) :
  (forall w, faults (snd (call w)) = faults w) -> stays_quiet (external call).
Proof.
  intros Hcall w H. unfold after. rewrite external_no_faults by exact H.
  rewrite Hcall. exact H.
Qed.

Ltac stays_quiet :=
  repeat first
    [ apply stays_quiet_ret
    | apply stays_quiet_external; intro;
      repeat match goal with |- context [if ?b then _ else _] => destruct b end;
      reflexivity
    | apply stays_quiet_for_each; intro
    | apply stays_quiet_try_except; [ | intro]
    | apply stays_quiet_bind; [ | intro]
    | match goal with
      | |- stays_quiet (if ?b then _ else _) => destruct b
      | |- stays_quiet (match ?o with Some _ => _ | None => _ end) => destruct o
      end
    | intros ? Hquiet; exact Hquiet ].

Lemma cleanup_old_flows_stays_quiet setting now :
  stays_quiet (cleanup_old_flows setting now).
Proof.
  unfold cleanup_old_flows, qs_count, fetch, delete_flows. stays_quiet.
Qed.

(** ** Retention *)

Lemma old_ids_spec (old : NetworkFlow.t -> bool) (table : list NetworkFlow.t)
      (f : NetworkFlow.t) :
  NoDup (map NetworkFlow.id table) -> In f table ->
  mem_z (NetworkFlow.id f) (map NetworkFlow.id (filter old table)) = old f.
Proof.
  intros U Hf. destruct (old f) eqn:O.
  - apply mem_z_In, in_map, filter_In. split; assumption.
  - destruct (mem_z _ _) eqn:M; [|reflexivity].
    apply mem_z_In, in_map_iff in M. destruct M as (g & E & Hg).
    apply filter_In in Hg. destruct Hg as (Hg & Og).
    rewrite (same_id_same_row table g f U Hg Hf E) in Og. congruence.
Qed.

Lemma refers_to_spec (ids : list Z) (a : FlowAlert.t) :
  refers_to ids a = true <-> exists i, FlowAlert.flow a = Some i /\ In i ids.
Proof.
  unfold refers_to. destruct (FlowAlert.flow a) as [i|].
  - rewrite mem_z_In. split.
    + intro H. exists i. split; [reflexivity | exact H].
    + intros (j & E & H). injection E as E. subst j. exact H.
  - split; [discriminate | intros (i & E & _); discriminate].
Qed.

(** One sweep, no call failing: it ends normally, and what stays of the
    flows and the snapshots is what is not older than the retention. *)
Lemma cleanup_old_flows_keeps_young (setting : option Z) (now : Z) (w : World) :
  faults w = [] ->
  NoDup (map NetworkFlow.id (network_flows w)) ->
  let cutoff := retention_cutoff setting now in
  let w' := after (cleanup_old_flows setting now) w in
  outcome (cleanup_old_flows setting now) w = Ok tt
  /\ network_flows w'
     = filter (fun f => cutoff <=? NetworkFlow.timestamp f) (network_flows w)
  /\ flow_statistics w'
     = filter (fun s => cutoff <=? FlowStatistics.timestamp s) (flow_statistics w).
Proof.
  intros H U cutoff w'.
  destruct (cleanup_old_flows_no_faults setting now w H) as (v & E & F & S & _).
  assert (W : w' = v) by (unfold w', after; rewrite E; reflexivity).
  fold (retention_cutoff setting now) in F, S. fold cutoff in F, S.
  split; [unfold outcome; rewrite E; reflexivity|]. split.
  - rewrite W, F. apply filter_ext_in. intros f Hf.
    rewrite (old_ids_spec (fun f => NetworkFlow.timestamp f <? cutoff)) by assumption.
    rewrite Z.leb_antisym. reflexivity.
  - rewrite W, S. apply filter_ext. intro s. rewrite Z.leb_antisym. reflexivity.
Qed.

(** X5. One sweep, no call failing, over a table with distinct primary
    keys: what stays is exactly the flows and the snapshots that are not
    older than the retention, in their order; a row dated exactly
    [now - retention] stays, an older one goes.  An unset retention is
    30 days. *)
Theorem sweep_retention_boundary (setting : option Z) (now : Z) (w : World) :
  faults w = [] ->
  NoDup (map NetworkFlow.id (network_flows w)) ->
  let cutoff := retention_cutoff setting now in
  let w' := after (cleanup_old_flows setting now) w in
  outcome (cleanup_old_flows setting now) w = Ok tt
  /\ network_flows w'
     = filter (fun f => cutoff <=? NetworkFlow.timestamp f) (network_flows w)
  /\ flow_statistics w'
     = filter (fun s => cutoff <=? FlowStatistics.timestamp s) (flow_statistics w)
  /\ (forall f, In f (network_flows w') <->
                In f (network_flows w) /\ cutoff <= NetworkFlow.timestamp f)
  /\ retention_cutoff None now = now - days 30.
Proof.
  intros H U cutoff w'.
  destruct (cleanup_old_flows_keeps_young setting now w H U) as (O & Flows & Stats).
  fold cutoff in Flows, Stats. fold w' in Flows, Stats.
  split; [exact O|]. split; [exact Flows|]. split; [exact Stats|].
  split; [|reflexivity].
  intro f. rewrite Flows, filter_In, Z.leb_le. tauto.
Qed.

Lemma sweep_retention_boundary_witness :
  map NetworkFlow.id
      (network_flows (after (cleanup_old_flows None day_100) retention_world)) = [1]
  /\ map FlowStatistics.timestamp
         (flow_statistics (after (cleanup_old_flows None day_100) retention_world))
     = [days 70].
Proof.
  destruct (sweep_retention_boundary None day_100 retention_world eq_refl)
    as (_ & F & S & _).
  - simpl. repeat constructor; simpl; intuition discriminate.
  - rewrite F, S. split; reflexivity.
Defined.

(** X6. One sweep, no call failing, over a table with distinct primary
    keys: an alert stays exactly when it is not older than 90 days and
    does not refer to a flow that the sweep deletes. *)
Theorem sweep_alert_retention (setting : option Z) (now : Z) (w : World) :
  faults w = [] ->
  NoDup (map NetworkFlow.id (network_flows w)) ->
  let cutoff := retention_cutoff setting now in
  let w' := after (cleanup_old_flows setting now) w in
  forall a,
    In a (flow_alerts w')
    <-> In a (flow_alerts w)
        /\ now - days 90 <= FlowAlert.timestamp a
        /\ ~ refers_to_old_flow cutoff (network_flows w) a.
Proof.
  intros H U cutoff w' a.
  destruct (cleanup_old_flows_no_faults setting now w H) as (v & E & _ & _ & A).
  assert (W : w' = v) by (unfold w', after; rewrite E; reflexivity).
  fold (retention_cutoff setting now) in A. fold cutoff in A.
  rewrite W, A, !filter_In, !negb_true_iff, Z.ltb_ge.
  assert (R : refers_to
                (map NetworkFlow.id
                     (filter (fun f => NetworkFlow.timestamp f <? cutoff)
                             (network_flows w))) a = false
              <-> ~ refers_to_old_flow cutoff (network_flows w) a).
  { rewrite <- not_true_iff_false, refers_to_spec. unfold refers_to_old_flow.
    split; intros N X; apply N.
    - destruct X as (f & Hf & Ef & Old). exists (NetworkFlow.id f).
      split; [exact Ef|]. apply in_map, filter_In. split; [exact Hf|].
      apply Z.ltb_lt, Old.
    - destruct X as (i & Ei & Hi). apply in_map_iff in Hi.
      destruct Hi as (f & Ef & Hf). apply filter_In in Hf. destruct Hf as (Hf & Old).
      exists f. subst i. split; [exact Hf|]. split; [exact Ei|]. apply Z.ltb_lt, Old. }
  rewrite R. tauto.
Qed.

Lemma sweep_alert_retention_witness :
  In (alert_about None)
     (flow_alerts (after (cleanup_old_flows None day_100) retention_world))
  /\ ~ In alert_of_day_69
          (flow_alerts (after (cleanup_old_flows None day_100) day_100_world)).
Proof.
  split.
  - apply (sweep_alert_retention None day_100 retention_world eq_refl).
    + simpl. repeat constructor; simpl; intuition discriminate.
    + split; [left; reflexivity|]. split; [vm_compute; discriminate|].
      intros (f & _ & E & _). discriminate E.
  - intro Hin.
    apply (sweep_alert_retention None day_100 day_100_world eq_refl) in Hin.
    + destruct Hin as (_ & _ & N). apply N.
      exists (sample_flow 1 (days 69) "10.0.0.1" "10.0.1.1" 80 47 0).
      split; [left; reflexivity|]. split; reflexivity.
    + simpl. repeat constructor. intros [].
Defined.

Lemma filter_filter_same {A} (p : A -> bool) (l : list A) :
  filter p (filter p l) = filter p l.
Proof.
  induction l as [|x t IH]; simpl; [reflexivity|].
  destruct (p x) eqn:E; simpl; [rewrite E, IH; reflexivity | exact IH].
Qed.

(** X7. Sweeping is idempotent: a second sweep for the same [now], no
    call failing, deletes nothing. *)
Theorem sweep_idempotent (setting : option Z) (now : Z) (w : World) :
  faults w = [] ->
  NoDup (map NetworkFlow.id (network_flows w)) ->
  let w1 := after (cleanup_old_flows setting now) w in
  let w2 := after (cleanup_old_flows setting now) w1 in
  outcome (cleanup_old_flows setting now) w1 = Ok tt
  /\ network_flows w2 = network_flows w1
  /\ flow_statistics w2 = flow_statistics w1
  /\ flow_alerts w2 = flow_alerts w1.
Proof.
  intros H U w1 w2.
  assert (H1 : faults w1 = []) by (apply cleanup_old_flows_stays_quiet, H).
  destruct (cleanup_old_flows_keeps_young setting now w H U) as (_ & F1 & S1).
  fold w1 in F1, S1.
  assert (U1 : NoDup (map NetworkFlow.id (network_flows w1)))
    by (rewrite F1; apply NoDup_map_filter, U).
  destruct (cleanup_old_flows_keeps_young setting now w1 H1 U1) as (O2 & F2 & S2).
  fold w2 in F2, S2.
  split; [exact O2|].
  split; [rewrite F2, F1; apply filter_filter_same|].
  split; [rewrite S2, S1; apply filter_filter_same|].
  destruct (cleanup_old_flows_no_faults setting now w H) as (v1 & E1 & _ & _ & A1).
  destruct (cleanup_old_flows_no_faults setting now w1 H1) as (v2 & E2 & _ & _ & A2).
  assert (W1 : w1 = v1) by (unfold w1, after; rewrite E1; reflexivity).
  assert (W2 : w2 = v2) by (unfold w2, after; rewrite E2; reflexivity).
  rewrite W2, A2.
  fold (retention_cutoff setting now) in *.
  assert (None_old : filter (fun f => NetworkFlow.timestamp f <? retention_cutoff setting now)
                            (network_flows w1) = []).
  { rewrite F1. clear. induction (network_flows w) as [|f t IH]; simpl; [reflexivity|].
    destruct (retention_cutoff setting now <=? NetworkFlow.timestamp f) eqn:E; simpl.
    - rewrite Z.leb_antisym in E. apply negb_true_iff in E. rewrite E. exact IH.
    - exact IH. }
  rewrite None_old. simpl.
  rewrite (filter_keep_all (fun a => negb (refers_to [] a)))
    by (intro a; rewrite refers_to_nothing; reflexivity).
  rewrite W1, A1. apply filter_filter_same.
Qed.

Lemma sweep_idempotent_witness :
  let w1 := after (cleanup_old_flows None day_100) retention_world in
  network_flows (after (cleanup_old_flows None day_100) w1) = network_flows w1.
Proof.
  assert (U : NoDup (map NetworkFlow.id (network_flows retention_world))).
  { simpl. repeat constructor; simpl; intuition discriminate. }
  destruct (sweep_idempotent None day_100 retention_world eq_refl U)
    as (_ & Same & _).
  exact Same.
Defined.

(** ** Steps that respect a relation between worlds *)

Section Respects.
Variable R : World -> World -> Prop.
Hypothesis R_refl : forall w, R w w.
Hypothesis R_trans : forall w1 w2 w3, R w1 w2 -> R w2 w3 -> R w1 w3.

Lemma respects_ret {A} (a : A) : respects R (ret a).
Proof. intro w. apply R_refl. Qed.

Lemma respects_raise {A} (e : exn) : respects R (@raise A e).
Proof. intro w. apply R_refl. Qed.

Lemma respects_bind {A B} (c : M A) (k : A -> M B) :
  respects R c -> (forall a, respects R (k a)) -> respects R (bind c k).
Proof.
  intros Hc Hk w. rewrite after_bind. specialize (Hc w).
  destruct (outcome c w) as [a | e]; [|exact Hc].
  eapply R_trans; [exact Hc | apply Hk].
Qed.

Lemma respects_try_except {A} (body : M A) (handler : exn -> M A) :
  respects R body -> (forall e, respects R (handler e)) ->
  respects R (try_except body handler).
Proof.
  intros Hb Hh w. rewrite after_try_except. specialize (Hb w).
  destruct (outcome body w) as [a | e]; [exact Hb|].
  eapply R_trans; [exact Hb | apply Hh].
Qed.

Lemma respects_for_each {A} (l : list A) (body : A -> M unit) :
  (forall x, respects R (body x)) -> respects R (for_each l body).
Proof.
  intro H. induction l as [|x t IH]; cbn [for_each].
  - apply respects_ret.
  - apply respects_bind; [apply H | intro; exact IH].
Qed.

Lemma respects_external {A} (call : World -> result A * World) :
  (forall r w, R w (with_faults r w)) ->
  (forall w, R w (snd (call w))) ->
  respects R (external call).
Proof.
  intros Hf Hcall w. unfold after, external.
  destruct (faults w) as [|[|] rest]; simpl.
  - apply Hcall.
  - apply Hf.
  - eapply R_trans; [apply Hf | apply Hcall].
Qed.
End Respects.

(** ** The sweeper, whatever fails *)

Lemma filter_filter {A} (p q : A -> bool) (l : list A) :
  filter q (filter p l) = filter (fun x => p x && q x) l.
Proof.
  induction l as [|x t IH]; simpl; [reflexivity|].
  destruct (p x); simpl; [destruct (q x); rewrite IH; reflexivity | exact IH].
Qed.

Lemma sweeps_same cutoff alert_cutoff (w w' : World) :
  network_flows w' = network_flows w ->
  flow_statistics w' = flow_statistics w ->
  flow_alerts w' = flow_alerts w ->
  sweeps cutoff alert_cutoff w w'.
Proof.
  intros F S A U. rewrite F, S, A. split; [exact U|].
  repeat split; exists (fun _ => true);
    (split; [symmetry; apply filter_keep_all; reflexivity | reflexivity]).
Qed.

Lemma sweeps_refl cutoff alert_cutoff (w : World) : sweeps cutoff alert_cutoff w w.
Proof. apply sweeps_same; reflexivity. Qed.

Lemma refers_to_old_flow_sub cutoff (table : list NetworkFlow.t) keep a :
  refers_to_old_flow cutoff (filter keep table) a ->
  refers_to_old_flow cutoff table a.
Proof.
  intros (f & Hf & E & Old). exists f. apply filter_In in Hf. tauto.
Qed.

Lemma sweeps_trans cutoff alert_cutoff (w1 w2 w3 : World) :
  sweeps cutoff alert_cutoff w1 w2 -> sweeps cutoff alert_cutoff w2 w3 ->
  sweeps cutoff alert_cutoff w1 w3.
Proof.
  intros H12 H23 U1.
  destruct (H12 U1) as (U2 & (kf1 & F1 & Kf1) & (ks1 & S1 & Ks1) & (ka1 & A1 & Ka1)).
  destruct (H23 U2) as (U3 & (kf2 & F2 & Kf2) & (ks2 & S2 & Ks2) & (ka2 & A2 & Ka2)).
  split; [exact U3|]. split; [|split].
  - exists (fun f => kf1 f && kf2 f). split.
    + rewrite F2, F1. apply filter_filter.
    + intros f Hf Y. rewrite (Kf1 f Hf Y). simpl. apply Kf2; [|exact Y].
      rewrite F1. apply filter_In. split; [exact Hf | apply Kf1; assumption].
  - exists (fun s => ks1 s && ks2 s). split.
    + rewrite S2, S1. apply filter_filter.
    + intros s Y. rewrite (Ks1 s Y), (Ks2 s Y). reflexivity.
  - exists (fun a => ka1 a && ka2 a). split.
    + rewrite A2, A1. apply filter_filter.
    + intros a Y N. rewrite (Ka1 a Y N). simpl. apply Ka2; [exact Y|].
      intro X. apply N. rewrite F1 in X. eapply refers_to_old_flow_sub, X.
Qed.

Lemma delete_old_flows_sweeps cutoff alert_cutoff :
  respects (sweeps cutoff alert_cutoff)
           (delete_flows (objects_filter
                            (fun f => NetworkFlow.timestamp f <? cutoff))).
Proof.
  apply respects_external.
  - apply sweeps_trans.
  - intros r w. apply sweeps_same; reflexivity.
  - intros w U. unfold objects_filter. simpl.
    set (ids := map NetworkFlow.id
                    (filter (fun f => NetworkFlow.timestamp f <? cutoff)
                            (network_flows w))).
    split; [apply NoDup_map_filter, U|]. split; [|split].
    + eexists. split; [reflexivity|]. intros f Hf Y. unfold ids.
      rewrite (old_ids_spec (fun f => NetworkFlow.timestamp f <? cutoff)) by assumption.
      apply negb_true_iff, Z.ltb_ge, Y.
    + exists (fun _ => true). split; [|reflexivity].
      symmetry. apply filter_keep_all. reflexivity.
    + eexists. split; [reflexivity|]. intros a _ N.
      apply negb_true_iff, not_true_iff_false. intro X. apply N.
      apply refers_to_spec in X. destruct X as (i & Ei & Hi).
      apply in_map_iff in Hi. destruct Hi as (f & Ef & Hf).
      apply filter_In in Hf. destruct Hf as (Hf & Old).
      exists f. subst i. split; [exact Hf|]. split; [exact Ei | apply Z.ltb_lt, Old].
Qed.

Lemma cleanup_old_flows_sweeps setting now :
  respects (sweeps (retention_cutoff setting now) (now - days 90))
           (cleanup_old_flows setting now).
Proof.
  set (R := sweeps (retention_cutoff setting now) (now - days 90)).
  assert (Rr : forall w, R w w) by apply sweeps_refl.
  assert (Rt : forall w1 w2 w3, R w1 w2 -> R w2 w3 -> R w1 w3) by apply sweeps_trans.
  assert (Rf : forall r w, R w (with_faults r w))
    by (intros; apply sweeps_same; reflexivity).
  assert (Log : forall msg, respects R (logger_info msg))
    by (intros msg w; apply sweeps_same; reflexivity).
  assert (Err : forall msg, respects R (logger_error msg))
    by (intros msg w; apply sweeps_same; reflexivity).
  assert (Read : forall A (f : World -> A),
             respects R (external (fun w => (Ok (f w), w))))
    by (intros A f; apply (respects_external R Rt); [exact Rf | intro; apply Rr]).
  unfold cleanup_old_flows. fold (retention_cutoff setting now).
  apply (respects_try_except R Rt);
    [|intro e; apply (respects_bind R Rt);
      [apply Err | intro; apply (respects_raise R Rr)]].
  apply (respects_bind R Rt); [apply (Read _ _) | intro count].
  apply (respects_bind R Rt).
  { destruct (0 <? count); [|apply (respects_ret R Rr)].
    apply (respects_bind R Rt); [apply delete_old_flows_sweeps | intro; apply Log]. }
  intros _. apply (respects_bind R Rt); [apply (Read _ _) | intro stats_count].
  apply (respects_bind R Rt).
  { destruct (0 <? stats_count); [|apply (respects_ret R Rr)].
    apply (respects_bind R Rt); [|intro; apply Log].
    apply (respects_external R Rt); [exact Rf|].
    intros w U. simpl. split; [exact U|]. split; [|split].
    - exists (fun _ => true). split; [|reflexivity].
      symmetry. apply filter_keep_all. reflexivity.
    - eexists. split; [reflexivity|]. intros s Y.
      apply negb_true_iff, Z.ltb_ge, Y.
    - exists (fun _ => true). split; [|reflexivity].
      symmetry. apply filter_keep_all. reflexivity. }
  intros _. apply (respects_bind R Rt); [apply (Read _ _) | intro alert_count].
  destruct (0 <? alert_count); [|apply (respects_ret R Rr)].
  apply (respects_bind R Rt); [|intro; apply Log].
  apply (respects_external R Rt); [exact Rf|].
  intros w U. simpl. split; [exact U|]. split; [|split].
  - exists (fun _ => true). split; [|reflexivity].
    symmetry. apply filter_keep_all. reflexivity.
  - exists (fun _ => true). split; [|reflexivity].
    symmetry. apply filter_keep_all. reflexivity.
  - eexists. split; [reflexivity|]. intros a Y _.
    apply negb_true_iff, Z.ltb_ge, Y.
Qed.

(** X8. Whatever fails during a sweep, over a table with distinct
    primary keys: no row is added or altered; no flow and no snapshot
    that is not older than the retention is deleted; and no alert that is
    not older than 90 days is deleted unless it refers to a flow older
    than the retention. *)
Theorem sweep_never_deletes_young_rows (setting : option Z) (now : Z) (w : World) :
  NoDup (map NetworkFlow.id (network_flows w)) ->
  let cutoff := retention_cutoff setting now in
  let w' := after (cleanup_old_flows setting now) w in
  (forall f, In f (network_flows w') -> In f (network_flows w))
  /\ (forall s, In s (flow_statistics w') -> In s (flow_statistics w))
  /\ (forall a, In a (flow_alerts w') -> In a (flow_alerts w))
  /\ (forall f, In f (network_flows w) -> cutoff <= NetworkFlow.timestamp f ->
                In f (network_flows w'))
  /\ (forall s, In s (flow_statistics w) -> cutoff <= FlowStatistics.timestamp s ->
                In s (flow_statistics w'))
  /\ (forall a, In a (flow_alerts w) -> now - days 90 <= FlowAlert.timestamp a ->
                ~ refers_to_old_flow cutoff (network_flows w) a ->
                In a (flow_alerts w')).
Proof.
  intros U cutoff w'.
  destruct (cleanup_old_flows_sweeps setting now w U)
    as (_ & (kf & F & Kf) & (ks & S & Ks) & (ka & A & Ka)).
  fold w' in F, S, A. fold cutoff in Kf, Ks, Ka.
  repeat split.
  - intros f Hf. rewrite F in Hf. apply filter_In in Hf. tauto.
  - intros s Hs. rewrite S in Hs. apply filter_In in Hs. tauto.
  - intros a Ha. rewrite A in Ha. apply filter_In in Ha. tauto.
  - intros f Hf Y. rewrite F. apply filter_In. auto.
  - intros s Hs Y. rewrite S. apply filter_In. auto.
  - intros a Ha Y N. rewrite A. apply filter_In. auto.
Qed.

Lemma sweep_never_deletes_young_rows_witness :
  outcome (cleanup_old_flows None day_100) interrupted_world = Raise OperationalError
  /\ In (sample_flow 2 (days 70) "10.0.0.2" "10.0.1.1" 80 6 0)
        (network_flows (after (cleanup_old_flows None day_100) interrupted_world)).
Proof.
  split; [vm_compute; reflexivity|].
  assert (U : NoDup (map NetworkFlow.id (network_flows interrupted_world))).
  { simpl. repeat constructor; simpl; intuition discriminate. }
  destruct (sweep_never_deletes_young_rows None day_100 interrupted_world U)
    as (_ & _ & _ & Young & _).
  apply Young.
  - right. left. reflexivity.
  - vm_compute. discriminate.
Defined.

(** ** Sorting by a number, greatest first *)

Section SortDescending.
Context {A : Type} (weight : A -> Z).

Lemma insert_by_sorted (x : A) (l : list A) :
  StronglySorted (heavier_first weight) l ->
  StronglySorted (heavier_first weight) (insert_by (fun a b => weight b <=? weight a) x l).
Proof.
  induction l as [|y t IH]; simpl; intro S.
  - constructor; constructor.
  - inversion S as [|? ? St Ft]; subst.
    destruct (weight y <=? weight x) eqn:E.
    + apply Z.leb_le in E. constructor; [exact S|].
      constructor; [exact E|].
      eapply Forall_impl; [|exact Ft]. unfold heavier_first. intros b Hb. lia.
    + apply Z.leb_gt in E. constructor; [apply IH, St|].
      apply Forall_forall. intros b Hb.
      apply (Permutation_in _ (insert_by_permutation _ x t)) in Hb.
      destruct Hb as [Eb | Hb].
      * subst b. unfold heavier_first. lia.
      * rewrite Forall_forall in Ft. apply Ft, Hb.
Qed.

Lemma sort_by_sorted (l : list A) :
  StronglySorted (heavier_first weight) (sort_by (fun a b => weight b <=? weight a) l).
Proof.
  induction l as [|x t IH]; simpl; [constructor | apply insert_by_sorted, IH].
Qed.

Lemma sorted_prefix (n : nat) (l : list A) :
  StronglySorted (heavier_first weight) l ->
  StronglySorted (heavier_first weight) (firstn n l)
  /\ forall x y, In x (firstn n l) -> In y (skipn n l) -> weight y <= weight x.
Proof.
  revert n. induction l as [|a t IH]; intros n S.
  - rewrite firstn_nil, skipn_nil. split; [constructor | intros x y []].
  - inversion S as [|? ? St Ft]; subst. destruct n as [|n]; simpl.
    + split; [constructor | intros x y []].
    + destruct (IH n St) as (Sp & Cross). split.
      * constructor; [exact Sp|]. rewrite Forall_forall in *.
        intros b Hb. apply Ft. rewrite <- (firstn_skipn n t).
        apply in_or_app. left. exact Hb.
      * intros x y [Ex | Hx] Hy.
        -- subst x. rewrite Forall_forall in Ft. apply Ft.
           rewrite <- (firstn_skipn n t). apply in_or_app. right. exact Hy.
        -- apply Cross; assumption.
Qed.
End SortDescending.

(** The newest rows come first in the model's ordering. *)
Lemma ordering_sorted (rows : list NetworkFlow.t) :
  StronglySorted (heavier_first NetworkFlow.timestamp) (ordering rows).
Proof. apply sort_by_sorted. Qed.

(** ** Buckets over time *)

Lemma truncations_nest (t : Z) :
  TruncHour (TruncMinute t) = TruncHour t /\ TruncDay (TruncMinute t) = TruncDay t.
Proof.
  unfold TruncHour, TruncDay, TruncMinute, hours, days, minutes,
    microseconds_per_minute.
  split; Z.div_mod_to_equations; lia.
Qed.

Lemma same_minute_same_buckets (a b : Z) :
  TruncMinute a = TruncMinute b ->
  forall name trunc delta, In (name, trunc, delta) periods -> trunc a = trunc b.
Proof.
  intros E name trunc delta Hin.
  destruct (truncations_nest a) as (Ha & Da).
  destruct (truncations_nest b) as (Hb & Db).
  unfold periods in Hin. simpl in Hin.
  destruct Hin as [P | [P | [P | [P | [P | []]]]]];
    injection P as _ P _; subst trunc; congruence.
Qed.

(** X13. Two runs of the aggregator within the same minute, no call
    failing: they look at the same bucket of every period, the second
    ends as the first did, and it adds no snapshot. *)
Theorem same_minute_runs_agree (now1 now2 : Z) (w : World) :
  faults w = [] ->
  TruncMinute now1 = TruncMinute now2 ->
  let w1 := after (aggregate_flow_statistics now1) w in
  let w2 := after (aggregate_flow_statistics now2) w1 in
  Forall (fun p => bucket_start now1 p = bucket_start now2 p) periods
  /\ outcome (aggregate_flow_statistics now2) w1
     = outcome (aggregate_flow_statistics now1) w
  /\ flow_statistics w2 = flow_statistics w1.
Proof.
  intros H Same w1 w2.
  assert (Buckets : forall p, In p periods -> bucket_start now1 p = bucket_start now2 p).
  { intros [[name trunc] delta] Hin.
    exact (same_minute_same_buckets _ _ Same name trunc delta Hin). }
  split; [apply Forall_forall, Buckets|].
  split; [|apply (aggregate_flow_statistics_writes_nothing now2 w1)].
  destruct (aggregate_flow_statistics_writes_nothing now1 w) as (S1 & F1 & _).
  fold w1 in S1, F1.
  assert (Every : forallb (is_settled now2 w1) periods
                  = forallb (is_settled now1 w) periods).
  { assert (Ext : forall l, (forall p, In p l -> In p periods) ->
                            forallb (is_settled now2 w1) l
                            = forallb (is_settled now1 w) l).
    { induction l as [|p t IH]; intro Sub; [reflexivity|].
      cbn [forallb]. rewrite IH by (intros q Hq; apply Sub; right; exact Hq).
      f_equal. rewrite (is_settled_same now2 w w1 p F1 S1).
      destruct p as [[name trunc] delta]. unfold is_settled.
      rewrite (same_minute_same_buckets _ _ Same name trunc delta
                 (Sub _ (or_introl eq_refl))).
      reflexivity. }
    apply Ext. intros p Hp. exact Hp. }
  pose proof (aggregate_flow_statistics_no_faults now1 w H) as Run1.
  cbv zeta in Run1.
  assert (H1 : faults w1 = []).
  { destruct (forallb (is_settled now1 w) periods).
    - exact (proj2 Run1).
    - unfold w1, after. rewrite Run1. exact H. }
  pose proof (aggregate_flow_statistics_no_faults now2 w1 H1) as Run2.
  cbv zeta in Run2. rewrite Every in Run2.
  destruct (forallb (is_settled now1 w) periods).
  - rewrite (proj1 Run1). exact (proj1 Run2).
  - unfold outcome. rewrite Run1, Run2. reflexivity.
Qed.

(** Two runs in the minute of [t0], half a minute apart, over the stored
    snapshot of that minute: both end normally. *)
Lemma same_minute_runs_agree_witness :
  let w1 := after (aggregate_flow_statistics t0) settled_world in
  outcome (aggregate_flow_statistics (t0 + 30000000)) w1 = Ok tt
  /\ flow_statistics (after (aggregate_flow_statistics (t0 + 30000000)) w1)
     = flow_statistics w1.
Proof.
  destruct (same_minute_runs_agree t0 (t0 + 30000000) settled_world eq_refl eq_refl)
    as (_ & O & S).
  split; [|exact S].
  rewrite O. reflexivity.
Defined.

(** X14. Which runs count a flow.  A flow is in the bucket of the 1m,
    1h and 1d period of a run exactly when the run falls in the minute,
    hour or day after the flow's own: one bucket per flow.  The 5m and
    15m periods start a bucket every minute: a flow is in the bucket of
    every run that falls in one of the 5, or 15, minutes after its own. *)
Theorem buckets_that_count_a_flow :
  Forall2 (fun (p : string * (Z -> Z) * Z) (unit : Z) =>
             let '(name, trunc, delta) := p in
             forall now f,
               In f (bucket_flows (trunc now) delta [f])
               <-> trunc (NetworkFlow.timestamp f) + unit <= trunc now
                   /\ trunc now <= trunc (NetworkFlow.timestamp f) + delta)
          periods [minutes 1; minutes 1; minutes 1; hours 1; days 1]
  /\ Forall (fun (p : string * (Z -> Z) * Z) =>
               let '(name, trunc, delta) := p in
               forall now now' f,
                 In f (bucket_flows (trunc now) delta [f]) ->
                 In f (bucket_flows (trunc now') delta [f]) ->
                 trunc now = trunc now')
            [ ("1m", TruncMinute, minutes 1);
              ("1h", TruncHour, hours 1);
              ("1d", TruncDay, days 1) ].
Proof.
  assert (Mem : forall b d f, In f (bucket_flows b d [f])
                              <-> b - d <= NetworkFlow.timestamp f < b).
  { intros b d f. unfold bucket_flows, objects_filter. simpl.
    fold (in_bucket b d f). destruct (in_bucket b d f) eqn:E.
    - apply in_bucket_spec in E. simpl. tauto.
    - split; [intros [] |]. intro R. apply in_bucket_spec in R. congruence. }
  split.
  - unfold periods.
    repeat (apply Forall2_cons;
            [intros now f; rewrite Mem;
             unfold TruncMinute, TruncHour, TruncDay, minutes, hours, days,
               microseconds_per_minute;
             Z.div_mod_to_equations; lia|]).
    apply Forall2_nil.
  - repeat (apply Forall_cons;
            [intros now now' f; rewrite !Mem;
             unfold TruncMinute, TruncHour, TruncDay, minutes, hours, days,
               microseconds_per_minute;
             Z.div_mod_to_equations; lia|]).
    apply Forall_nil.
Qed.

(** ** The batches of the enrichment stage *)

Lemma same_flow_id_same_row (table : list NetworkFlow.t) (a b : NetworkFlow.t) :
  NoDup (map NetworkFlow.flow_id table) -> In a table -> In b table ->
  NetworkFlow.flow_id a = NetworkFlow.flow_id b -> a = b.
Proof.
  induction table as [|c t IH]; simpl; intros U Ha Hb E; [contradiction|].
  inversion U as [|? ? Hn Hd]; subst.
  destruct Ha as [Ha | Ha], Hb as [Hb | Hb]; subst.
  - reflexivity.
  - exfalso. apply Hn. rewrite E. apply in_map, Hb.
  - exfalso. apply Hn. rewrite <- E. apply in_map, Ha.
  - apply IH; assumption.
Qed.

Lemma with_network_flows_same (w : World) : with_network_flows (network_flows w) w = w.
Proof. destruct w; reflexivity. Qed.

Lemma map_same {A} (h : A -> A) (l : list A) :
  (forall x, In x l -> h x = x) -> map h l = l.
Proof.
  intro H. induction l as [|x t IH]; simpl; [reflexivity|].
  rewrite H by (left; reflexivity). rewrite IH; [reflexivity|].
  intros y Hy. apply H. right. exact Hy.
Qed.

Section Batches.
Variable sha256_hexdigest : string -> string.
Variable isoformat : Z -> string.
Variable now : Z.

Notation enrich_ := (enrich sha256_hexdigest isoformat now).
Notation written_ := (written sha256_hexdigest isoformat).
Notation stored_ := (stored sha256_hexdigest isoformat now).
Notation batch_step_ := (batch_step sha256_hexdigest isoformat now).

Lemma enrich_writes (s : NetworkFlow.t) (w : World) :
  enrich_ s w = Model_save now (written_ s) w.
Proof. reflexivity. Qed.

Lemma Model_save_empty (r : NetworkFlow.t) :
  network_flows (after (Model_save now r) (world_of [] [] [] []))
  = [NetworkFlow.set_updated_at now r].
Proof. reflexivity. Qed.

Lemma stored_enriched (s : NetworkFlow.t) : enriched s (stored_ s).
Proof.
  destruct (enrich_saves sha256_hexdigest isoformat now s) as (row & Hrun & He).
  assert (E : NetworkFlow.set_updated_at now row = stored_ s).
  { assert (R : [NetworkFlow.set_updated_at now row]
                = [NetworkFlow.set_updated_at now (written_ s)]).
    { rewrite <- !Model_save_empty. unfold after.
      rewrite <- Hrun, enrich_writes. reflexivity. }
    apply (f_equal (fun l => hd s l)) in R. exact R. }
  rewrite <- E. exact He.
Qed.

Lemma stored_id (s : NetworkFlow.t) : NetworkFlow.id (stored_ s) = NetworkFlow.id s.
Proof. apply (stored_enriched s). Qed.

Lemma stored_processed (s : NetworkFlow.t) : NetworkFlow.processed (stored_ s) = true.
Proof. apply (stored_enriched s). Qed.

Lemma stored_flow_id (s : NetworkFlow.t) :
  NetworkFlow.flow_id s <> "" -> NetworkFlow.flow_id (stored_ s) = NetworkFlow.flow_id s.
Proof. apply (stored_enriched s). Qed.

(** Saving a row of the table whose keys are those of a stored row. *)
Lemma Model_save_replaces (s : NetworkFlow.t) (w : World) :
  faults w = [] ->
  NoDup (map NetworkFlow.flow_id (network_flows w)) ->
  In s (network_flows w) ->
  NetworkFlow.flow_id s <> "" ->
  Model_save now (written_ s) w
  = (Ok tt,
     with_network_flows
       (map (fun f => if NetworkFlow.id f =? NetworkFlow.id s then stored_ s else f)
            (network_flows w)) w).
Proof.
  intros F U Hs Hf. unfold Model_save. rewrite external_no_faults by exact F.
  cbv zeta. fold (stored_ s). rewrite stored_id.
  destruct (existsb _ (network_flows w)) eqn:X.
  - exfalso. apply existsb_exists in X. destruct X as (f & Hin & C).
    apply andb_true_iff in C. destruct C as (C1 & C2).
    apply String.eqb_eq in C2. rewrite stored_flow_id in C2 by exact Hf.
    rewrite (same_flow_id_same_row _ _ _ U Hin Hs C2), Z.eqb_refl in C1.
    discriminate.
  - assert (Mem : mem_z (NetworkFlow.id s) (map NetworkFlow.id (network_flows w)) = true)
      by (apply mem_z_In, in_map, Hs).
    rewrite Mem. reflexivity.
Qed.

(** The loop over one batch, when no call fails: each row of the batch
    is replaced by its stored form, and nothing else changes. *)
Lemma enrich_batch_no_faults (batch : list NetworkFlow.t) :
  forall w,
    faults w = [] ->
    NoDup (map NetworkFlow.id (network_flows w)) ->
    NoDup (map NetworkFlow.flow_id (network_flows w)) ->
    NoDup (map NetworkFlow.id batch) ->
    (forall s, In s batch -> In s (network_flows w) /\ NetworkFlow.flow_id s <> "") ->
    for_each batch enrich_ w
    = (Ok tt,
       with_network_flows
         (map (fun f => if mem_z (NetworkFlow.id f) (map NetworkFlow.id batch)
                        then stored_ f else f)
              (network_flows w)) w).
Proof.
  induction batch as [|s t IH]; intros w F Ui Uf Ub Hb.
  - simpl. rewrite map_same by reflexivity. rewrite with_network_flows_same. reflexivity.
  - destruct (Hb s (or_introl eq_refl)) as (Hs & Hf).
    inversion Ub as [|? ? Hfresh Ut]; subst.
    cbn [for_each]. rewrite (bind_step _ _ w _ tt (eq_trans (enrich_writes s w)
                                      (Model_save_replaces s w F Uf Hs Hf))).
    set (h1 := fun f => if NetworkFlow.id f =? NetworkFlow.id s then stored_ s else f).
    assert (Same : forall f, In f (network_flows w) ->
                             NetworkFlow.id f <> NetworkFlow.id s -> h1 f = f).
    { intros f _ N. unfold h1. apply Z.eqb_neq in N. rewrite N. reflexivity. }
    assert (Ids : map NetworkFlow.id (map h1 (network_flows w))
                  = map NetworkFlow.id (network_flows w)).
    { rewrite map_map. apply map_ext. intro f. unfold h1.
      destruct (NetworkFlow.id f =? NetworkFlow.id s) eqn:E; [|reflexivity].
      apply Z.eqb_eq in E. rewrite stored_id. symmetry. exact E. }
    assert (Fids : map NetworkFlow.flow_id (map h1 (network_flows w))
                   = map NetworkFlow.flow_id (network_flows w)).
    { rewrite map_map. apply map_ext_in. intros f Hin. unfold h1.
      destruct (NetworkFlow.id f =? NetworkFlow.id s) eqn:E; [|reflexivity].
      apply Z.eqb_eq in E. rewrite (same_id_same_row _ _ _ Ui Hin Hs E).
      apply stored_flow_id, Hf. }
    rewrite IH; cbn [network_flows with_network_flows faults].
    + f_equal. destruct w as [flows stats alerts chan lg fl]. cbn in *.
      unfold with_network_flows. cbn. f_equal.
      rewrite map_map. apply map_ext_in. intros f Hin.
      unfold h1. destruct (NetworkFlow.id f =? NetworkFlow.id s) eqn:E; cbn [orb].
      * apply Z.eqb_eq in E. rewrite (same_id_same_row _ _ _ Ui Hin Hs E).
        rewrite stored_id.
        destruct (mem_z (NetworkFlow.id s) (map NetworkFlow.id t)) eqn:M;
          [|reflexivity].
        exfalso. apply Hfresh, mem_z_In, M.
      * reflexivity.
    + exact F.
    + rewrite Ids. exact Ui.
    + rewrite Fids. exact Uf.
    + exact Ut.
    + intros s' Hs'. destruct (Hb s' (or_intror Hs')) as (Hin & Hne).
      split; [|exact Hne].
      rewrite <- (Same s' Hin).
      * apply in_map, Hin.
      * intro E. apply Hfresh. rewrite <- E. apply in_map, Hs'.
Qed.

Lemma batch_at_spec (table : list NetworkFlow.t) (i : nat) :
  NoDup (map NetworkFlow.id table) ->
  NoDup (map NetworkFlow.id (batch_at i table))
  /\ forall s, In s (batch_at i table) ->
                In s table /\ NetworkFlow.processed s = false.
Proof.
  intro U. pose proof (slice_of_unprocessed table i (i + 100) U) as H.
  replace (i + 100 - i)%nat with 100%nat in H by lia. exact H.
Qed.

Lemma in_batch (table : list NetworkFlow.t) (i : nat) (f : NetworkFlow.t) :
  NoDup (map NetworkFlow.id table) -> In f table ->
  mem_z (NetworkFlow.id f) (map NetworkFlow.id (batch_at i table)) = true ->
  In f (batch_at i table).
Proof.
  intros U Hf M. apply mem_z_In, in_map_iff in M. destruct M as (s & E & Hs).
  destruct (batch_at_spec table i U) as (_ & Hb).
  rewrite <- (same_id_same_row _ _ _ U (proj1 (Hb s Hs)) Hf E). exact Hs.
Qed.

Lemma batch_step_ids (table : list NetworkFlow.t) (i : nat) :
  map NetworkFlow.id (batch_step_ table i) = map NetworkFlow.id table.
Proof.
  unfold batch_step. rewrite map_map. apply map_ext. intro f.
  destruct (mem_z _ _); [apply stored_id | reflexivity].
Qed.

Lemma batch_step_flow_ids (table : list NetworkFlow.t) (i : nat) :
  well_keyed table ->
  map NetworkFlow.flow_id (batch_step_ table i) = map NetworkFlow.flow_id table.
Proof.
  intros (Ui & _ & Hne). unfold batch_step. rewrite map_map.
  apply map_ext_in. intros f Hf.
  destruct (mem_z _ _) eqn:M; [|reflexivity].
  apply stored_flow_id, Hne; [exact Hf|].
  apply (batch_at_spec table i Ui), (in_batch table i f Ui Hf M).
Qed.

Lemma batch_step_well_keyed (table : list NetworkFlow.t) (i : nat) :
  well_keyed table -> well_keyed (batch_step_ table i).
Proof.
  intro K. pose proof K as (Ui & Uf & Hne). split; [|split].
  - rewrite batch_step_ids. exact Ui.
  - rewrite batch_step_flow_ids by exact K. exact Uf.
  - intros g Hg P. unfold batch_step in Hg. apply in_map_iff in Hg.
    destruct Hg as (f & E & Hf). destruct (mem_z _ _); subst g.
    + rewrite stored_processed in P. discriminate.
    + apply Hne; assumption.
Qed.

(** The rows that still await enrichment after a batch: those that
    awaited it before and were not in the batch. *)
Lemma unprocessed_batch_step (table : list NetworkFlow.t) (i : nat) :
  unprocessed (batch_step_ table i)
  = filter (fun f => negb (mem_z (NetworkFlow.id f)
                                 (map NetworkFlow.id (batch_at i table))))
           (unprocessed table).
Proof.
  unfold batch_step. generalize (map NetworkFlow.id (batch_at i table)) as ids.
  intro ids. unfold unprocessed.
  induction table as [|f t IH]; [reflexivity|]. cbn [map filter].
  destruct (mem_z (NetworkFlow.id f) ids) eqn:M.
  - rewrite stored_processed. cbn [negb].
    destruct (negb (NetworkFlow.processed f)); cbn [filter]; [rewrite M; cbn [negb]|];
      exact IH.
  - destruct (negb (NetworkFlow.processed f)); cbn [filter]; [rewrite M; cbn [negb]|];
      rewrite IH; reflexivity.
Qed.

Lemma outside_the_batch (pre batch post : list NetworkFlow.t) (x : NetworkFlow.t) :
  NoDup (map NetworkFlow.id (pre ++ batch ++ post)) ->
  In x (pre ++ post) ->
  ~ In (NetworkFlow.id x) (map NetworkFlow.id batch).
Proof.
  intros U Hx Hb. rewrite !map_app in U.
  apply in_app_or in Hx. destruct Hx as [Hx | Hx].
  - induction pre as [|p pre IH]; [contradiction|].
    cbn [map app] in U. inversion U as [|? ? Hfresh Urest]; subst.
    destruct Hx as [-> | Hx]; [|exact (IH Urest Hx)].
    apply Hfresh, in_or_app. right. apply in_or_app. left. exact Hb.
  - apply NoDup_app_remove_l in U.
    induction batch as [|b batch IH]; [contradiction|].
    cbn [map app] in U. inversion U as [|? ? Hfresh Urest]; subst.
    destruct Hb as [E | Hb]; [|exact (IH Urest Hb)].
    apply Hfresh, in_or_app. right. rewrite E. apply in_map, Hx.
Qed.

Lemma unprocessed_ids (table : list NetworkFlow.t) :
  NoDup (map NetworkFlow.id table) ->
  NoDup (map NetworkFlow.id (ordering (unprocessed table))).
Proof.
  intro U.
  apply (Permutation_NoDup
           (Permutation_map _ (Permutation_sym (ordering_permutation _)))).
  apply NoDup_map_filter, U.
Qed.

(** A row that awaits enrichment and lies before or after the slice of
    the batch awaits it still after the batch. *)
Lemma left_behind (table : list NetworkFlow.t) (i : nat) (x : NetworkFlow.t) :
  NoDup (map NetworkFlow.id table) ->
  In x (firstn i (ordering (unprocessed table))
        ++ skipn 100 (skipn i (ordering (unprocessed table)))) ->
  In x (unprocessed (batch_step_ table i)).
Proof.
  intros U Hx. rewrite unprocessed_batch_step. apply filter_In.
  pose proof (unprocessed_ids table U) as Uo.
  assert (Split : ordering (unprocessed table)
                  = firstn i (ordering (unprocessed table))
                    ++ batch_at i table
                    ++ skipn 100 (skipn i (ordering (unprocessed table)))).
  { unfold batch_at. rewrite firstn_skipn, firstn_skipn. reflexivity. }
  split.
  - apply (Permutation_in _ (ordering_permutation _)). rewrite Split.
    apply in_app_or in Hx. apply in_or_app.
    destruct Hx as [Hx | Hx]; [left; exact Hx | right].
    apply in_or_app. right. exact Hx.
  - rewrite Split in Uo.
    destruct (mem_z _ _) eqn:M; [|reflexivity].
    exfalso. apply (outside_the_batch _ _ _ x Uo Hx), mem_z_In, M.
Qed.

Lemma first_batch_clears (table : list NetworkFlow.t) :
  (List.length (unprocessed table) <= 100)%nat ->
  unprocessed (batch_step_ table 0) = [].
Proof.
  intro L. rewrite unprocessed_batch_step.
  assert (All : batch_at 0 table = ordering (unprocessed table)).
  { unfold batch_at. cbn [skipn]. apply firstn_all2.
    rewrite (Permutation_length (ordering_permutation _)). exact L. }
  rewrite All. apply filter_none.
  destruct (existsb _ (unprocessed table)) eqn:X; [|reflexivity].
  apply existsb_exists in X. destruct X as (f & Hf & C).
  apply negb_true_iff in C.
  assert (M : mem_z (NetworkFlow.id f)
                    (map NetworkFlow.id (ordering (unprocessed table))) = true).
  { apply mem_z_In, in_map,
      (Permutation_in _ (Permutation_sym (ordering_permutation _))), Hf. }
  rewrite M in C. discriminate.
Qed.

Lemma first_batch_leaves (table : list NetworkFlow.t) :
  NoDup (map NetworkFlow.id table) ->
  (100 < List.length (unprocessed table))%nat ->
  unprocessed (batch_step_ table 0) <> [].
Proof.
  intros U L.
  destruct (skipn 100 (skipn 0 (ordering (unprocessed table)))) as [|x post] eqn:P.
  - apply (f_equal (@List.length _)) in P.
    rewrite !length_skipn, (Permutation_length (ordering_permutation _)) in P.
    cbn [List.length] in P. lia.
  - assert (Hx : In x (unprocessed (batch_step_ table 0))).
    { apply left_behind; [exact U|]. rewrite P. cbn [firstn app]. left. reflexivity. }
    intro E. rewrite E in Hx. contradiction.
Qed.

Lemma later_batch_leaves (table : list NetworkFlow.t) (i : nat) :
  NoDup (map NetworkFlow.id table) ->
  (1 <= i)%nat ->
  unprocessed table <> [] ->
  unprocessed (batch_step_ table i) <> [].
Proof.
  intros U Hi Ne.
  destruct (ordering (unprocessed table)) as [|x rest] eqn:O.
  - exfalso. apply Ne.
    pose proof (ordering_permutation (unprocessed table)) as P. rewrite O in P.
    apply Permutation_nil, P.
  - assert (Hx : In x (unprocessed (batch_step_ table i))).
    { apply left_behind; [exact U|]. rewrite O.
      destruct i as [|i]; [lia|]. cbn [firstn app]. left. reflexivity. }
    intro E. rewrite E in Hx. contradiction.
Qed.

Lemma later_batches_leave (offsets : list nat) :
  forall table,
    well_keyed table ->
    Forall (fun i => (1 <= i)%nat) offsets ->
    unprocessed table <> [] ->
    unprocessed (fold_left batch_step_ offsets table) <> [].
Proof.
  induction offsets as [|i rest IH]; intros table K Hi Ne; [exact Ne|].
  inversion Hi as [|? ? H1 Hrest]; subst. cbn [fold_left].
  apply IH; [apply batch_step_well_keyed, K | exact Hrest|].
  apply later_batch_leaves; [apply K | exact H1 | exact Ne].
Qed.

Lemma range_step_small (n : nat) :
  (1 <= n <= 100)%nat -> range_step n 100 = [0%nat].
Proof.
  intro H. unfold range_step.
  replace ((n + 100 - 1) / 100)%nat with 1%nat; [reflexivity|].
  apply (Nat.div_unique _ _ _ (n - 1)); lia.
Qed.

Lemma range_step_large (n : nat) :
  (100 < n)%nat ->
  exists rest, range_step n 100 = 0%nat :: rest
               /\ Forall (fun i => (1 <= i)%nat) rest.
Proof.
  intro H. unfold range_step.
  destruct ((n + 100 - 1) / 100)%nat as [|m] eqn:D.
  - exfalso. apply Nat.div_small_iff in D; lia.
  - cbn [seq map]. eexists. split; [reflexivity|].
    apply Forall_forall. intros i Hi. apply in_map_iff in Hi.
    destruct Hi as (k & <- & Hk). apply in_seq in Hk. lia.
Qed.

(** The loop over the batches, when no call fails. *)
Lemma batches_no_faults (offsets : list nat) :
  forall w,
    faults w = [] ->
    well_keyed (network_flows w) ->
    exists w',
      for_each offsets
        (fun i =>
           batch <- qs_slice (objects_filter (fun f => negb (NetworkFlow.processed f)))
                             i (i + 100) ;;
           for_each batch enrich_ ;;
           logger_info ("Processed batch "
                          ++ str_int (Z.of_nat (i / 100 + 1)))%string) w
      = (Ok tt, w')
      /\ faults w' = []
      /\ network_flows w' = fold_left batch_step_ offsets (network_flows w)
      /\ channel w' = channel w.
Proof.
  induction offsets as [|i rest IH]; intros w F K.
  - exists w. repeat split; assumption.
  - pose proof K as (Ui & Uf & Hne).
    destruct (batch_at_spec (network_flows w) i Ui) as (Ub & Hb).
    set (w1 := with_log
                 (log w ++ [(INFO, ("Processed batch "
                                      ++ str_int (Z.of_nat (i / 100 + 1)))%string)])
                 (with_network_flows (batch_step_ (network_flows w) i) w)).
    destruct (IH w1) as (w' & Run & F' & Flows & Chan).
    + exact F.
    + apply (batch_step_well_keyed (network_flows w) i K).
    + exists w'. split; [|split; [exact F' | split; [exact Flows | exact Chan]]].
      cbn [for_each]. rewrite (bind_step _ _ w w1 tt); [exact Run|].
      unfold qs_slice.
      rewrite (bind_step _ _ w w
                 (batch_at i (network_flows w))).
      * rewrite (bind_step _ _ w
                   (with_network_flows (batch_step_ (network_flows w) i) w) tt).
        -- reflexivity.
        -- apply enrich_batch_no_faults; try assumption.
           intros s Hs. destruct (Hb s Hs) as (Hin & P).
           split; [exact Hin | exact (Hne s Hin P)].
      * rewrite fetch_no_faults by exact F. unfold batch_at, objects_filter, unprocessed.
        replace (i + 100 - i)%nat with 100%nat by lia. reflexivity.
Qed.
End Batches.

(** ** The flow update *)

Lemma send_flow_updates_no_faults now w :
  faults w = [] ->
  send_flow_updates now w
  = (Ok tt,
     with_channel
       (channel w ++ [flow_update (flow_data_of (newest_flows now (network_flows w)))])
       w).
Proof.
  intro F. unfold send_flow_updates. apply try_except_ok.
  rewrite (bind_step _ _ w w (newest_flows now (network_flows w)))
    by (unfold qs_slice; rewrite fetch_no_faults by exact F; reflexivity).
  rewrite (bind_step _ _ w w (flow_data_of (newest_flows now (network_flows w)))).
  - unfold group_send. rewrite external_no_faults by exact F. reflexivity.
  - unfold lift. f_equal. apply map_result_total.
    intro f. rewrite bandwidth_mbps_value. reflexivity.
Qed.

Lemma keeps_statistics_send_flow_updates now :
  keeps flow_statistics (send_flow_updates now).
Proof.
  unfold send_flow_updates, group_send.
  apply (keeps_try_except flow_statistics); [|intros e w; reflexivity].
  apply (keeps_bind flow_statistics);
    [apply (keeps_fetch flow_statistics); intros; reflexivity | intro].
  apply (keeps_bind flow_statistics); [intro; reflexivity | intro].
  apply (keeps_external flow_statistics); intros; reflexivity.
Qed.

Lemma keeps_alerts_send_flow_updates now :
  keeps flow_alerts (send_flow_updates now).
Proof.
  unfold send_flow_updates, group_send.
  apply (keeps_try_except flow_alerts); [|intros e w; reflexivity].
  apply (keeps_bind flow_alerts);
    [apply (keeps_fetch flow_alerts); intros; reflexivity | intro].
  apply (keeps_bind flow_alerts); [intro; reflexivity | intro].
  apply (keeps_external flow_alerts); intros; reflexivity.
Qed.

(** The rows of a flow update over [table]: at most ten, flows of the
    trailing five minutes, newest first, and a flow of the window that is
    not among them is no newer than any of them, which are then ten. *)
Lemma newest_flows_spec now (table : list NetworkFlow.t) :
  let rows := newest_flows now table in
  (List.length rows <= 10)%nat
  /\ StronglySorted (heavier_first NetworkFlow.timestamp) rows
  /\ (forall f, In f rows ->
                In f table /\ now - minutes 5 <= NetworkFlow.timestamp f)
  /\ (forall g, In g table ->
                now - minutes 5 <= NetworkFlow.timestamp g ->
                In g rows
                \/ (List.length rows = 10%nat
                    /\ forall f, In f rows ->
                                 NetworkFlow.timestamp g <= NetworkFlow.timestamp f)).
Proof.
  cbv zeta. unfold newest_flows.
  destruct (sorted_prefix NetworkFlow.timestamp 10 _
              (ordering_sorted (filter (recent now) table)))
    as (Sorted & Cross).
  split; [apply firstn_le_length|]. split; [exact Sorted|]. split.
  - intros f Hf.
    assert (Hin : In f (ordering (filter (recent now) table))).
    { rewrite <- (firstn_skipn 10). apply in_or_app. left. exact Hf. }
    apply (Permutation_in _ (ordering_permutation _)), filter_In in Hin.
    destruct Hin as (Hin & R). split; [exact Hin | apply recent_spec, R].
  - intros g Hg R.
    assert (Hin : In g (ordering (filter (recent now) table))).
    { apply (Permutation_in _ (Permutation_sym (ordering_permutation _))), filter_In.
      split; [exact Hg | apply recent_spec, R]. }
    rewrite <- (firstn_skipn 10) in Hin. apply in_app_or in Hin.
    destruct Hin as [Hin | Hin]; [left; exact Hin | right]. split.
    + apply firstn_length_le.
      destruct (Nat.le_gt_cases 10
                  (List.length (ordering (filter (recent now) table))))
        as [L | L]; [exact L|].
      rewrite skipn_all2 in Hin by lia. contradiction.
    + intros f Hf. apply (Cross f g Hf Hin).
Qed.

(** X17. The flow update, when no call fails: one message is sent, with
    at most ten rows and the bandwidth of each; the rows are flows of
    the trailing five minutes, newest first, and a flow of the window
    that is not shown is no newer than any row shown, which are then
    ten. *)
Theorem flow_update_shows_newest_flows now w :
  faults w = [] ->
  exists rows,
    channel (after (send_flow_updates now) w)
    = channel w ++ [flow_update (map (fun f => (f, bandwidth f)) rows)]
    /\ (List.length rows <= 10)%nat
    /\ StronglySorted (heavier_first NetworkFlow.timestamp) rows
    /\ (forall f, In f rows ->
                  In f (network_flows w) /\ now - minutes 5 <= NetworkFlow.timestamp f)
    /\ (forall g, In g (network_flows w) ->
                  now - minutes 5 <= NetworkFlow.timestamp g ->
                  In g rows
                  \/ (List.length rows = 10%nat
                      /\ forall f, In f rows ->
                                   NetworkFlow.timestamp g <= NetworkFlow.timestamp f)).
Proof.
  intro F. exists (newest_flows now (network_flows w)).
  unfold after. rewrite send_flow_updates_no_faults by exact F.
  split; [reflexivity | apply newest_flows_spec].
Qed.

Lemma flow_update_shows_newest_flows_witness :
  exists rows,
    channel (after (send_flow_updates t0) twelve_flows_world)
    = channel twelve_flows_world ++ [flow_update (map (fun f => (f, bandwidth f)) rows)]
    /\ (List.length rows <= 10)%nat
    /\ StronglySorted (heavier_first NetworkFlow.timestamp) rows
    /\ (forall f, In f rows ->
                  In f (network_flows twelve_flows_world)
                  /\ t0 - minutes 5 <= NetworkFlow.timestamp f)
    /\ (forall g, In g (network_flows twelve_flows_world) ->
                  t0 - minutes 5 <= NetworkFlow.timestamp g ->
                  In g rows
                  \/ (List.length rows = 10%nat
                      /\ forall f, In f rows ->
                                   NetworkFlow.timestamp g <= NetworkFlow.timestamp f)).
Proof. exact (flow_update_shows_newest_flows t0 twelve_flows_world eq_refl). Defined.

(** The twelve flows: the update shows the ten newest, ids 12 down to 3. *)
Example twelve_flows_update :
  map (fun r => NetworkFlow.id (fst r))
      (match channel (after (send_flow_updates t0) twelve_flows_world) with
       | [flow_update data] => data
       | _ => []
       end)
  = [12; 11; 10; 9; 8; 7; 6; 5; 4; 3].
Proof. vm_compute. reflexivity. Qed.

(** X18. The flow update never fails its caller and never writes to the
    tables: whichever calls fail, it ends normally with the flows, the
    statistics and the alerts as they were. *)
Theorem flow_update_failure_is_swallowed now w :
  outcome (send_flow_updates now) w = Ok tt
  /\ network_flows (after (send_flow_updates now) w) = network_flows w
  /\ flow_statistics (after (send_flow_updates now) w) = flow_statistics w
  /\ flow_alerts (after (send_flow_updates now) w) = flow_alerts w.
Proof.
  split; [apply guarded_never_raises|]. split; [apply keeps_flows_send_flow_updates|].
  split; [apply keeps_statistics_send_flow_updates | apply keeps_alerts_send_flow_updates].
Qed.

(** ** The enrichment stage, when no call fails *)

Section EnrichmentRun.
Variable sha256_hexdigest : string -> string.
Variable isoformat : Z -> string.
Variable now : Z.

Notation process_ := (process_network_flows sha256_hexdigest isoformat now).
Notation batch_step_ := (batch_step sha256_hexdigest isoformat now).

Lemma process_network_flows_no_faults (w : World) :
  faults w = [] ->
  well_keyed (network_flows w) ->
  exists w',
    process_ w = (Ok tt, w')
    /\ network_flows w'
       = fold_left batch_step_
           (range_step (List.length (unprocessed (network_flows w))) 100)
           (network_flows w)
    /\ channel w'
       = match unprocessed (network_flows w) with
         | [] => channel w
         | _ => channel w ++ [flow_update (flow_data_of (newest_flows now (network_flows w')))]
         end.
Proof.
  intros F K. unfold process_network_flows. cbv zeta.
  change (objects_filter (fun f => negb (NetworkFlow.processed f)))
    with unprocessed.
  destruct (unprocessed (network_flows w)) as [|u rest] eqn:U.
  - eexists. split; [|split].
    + apply try_except_ok.
      rewrite (bind_step _ _ w w false)
        by (unfold qs_exists; rewrite fetch_no_faults by exact F; rewrite U; reflexivity).
      reflexivity.
    + reflexivity.
    + reflexivity.
  - set (shown := ("Processing " ++ str_int (len (u :: rest)) ++ " flows")%string).
    set (w1 := with_log (log w ++ [(INFO, shown)]) w).
    destruct (batches_no_faults sha256_hexdigest isoformat now
                (range_step (List.length (u :: rest)) 100) w1 F K)
      as (w2 & Run & F2 & Flows & Chan).
    eexists. split; [|split].
    + apply try_except_ok.
      rewrite (bind_step _ _ w w true)
        by (unfold qs_exists; rewrite fetch_no_faults by exact F; rewrite U; reflexivity).
      cbn [negb].
      rewrite (bind_step _ _ w w (len (u :: rest)))
        by (unfold qs_count; rewrite fetch_no_faults by exact F; rewrite U; reflexivity).
      rewrite (bind_step _ _ w w1 tt) by reflexivity.
      rewrite (bind_step _ _ w1 w1 (len (u :: rest)))
        by (unfold qs_count; rewrite fetch_no_faults by exact F;
            change (network_flows w1) with (network_flows w); rewrite U; reflexivity).
      unfold len at 1. rewrite Nat2Z.id.
      rewrite (bind_step _ _ w1 w2 tt) by exact Run.
      rewrite (bind_step _ _ w2 _ tt (send_flow_updates_no_faults now w2 F2)).
      reflexivity.
    + cbn [network_flows with_log with_channel]. exact Flows.
    + cbn [network_flows channel with_log with_channel]. rewrite Chan. reflexivity.
Qed.

(** X15. A backlog of at most one batch is cleared: when no call fails,
    the keys are unique and at most 100 flows await enrichment, the
    stage ends normally and leaves every flow processed. *)
Theorem backlog_of_one_batch_is_cleared (w : World) :
  faults w = [] ->
  well_keyed (network_flows w) ->
  (List.length (unprocessed (network_flows w)) <= 100)%nat ->
  outcome process_ w = Ok tt
  /\ Forall (fun f => NetworkFlow.processed f = true) (network_flows (after process_ w)).
Proof.
  intros F K L.
  destruct (process_network_flows_no_faults w F K) as (w' & Run & Flows & _).
  unfold outcome, after. rewrite Run. split; [reflexivity|]. cbn [snd].
  assert (Done : unprocessed (network_flows w') = []).
  { rewrite Flows.
    destruct (unprocessed (network_flows w)) as [|u rest] eqn:U.
    - cbn. exact U.
    - rewrite range_step_small by (cbn [List.length] in *; lia).
      cbn [fold_left]. apply first_batch_clears. rewrite U. exact L. }
  apply Forall_forall. intros f Hf.
  destruct (NetworkFlow.processed f) eqn:P; [reflexivity|].
  assert (Hu : In f (unprocessed (network_flows w'))).
  { apply filter_In. split; [exact Hf | rewrite P; reflexivity]. }
  rewrite Done in Hu. contradiction.
Qed.

(** X16. A backlog of more than one batch is not cleared in one run:
    each batch is a slice, at a growing offset, of the flows that await
    enrichment at that moment, so that flows are stepped over. When no
    call fails, the keys are unique and more than 100 flows await
    enrichment, the stage ends normally and leaves a flow unprocessed. *)
Theorem backlog_over_one_batch_is_not_cleared (w : World) :
  faults w = [] ->
  well_keyed (network_flows w) ->
  (100 < List.length (unprocessed (network_flows w)))%nat ->
  outcome process_ w = Ok tt
  /\ Exists (fun f => NetworkFlow.processed f = false) (network_flows (after process_ w)).
Proof.
  intros F K L.
  destruct (process_network_flows_no_faults w F K) as (w' & Run & Flows & _).
  unfold outcome, after. rewrite Run. split; [reflexivity|]. cbn [snd].
  destruct (range_step_large _ L) as (offsets & R & Later).
  rewrite R in Flows. cbn [fold_left] in Flows.
  assert (Left : unprocessed (network_flows w') <> []).
  { rewrite Flows. apply later_batches_leave.
    - apply batch_step_well_keyed, K.
    - exact Later.
    - apply first_batch_leaves; [apply K | exact L]. }
  destruct (unprocessed (network_flows w')) as [|f rest] eqn:U; [contradiction|].
  assert (Hf : In f (unprocessed (network_flows w'))) by (rewrite U; left; reflexivity).
  apply filter_In in Hf. destruct Hf as (Hf & P).
  apply Exists_exists. exists f. split; [exact Hf|].
  apply negb_true_iff, P.
Qed.

(** X19. The stage sends its update only after a backlog, and from the
    table as enrichment left it: when no call fails and the keys are
    unique, a run that finds no flow to enrich sends nothing and leaves
    the flows as they were, and any other run sends one flow update, with
    at most ten rows and the bandwidth of each; the rows are flows of the
    table that the run leaves, of the trailing five minutes, newest
    first, and a flow of that window that is not shown is no newer than
    any row shown, which are then ten. *)
Theorem update_follows_enrichment (w : World) :
  faults w = [] ->
  well_keyed (network_flows w) ->
  let w' := after process_ w in
  (unprocessed (network_flows w) = [] ->
   channel w' = channel w /\ network_flows w' = network_flows w)
  /\ (unprocessed (network_flows w) <> [] ->
      exists rows,
        channel w' = channel w ++ [flow_update (map (fun f => (f, bandwidth f)) rows)]
        /\ (List.length rows <= 10)%nat
        /\ StronglySorted (heavier_first NetworkFlow.timestamp) rows
        /\ (forall f, In f rows ->
                      In f (network_flows w')
                      /\ now - minutes 5 <= NetworkFlow.timestamp f)
        /\ (forall g, In g (network_flows w') ->
                      now - minutes 5 <= NetworkFlow.timestamp g ->
                      In g rows
                      \/ (List.length rows = 10%nat
                          /\ forall f, In f rows ->
                                       NetworkFlow.timestamp g
                                       <= NetworkFlow.timestamp f))).
Proof.
  intros F K.
  destruct (process_network_flows_no_faults w F K) as (w' & Run & Flows & Chan).
  unfold after. rewrite Run. cbn [snd]. split; intro U.
  - rewrite U in Chan, Flows. split; [exact Chan | exact Flows].
  - exists (newest_flows now (network_flows w')). split.
    + destruct (unprocessed (network_flows w)); [contradiction | exact Chan].
    + apply newest_flows_spec.
Qed.
End EnrichmentRun.

Lemma str_int_inj (a b : Z) : str_int a = str_int b -> a = b.
Proof.
  assert (Back : forall z, NilZero.int_of_string (str_int z) = Some (Z.to_int z)).
  { intro z. apply NilZero.isi; destruct z; simpl; try discriminate;
      intro E; injection E as E; exact (DecimalPos.Unsigned.to_uint_nonnil _ E). }
  intro E. apply DecimalZ.to_int_inj.
  pose proof (Back a) as Ha. rewrite E, Back in Ha. injection Ha as Ha. symmetry. exact Ha.
Qed.

Lemma NoDup_map_on {A B} (f : A -> B) (l : list A) :
  (forall x y, In x l -> In y l -> f x = f y -> x = y) ->
  NoDup l -> NoDup (map f l).
Proof.
  intros Inj U. induction U as [|a t Hfresh U IH]; simpl; constructor.
  - intro Hin. apply in_map_iff in Hin. destruct Hin as (y & E & Hy).
    apply Hfresh. rewrite <- (Inj y a (or_intror Hy) (or_introl eq_refl) E). exact Hy.
  - apply IH. intros x y Hx Hy. apply Inj; right; assumption.
Qed.

Lemma backlog_well_keyed (n : nat) : well_keyed (network_flows (backlog n)).
Proof.
  unfold backlog, world_of. cbn [network_flows]. split; [|split].
  - rewrite map_map. cbn [NetworkFlow.id sample_flow].
    apply NoDup_map_on; [|apply seq_NoDup].
    intros x y _ _ E. apply Nat2Z.inj, E.
  - rewrite map_map. cbn [NetworkFlow.flow_id sample_flow].
    apply NoDup_map_on; [|apply seq_NoDup].
    intros x y _ _ E. injection E as E. apply Nat2Z.inj, str_int_inj.
    repeat (injection E as E). exact E.
  - intros f Hf _. apply in_map_iff in Hf. destruct Hf as (i & <- & _). discriminate.
Qed.

Lemma backlog_of_one_batch_is_cleared_witness :
  outcome (process_network_flows sample_digest sample_isoformat t0) (backlog 3) = Ok tt
  /\ Forall (fun f => NetworkFlow.processed f = true)
            (network_flows
               (after (process_network_flows sample_digest sample_isoformat t0)
                      (backlog 3))).
Proof.
  assert (L : (List.length (unprocessed (network_flows (backlog 3))) <= 100)%nat)
    by (vm_compute; lia).
  exact (backlog_of_one_batch_is_cleared sample_digest sample_isoformat t0 (backlog 3)
           eq_refl (backlog_well_keyed 3) L).
Defined.

Lemma backlog_over_one_batch_is_not_cleared_witness :
  outcome (process_network_flows sample_digest sample_isoformat t0) (backlog 101) = Ok tt
  /\ Exists (fun f => NetworkFlow.processed f = false)
            (network_flows
               (after (process_network_flows sample_digest sample_isoformat t0)
                      (backlog 101))).
Proof.
  assert (L : (100 < List.length (unprocessed (network_flows (backlog 101))))%nat)
    by (vm_compute; lia).
  exact (backlog_over_one_batch_is_not_cleared sample_digest sample_isoformat t0
           (backlog 101) eq_refl (backlog_well_keyed 101) L).
Defined.

(** A backlog of 250 flows: 100 are left after the run. *)
Example backlog_of_250 :
  len (unprocessed
         (network_flows
            (after (process_network_flows sample_digest sample_isoformat t0)
                   (backlog 250))))
  = 100.
Proof. vm_compute. reflexivity. Qed.

Lemma twelve_flows_well_keyed : well_keyed (network_flows twelve_flows_world).
Proof.
  unfold twelve_flows_world, world_of. cbn [network_flows]. split; [|split].
  - rewrite map_map. cbn [NetworkFlow.id sample_flow].
    apply NoDup_map_on; [|apply seq_NoDup].
    intros x y _ _ E. apply Nat2Z.inj, E.
  - rewrite map_map. cbn [NetworkFlow.flow_id sample_flow].
    apply NoDup_map_on; [|apply seq_NoDup].
    intros x y _ _ E. injection E as E. apply Nat2Z.inj, str_int_inj.
    repeat (injection E as E). exact E.
  - intros f Hf _. apply in_map_iff in Hf. destruct Hf as (i & <- & _). discriminate.
Qed.

(** Twelve flows of distinct dates await enrichment: one update is sent
    after the run. *)
Lemma update_follows_enrichment_witness :
  let w' := after (process_network_flows sample_digest sample_isoformat t0)
                  twelve_flows_world in
  exists rows,
    channel w' = [flow_update (map (fun f => (f, bandwidth f)) rows)]
    /\ (List.length rows <= 10)%nat
    /\ StronglySorted (heavier_first NetworkFlow.timestamp) rows
    /\ (forall f, In f rows ->
                  In f (network_flows w') /\ t0 - minutes 5 <= NetworkFlow.timestamp f).
Proof.
  destruct (update_follows_enrichment sample_digest sample_isoformat t0
              twelve_flows_world eq_refl twelve_flows_well_keyed)
    as (_ & Sent).
  assert (U : unprocessed (network_flows twelve_flows_world) <> [])
    by (vm_compute; discriminate).
  destruct (Sent U) as (rows & C & L & S & In_rows & _).
  exists rows. split; [exact C|]. split; [exact L|]. split; [exact S | exact In_rows].
Defined.

(** The update shows the ten newest of the twelve, ids 12 down to 3, as
    enrichment left them: processed. *)
Example twelve_flows_enriched_update :
  map (fun r => (NetworkFlow.id (fst r), NetworkFlow.processed (fst r)))
      (match channel (after (process_network_flows sample_digest sample_isoformat t0)
                            twelve_flows_world) with
       | [flow_update data] => data
       | _ => []
       end)
  = [(12, true); (11, true); (10, true); (9, true); (8, true);
     (7, true); (6, true); (5, true); (4, true); (3, true)].
Proof. vm_compute. reflexivity. Qed.
(** ** Protocol names *)

(** X20. The protocol name tells the protocol number: two flows with
    the same name from [_get_protocol_name] have the same protocol
    number, whether it is one of the seven known ones or not. *)
Theorem protocol_name_tells_protocol (f g : NetworkFlow.t) :
  NetworkFlow._get_protocol_name f = NetworkFlow._get_protocol_name g ->
  NetworkFlow.protocol f = NetworkFlow.protocol g.
Proof.
  unfold NetworkFlow._get_protocol_name. cbv zeta.
  repeat match goal with
         | |- context [?a =? ?b] =>
             let E := fresh "E" in
             destruct (a =? b) eqn:E; [apply Z.eqb_eq in E|]
         end;
    intro H; try congruence; try discriminate H.
  injection H as H. apply str_int_inj, H.
Qed.

Lemma protocol_name_tells_protocol_witness :
  NetworkFlow.protocol (sample_flow 1 (minutes 8) "10.0.0.1" "10.0.1.1" 80 47 0)
  = NetworkFlow.protocol (sample_flow 2 (minutes 9) "10.0.0.2" "10.0.1.1" 443 47 10).
Proof.
  apply (protocol_name_tells_protocol
           (sample_flow 1 (minutes 8) "10.0.0.1" "10.0.1.1" 80 47 0)
           (sample_flow 2 (minutes 9) "10.0.0.2" "10.0.1.1" 443 47 10)).
  reflexivity.
Defined.

(** ** The statistics update *)

(** X21. The statistics update, when no call fails: with no snapshot of
    the 1m period in the trailing five minutes nothing is sent; otherwise
    one message is sent, made from the newest of these snapshots, with
    its totals and with its two lists of top addresses cut to five
    entries.  The snapshots are not written. *)
Theorem statistics_update_shows_latest_minute now w :
  faults w = [] ->
  let w' := after (send_statistics_updates now) w in
  flow_statistics w' = flow_statistics w
  /\ (latest_minutes now (flow_statistics w) = [] -> channel w' = channel w)
  /\ (latest_minutes now (flow_statistics w) <> [] ->
      exists s,
        channel w' = channel w ++ [statistics_update (stats_data s)]
        /\ In s (flow_statistics w)
        /\ FlowStatistics.period s = "1m"
        /\ now - minutes 5 <= FlowStatistics.timestamp s
        /\ (forall s', In s' (latest_minutes now (flow_statistics w)) ->
                       FlowStatistics.timestamp s' <= FlowStatistics.timestamp s)
        /\ FlowStatistics.total_flows (stats_data s) = FlowStatistics.total_flows s
        /\ FlowStatistics.top_src_ips (stats_data s)
           = firstn 5 (FlowStatistics.top_src_ips s)
        /\ FlowStatistics.top_dst_ips (stats_data s)
           = firstn 5 (FlowStatistics.top_dst_ips s)).
Proof.
  intros F w'. unfold w', after, send_statistics_updates, try_except, bind.
  rewrite external_no_faults by exact F. fold (latest_minutes now (flow_statistics w)).
  pose proof (sort_by_permutation
                (fun a b => FlowStatistics.timestamp b <=? FlowStatistics.timestamp a)
                (latest_minutes now (flow_statistics w))) as P.
  pose proof (sort_by_sorted FlowStatistics.timestamp
                (latest_minutes now (flow_statistics w))) as S.
  destruct (sort_by _ (latest_minutes now (flow_statistics w))) as [|s rest] eqn:E;
    cbn [hd_error].
  - cbn. split; [reflexivity|]. split; [reflexivity|].
    intro Ne. exfalso. apply Ne. apply Permutation_nil, P.
  - unfold group_send. rewrite external_no_faults by exact F. cbn [snd fst].
    split; [reflexivity|]. split.
    + intro Em. rewrite Em in P. apply Permutation_sym, Permutation_nil in P.
      discriminate P.
    + intros _. exists s.
      assert (Hs : In s (latest_minutes now (flow_statistics w)))
        by (apply (Permutation_in _ P); left; reflexivity).
      apply filter_In in Hs. destruct Hs as (Hin & C).
      apply andb_true_iff in C. destruct C as (C1 & C2).
      apply String.eqb_eq in C1. apply Z.leb_le in C2.
      split; [reflexivity|]. split; [exact Hin|]. split; [exact C1|].
      split; [exact C2|]. split; [|repeat split].
      intros s' Hs'. apply (Permutation_in _ (Permutation_sym P)) in Hs'.
      inversion S as [|? ? _ Fs]; subst.
      destruct Hs' as [<- | Hs']; [lia|].
      rewrite Forall_forall in Fs. apply (Fs s' Hs').
Qed.

Lemma statistics_update_shows_latest_minute_witness :
  flow_statistics (after (send_statistics_updates t0) three_minutes_world)
  = flow_statistics three_minutes_world
  /\ exists s,
      channel (after (send_statistics_updates t0) three_minutes_world)
      = channel three_minutes_world ++ [statistics_update (stats_data s)]
      /\ FlowStatistics.timestamp s = minutes 8.
Proof.
  destruct (statistics_update_shows_latest_minute t0 three_minutes_world eq_refl)
    as (Same & _ & Sent).
  split; [exact Same|].
  destruct Sent as (s & Chan & Hin & Per & Young & Newest & _).
  - discriminate.
  - exists s. split; [exact Chan|].
    assert (Up : minutes 8 <= FlowStatistics.timestamp s)
      by (apply (Newest (sample_snapshot "1m" (minutes 8))); right; left; reflexivity).
    destruct Hin as [<- | [<- | [<- | [<- | []]]]];
      try reflexivity; try discriminate Per; exfalso; revert Up; cbn; lia.
Defined.

